(** * Voice agent: conversation turn, lead qualification and tenant resolution

    A shallow embedding of the JavaScript sources of the voice agent:
    the [voice-stream] turn handlers and the evaluation of their
    modules, the lead analysis and scoring helpers, the lead upsert, the
    Firebase business lookup and the greeting handler with its error
    response; then the conversation context of the voice manager, the
    text sent to the synthesiser, the greeting and the opening hours of a
    tenant, the analytics of the lead dashboard, the business
    configuration API and the tenant-scoped conversation sessions.

    JavaScript strings are sequences of UTF-16 code units.  A Rocq
    [string] stands here for a JavaScript string whose code units are all
    below 256, one [ascii] per code unit. *)

From Stdlib Require Import ZArith NArith Lia Bool List Ascii String Floats.
From stdpp Require Import base option strings pretty gmap.
Import ListNotations.

Set Warnings "-inexact-float,-register-all".

Local Open Scope Z_scope.
Local Open Scope string_scope.

(** ** JavaScript string primitives *)

Module Js.

Definition codeUnit (c : ascii) : N := N_of_ascii c.

Definition inRange (lo hi n : N) : bool := ((lo <=? n) && (n <=? hi))%N.

(** [String.prototype.toLowerCase] on one code unit below 256: the
    letters A-Z and the Latin-1 capitals U+00C0..U+00DE (U+00D7, the
    multiplication sign, apart) move up by 32. *)
Definition toLowerCaseUnit (c : ascii) : ascii :=
  let n := codeUnit c in
  if inRange 65 90 n || (inRange 192 222 n && negb (n =? 215)%N)
  then ascii_of_N (n + 32)
  else c.

Fixpoint toLowerCase (s : string) : string :=
  match s with
  | EmptyString => EmptyString
  | String c s' => String (toLowerCaseUnit c) (toLowerCase s')
  end.

Fixpoint startsWith (s p : string) : bool :=
  match p, s with
  | EmptyString, _ => true
  | String _ _, EmptyString => false
  | String a p', String b s' => if Ascii.eqb a b then startsWith s' p' else false
  end.

(** [s.includes(sub)] *)
Fixpoint includes (s sub : string) : bool :=
  startsWith s sub ||
  match s with
  | EmptyString => false
  | String _ s' => includes s' sub
  end.

(** WhiteSpace and LineTerminator code units below 256: TAB, LF, VT, FF,
    CR, SP and NBSP.  The same set is what the regular expression class
    [\s] accepts. *)
Definition isWhiteSpace (c : ascii) : bool :=
  let n := codeUnit c in
  inRange 9 13 n || (n =? 32)%N || (n =? 160)%N.

Fixpoint trimStart (s : string) : string :=
  match s with
  | String c s' => if isWhiteSpace c then trimStart s' else s
  | EmptyString => EmptyString
  end.

Fixpoint rev (s acc : string) : string :=
  match s with
  | EmptyString => acc
  | String c s' => rev s' (String c acc)
  end.

(** [s.trim()] *)
Definition trim (s : string) : string :=
  rev (trimStart (rev (trimStart s) EmptyString)) EmptyString.

(** Truthiness of a string value, and of a value that is a string or
    [null]/[undefined]. *)
Definition truthy (s : string) : bool :=
  match s with EmptyString => false | _ => true end.

Definition truthyOpt (o : option string) : bool :=
  match o with Some s => truthy s | None => false end.

(** [o === s] for a value that is a string or [null]. *)
Definition strictEq (o : option string) (s : string) : bool :=
  match o with Some x => String.eqb x s | None => false end.

Fixpoint take (n : nat) (s : string) : string :=
  match n, s with
  | S n', String c s' => String c (take n' s')
  | _, _ => EmptyString
  end.

End Js.

(** ** Backtracking regular expressions

    The fragment of ECMAScript regular expressions used by the name
    pattern: character matchers, concatenation, ordered alternation,
    greedy [+] and [?], and one capturing group.  The matcher is the
    usual backtracking one, written with continuations: alternatives
    are tried left to right, a greedy quantifier first tries one more
    iteration and falls back to the continuation. *)

Module Regex.

Inductive regex : Type :=
| Chr (accept : ascii -> bool)
| Cat (r1 r2 : regex)
| Alt (r1 r2 : regex)
| Plus (r : regex)
| Opt (r : regex)
| Group (r : regex).

(** Canonicalize of the ignore-case flag (without the unicode flag): the
    upper-case code unit, except that a code unit of 128 or more is never
    folded onto one below 128, and a character whose upper case is not a
    single code unit (U+00DF) stays as it is. *)
Definition canonicalize (c : ascii) : N :=
  let n := Js.codeUnit c in
  if Js.inRange 97 122 n then (n - 32)%N
  else if Js.inRange 224 254 n && negb (n =? 247)%N then (n - 32)%N
  else if (n =? 255)%N then 376%N
  else if (n =? 181)%N then 924%N
  else n.

(** A literal character under the [i] flag. *)
Definition chrI (c : ascii) : regex :=
  Chr (fun x => (canonicalize x =? canonicalize c)%N).

(** A character class [[lo-hi]] under the [i] flag: some member of the
    class has the same canonical form as the input character. *)
Definition classI (lo hi : N) : regex :=
  Chr (fun x =>
         existsb (fun k => (canonicalize (ascii_of_N (lo + N.of_nat k)) =? canonicalize x)%N)
                 (seq 0 (N.to_nat (hi - lo) + 1))).

Definition whiteSpace : regex := Chr Js.isWhiteSpace.

Fixpoint litI (s : string) : regex :=
  match s with
  | EmptyString => Chr (fun _ => false)
  | String c EmptyString => chrI c
  | String c s' => Cat (chrI c) (litI s')
  end.

Definition orElse {A} (x y : option A) : option A :=
  match x with Some _ => x | None => y end.

(** [run r s cap k]: match [r] at the front of [s], then continue with
    [k] on the rest of the input and the capture of group 1. *)
Fixpoint run {A} (r : regex) (s : string) (cap : option string)
         (k : string -> option string -> option A) : option A :=
  match r with
  | Chr accept =>
      match s with
      | String c s' => if accept c then k s' cap else None
      | EmptyString => None
      end
  | Cat r1 r2 => run r1 s cap (fun s1 cap1 => run r2 s1 cap1 k)
  | Alt r1 r2 => orElse (run r1 s cap k) (run r2 s cap k)
  | Opt r1 => orElse (run r1 s cap k) (k s cap)
  | Group r1 =>
      run r1 s cap
          (fun s1 _ => k s1 (Some (Js.take (String.length s - String.length s1) s)))
  | Plus r1 =>
      (fix iterate (fuel : nat) (s0 : string) (cap0 : option string) : option A :=
         run r1 s0 cap0
             (fun s1 cap1 =>
                match fuel with
                | O => k s1 cap1
                | S fuel' =>
                    if (String.length s1 <? String.length s0)%nat
                    then orElse (iterate fuel' s1 cap1) (k s1 cap1)
                    else k s1 cap1
                end))
        (String.length s) s cap
  end.

(** [RegExp.prototype.exec] without the global flag: the leftmost start
    position at which the pattern matches; the result is capture 1. *)
Fixpoint exec (r : regex) (s : string) : option (option string) :=
  match run r s None (fun _ cap => Some cap) with
  | Some cap => Some cap
  | None =>
      match s with
      | EmptyString => None
      | String _ s' => exec r s'
      end
  end.

End Regex.

(** ** Lead analysis and scoring ([analyzeMessage], [calculateLeadScore]) *)

(** [contactInfo]: an object whose only field written by this code is the
    optional [name]. *)
Record ContactInfo : Type := mkContactInfo { name : option string }.

(** The per-utterance result of [analyzeMessage]. *)
Record Analysis : Type := mkAnalysis {
  a_hasEmergency : bool;
  a_serviceType : option string;
  a_urgencyLevel : string;
  a_contactInfo : ContactInfo
}.

(** The aggregated [leadInfo] of a session. *)
Record LeadInfo : Type := mkLeadInfo {
  hasEmergency : bool;
  serviceType : option string;
  contactInfo : ContactInfo;
  urgencyLevel : string;
  qualificationScore : Z
}.

Definition emergencyKeywords : list string :=
  ["emergency"; "urgent"; "no heat"; "no air"; "gas smell"; "electrical"; "flooding"].

(** The [serviceTypes] object; [Object.entries] lists its keys in the
    order they are written. *)
Definition serviceTypes : list (string * list string) :=
  [ ("heating", ["heat"; "furnace"; "boiler"; "warm"]);
    ("cooling", ["cool"; "air conditioning"; "ac"; "cold"]);
    ("maintenance", ["service"; "tune up"; "check"]);
    ("installation", ["install"; "new"; "replace"]);
    ("repair", ["repair"; "fix"; "broken"]) ].

(** [keywords.some(keyword => lowerMessage.includes(keyword))] *)
Definition someIncluded (lowerMessage : string) (keywords : list string) : bool :=
  existsb (fun keyword => Js.includes lowerMessage keyword) keywords.

(** The [for ... of] loop over the entries, left at the first hit. *)
Fixpoint detectServiceType (lowerMessage : string)
         (entries : list (string * list string)) : option string :=
  match entries with
  | [] => None
  | (type, keywords) :: rest =>
      if someIncluded lowerMessage keywords then Some type
      else detectServiceType lowerMessage rest
  end.

(** [/(?:my name is|i'm|i am)\s+([a-z]+(?:\s+[a-z]+)?)/i]: the words
    [[a-z]+], the gaps [\s+], the group and the whole pattern. *)
Definition nameWord : Regex.regex := Regex.Plus (Regex.classI 97 122).

Definition nameGap : Regex.regex := Regex.Plus Regex.whiteSpace.

Definition nameGroup : Regex.regex :=
  Regex.Cat nameWord (Regex.Opt (Regex.Cat nameGap nameWord)).

Definition namePattern : Regex.regex :=
  Regex.Cat
    (Regex.Alt (Regex.litI "my name is")
               (Regex.Alt (Regex.litI "i'm") (Regex.litI "i am")))
    (Regex.Cat nameGap (Regex.Group nameGroup)).

(** [message.match(...)], then [nameMatch[1].trim()] when it matched. *)
Definition extractName (message : string) : option string :=
  match Regex.exec namePattern message with
  | Some (Some captured) => Some (Js.trim captured)
  | _ => None
  end.

Definition analyzeMessage (message : string) : Analysis :=
  let lowerMessage := Js.toLowerCase message in
  let emergency := someIncluded lowerMessage emergencyKeywords in
  {| a_hasEmergency := emergency;
     a_serviceType := detectServiceType lowerMessage serviceTypes;
     a_urgencyLevel := if emergency then "emergency" else "normal";
     a_contactInfo := {| name := extractName message |} |}.

Definition calculateLeadScore (leadInfo : LeadInfo) : Z :=
  let score := 10 in
  let score := if hasEmergency leadInfo then score + 50 else score in
  let score :=
    if Js.strictEq (serviceType leadInfo) "installation" then score + 40
    else if Js.truthyOpt (serviceType leadInfo) then score + 20
    else score in
  let score := if Js.truthyOpt (name (contactInfo leadInfo)) then score + 15 else score in
  let score := if String.eqb (urgencyLevel leadInfo) "emergency" then score + 30 else score in
  Z.min score 100.

(** The writes of the turn handler to the session's [leadInfo]
    (the four guarded assignments and the recomputation of the score). *)
Definition mergeAnalysis (leadInfo : LeadInfo) (analysis : Analysis) : LeadInfo :=
  let hasEmergency' :=
    if a_hasEmergency analysis then true else hasEmergency leadInfo in
  let serviceType' :=
    if Js.truthyOpt (a_serviceType analysis)
    then a_serviceType analysis else serviceType leadInfo in
  let urgencyLevel' :=
    if Js.truthy (a_urgencyLevel analysis)
    then a_urgencyLevel analysis else urgencyLevel leadInfo in
  let contactInfo' :=
    if Js.truthyOpt (name (a_contactInfo analysis))
    then {| name := name (a_contactInfo analysis) |} else contactInfo leadInfo in
  let merged :=
    {| hasEmergency := hasEmergency';
       serviceType := serviceType';
       contactInfo := contactInfo';
       urgencyLevel := urgencyLevel';
       qualificationScore := qualificationScore leadInfo |} in
  {| hasEmergency := hasEmergency';
     serviceType := serviceType';
     contactInfo := contactInfo';
     urgencyLevel := urgencyLevel';
     qualificationScore := calculateLeadScore merged |}.

(** The [leadInfo] a session starts with. *)
Definition initialLeadInfo : LeadInfo :=
  {| hasEmergency := false;
     serviceType := None;
     contactInfo := {| name := None |};
     urgencyLevel := "normal";
     qualificationScore := 0 |}.

(** ** Effects: exceptions, module state and external services *)

(** The completion of a JavaScript computation: a value, or an exception
    with its [message]. *)
Inductive Outcome (A : Type) : Type :=
| Returns (a : A)
| Throws (message : string).
Arguments Returns {A} a.
Arguments Throws {A} message.

(** The telephony markup (TwiML) documents the handlers build.  Every
    [Gather] of the sources has [input="speech"], [speechTimeout="auto"]
    and [method="POST"]; its [timeout] and [action] are kept.  The turn
    handlers write a document as a template string and put the reply of
    the language model between the tags as it is; a document is kept here
    as the tree of its verbs, which says nothing of how a reply that
    holds markup characters is read. *)
Inductive Verb : Type :=
| Say (voice : string) (text : string)
| Play (url : string)
| Gather (timeout : string) (action : string) (children : list Verb)
| Redirect (url : string)
| Hangup.

Inductive Body : Type :=
| Markup (response : list Verb)
| PlainText (text : string).

(** [context.res] *)
Record Response : Type := mkResponse {
  status : option Z;
  contentType : option string;
  body : Body
}.

Definition isHangup (v : Verb) : bool :=
  match v with Hangup => true | _ => false end.

Definition isGather (v : Verb) : bool :=
  match v with Gather _ _ _ => true | _ => false end.

(** A markup document that ends the call. *)
Definition isHangupMarkup (b : Body) : bool :=
  match b with Markup vs => existsb isHangup vs | PlainText _ => false end.

(** A markup document that keeps the conversation going: it gathers the
    next utterance. *)
Definition isGatherMarkup (b : Body) : bool :=
  match b with Markup vs => existsb isGather vs | PlainText _ => false end.

(** A value of a parsed form body: missing, a string, or (for a repeated
    key) an array of strings. *)
Inductive FormValue : Type :=
| FUndefined
| FString (s : string)
| FArray (items : list string).

Definition truthyValue (v : FormValue) : bool :=
  match v with
  | FUndefined => false
  | FString s => Js.truthy s
  | FArray _ => true
  end.

(** [v.trim().length]: only strings have [trim]. *)
Definition trimLength (v : FormValue) : Outcome nat :=
  match v with
  | FString s => Returns (String.length (Js.trim s))
  | FUndefined => Throws "Cannot read properties of undefined (reading 'trim')"
  | FArray _ => Throws "speechResult.trim is not a function"
  end.

(** The fields of the webhook form read by the turn handler.  Twilio sends
    [CallSid] and [From] with every webhook; they are strings here.
    [Confidence] is the field as [parseFloat] reads it, [None] when the
    field is missing or empty. *)
Record FormData : Type := mkFormData {
  SpeechResult : FormValue;
  CallSid : string;
  From : string;
  Confidence : option float
}.

(** [req]: [reqBody] is [None] for a missing or empty body, otherwise the
    form data ([querystring.parse] of a string body, or the body object). *)
Record Request : Type := mkRequest {
  method : string;
  reqBody : option FormData
}.

Record Message : Type := mkMessage { role : string; content : string }.

Record Session : Type := mkSession {
  messages : list Message;
  leadInfo : LeadInfo;
  callSid : string;
  phoneNumber : string;
  isFromDb : bool
}.

(** A document of the [leads] container. *)
Record LeadDoc : Type := mkLeadDoc {
  ld_id : string;
  ld_phoneNumber : string;
  ld_leadInfo : LeadInfo;
  lastContact : string;
  lastCallSid : string;
  score : Z;
  ttl : Z
}.

(** Requests sent to the external services. *)
Inductive Event : Type :=
| EvConnect
| EvQueryTranscripts (callSid : string)
| EvQueryHistory (phoneNumber : string)
| EvReadLead (phoneNumber : string)
| EvCreateMessage (callSid phoneNumber role content : string)
| EvUpsertLead (doc : LeadDoc)
| EvChatCompletion (messages : list Message).

(** The state that outlives an invocation: the module-level variables
    [isDbConnected] and [conversationSessions], the [leads] container of
    the database, and the requests issued so far (oldest first). *)
Record World : Type := mkWorld {
  isDbConnected : bool;
  conversationSessions : gmap string Session;
  leadsContainer : gmap string LeadDoc;
  outbound : list Event
}.

Definition initialWorld : World :=
  {| isDbConnected := false;
     conversationSessions := ∅;
     leadsContainer := ∅;
     outbound := [] |}.

(** What the environment answers during one invocation: the process
    settings and the completion of each external call the handler makes.
    The [transcripts] container is only known through the answers to the
    two queries. *)
Record Env : Type := mkEnv {
  openaiReady : bool;
  COSMOS_CONN : option string;
  connectOutcome : Outcome unit;
  existingMessagesOutcome : Outcome (list Message);
  previousCallsOutcome : Outcome nat;
  leadReadOutcome : Outcome unit;
  createUserOutcome : Outcome unit;
  createAssistantOutcome : Outcome unit;
  upsertOutcome : Outcome unit;
  completionOutcome : Outcome string;
  now : string
}.

(** Computations over a module state [S] that may throw; the state
    written before an exception stays written. *)
Definition Eff (S A : Type) : Type := S -> Outcome A * S.

Definition ret {S A} (a : A) : Eff S A := fun w => (Returns a, w).

Definition throw {S A} (message : string) : Eff S A := fun w => (Throws message, w).

Definition bind {S A B} (c : Eff S A) (k : A -> Eff S B) : Eff S B :=
  fun w =>
    match c w with
    | (Returns a, w') => k a w'
    | (Throws message, w') => (Throws message, w')
    end.

(** [try { c } catch (error) { handler(error.message) }] *)
Definition tryCatch {S A} (c : Eff S A) (handler : string -> Eff S A) : Eff S A :=
  fun w =>
    match c w with
    | (Returns a, w') => (Returns a, w')
    | (Throws message, w') => handler message w'
    end.

Definition liftOutcome {S A} (o : Outcome A) : Eff S A := fun w => (o, w).

Definition get {S} : Eff S S := fun w => (Returns w, w).

Definition modify {S} (f : S -> S) : Eff S unit := fun w => (Returns tt, f w).

(** The computations of the turn handler run over [World]. *)
Abbreviation M := (Eff World).

(** An external request: it is recorded, and completes as the environment
    says. *)
Definition request {A} (e : Event) (o : Outcome A) : M A :=
  fun w =>
    (o, {| isDbConnected := isDbConnected w;
           conversationSessions := conversationSessions w;
           leadsContainer := leadsContainer w;
           outbound := outbound w ++ [e] |}).

Declare Scope js_scope.
Delimit Scope js_scope with js.
Notation "x <- c ;; k" := (bind c (fun x => k))
  (at level 100, c at next level, right associativity) : js_scope.
Notation "c ;;; k" := (bind c (fun _ => k))
  (at level 100, right associativity) : js_scope.
Local Open Scope js_scope.

Definition setDbConnected (b : bool) : M unit :=
  modify (fun w =>
            {| isDbConnected := b;
               conversationSessions := conversationSessions w;
               leadsContainer := leadsContainer w;
               outbound := outbound w |}).

Definition setSession (key : string) (session : Session) : M unit :=
  modify (fun w =>
            {| isDbConnected := isDbConnected w;
               conversationSessions := <[key := session]> (conversationSessions w);
               leadsContainer := leadsContainer w;
               outbound := outbound w |}).

Definition upsertLeadDoc (doc : LeadDoc) : M unit :=
  modify (fun w =>
            {| isDbConnected := isDbConnected w;
               conversationSessions := conversationSessions w;
               leadsContainer := <[ld_id doc := doc]> (leadsContainer w);
               outbound := outbound w |}).

(** ** The turn handler with lead intelligence ([voice-stream]) *)

Module VoiceStream.

Definition streamUrl : string :=
  "https://func-blucallerai-dkavgbhvdkesgmer.westus-01.azurewebsites.net/api/voice-stream".

Definition twimlUrl : string :=
  "https://func-blucallerai-dkavgbhvdkesgmer.westus-01.azurewebsites.net/api/voice-twiml".

Definition jenny : string := "en-US-JennyNeural".

Definition systemPrompt : string :=
  "You are an HVAC service representative for Blue Caller HVAC. Be conversational and helpful.

GOALS:
- Help with heating/cooling questions
- Get contact info naturally 
- Identify service needs
- Handle emergencies urgently

RESPONSE STYLE:
- Keep responses SHORT (1-2 sentences max)
- Be natural and friendly
- Ask ONE follow-up question max".

Definition newline : string := String (ascii_of_N 10) EmptyString.

(** The system prompt of the database path. *)
Definition systemPromptDb (previousCalls : nat) : string :=
  systemPrompt ++ newline ++ newline ++
  "EMERGENCIES: no heat, no AC, gas smell - offer immediate help" ++
  (if (0 <? previousCalls)%nat
   then newline ++ newline ++ "Returning customer (" ++ pretty previousCalls ++ " previous calls)"
   else "").

(** [initializeCosmosDB]: a connection string that is missing or not in
    the SQL API format is refused before any connection is tried; the
    connection attempt (raced against its five-second timer) either
    completes or throws, and the [catch] turns that into [false]. *)
Definition initializeCosmosDB (env : Env) : M bool :=
  w <- get ;;
  if isDbConnected w then ret true
  else
    tryCatch
      (if negb (Js.truthyOpt (COSMOS_CONN env)) then ret false
       else
         let conn := default "" (COSMOS_CONN env) in
         if negb (Js.includes conn "AccountEndpoint=") || negb (Js.includes conn "AccountKey=")
         then ret false
         else
           request EvConnect (connectOutcome env) ;;;
           setDbConnected true ;;;
           ret true)
      (fun _ => setDbConnected false ;;; ret false).

(** The read of the lead document: [None] when there is none. *)
Definition readLead (env : Env) (phoneNumber : string) : M (option LeadDoc) :=
  request (EvReadLead phoneNumber) (leadReadOutcome env) ;;;
  w <- get ;;
  ret (leadsContainer w !! phoneNumber).

(** Where a session object lives: in the [Map] under a key, or nowhere
    but in the running invocation. *)
Inductive SessionRef : Type :=
| Held (key : string)
| Fresh.

Definition sessionFromDb (env : Env) (callSid phoneNumber : string)
  : M (SessionRef * Session) :=
  existingMessages <- request (EvQueryTranscripts callSid) (existingMessagesOutcome env) ;;
  previousCalls <- request (EvQueryHistory phoneNumber) (previousCallsOutcome env) ;;
  let messages :=
    {| role := "system"; content := systemPromptDb previousCalls |}
    :: filter (fun msg => negb (String.eqb (role msg) "system")) (rev existingMessages) in
  leadInfo <-
    tryCatch
      (existingLead <- readLead env phoneNumber ;;
       match existingLead with
       | Some doc => ret (ld_leadInfo doc)
       | None => ret initialLeadInfo
       end)
      (fun _ => ret initialLeadInfo) ;;
  ret (Fresh,
       {| messages := messages;
          leadInfo := leadInfo;
          callSid := callSid;
          phoneNumber := phoneNumber;
          isFromDb := true |}).

Definition sessionFromMemory (callSid phoneNumber : string)
  : M (SessionRef * Session) :=
  w <- get ;;
  match conversationSessions w !! callSid with
  | Some session => ret (Held callSid, session)
  | None =>
      let session :=
        {| messages := [ {| role := "system"; content := systemPrompt |} ];
           leadInfo := initialLeadInfo;
           callSid := callSid;
           phoneNumber := phoneNumber;
           isFromDb := false |} in
      setSession callSid session ;;;
      ret (Held callSid, session)
  end.

(** [getOrCreateSession]: the database path when connected, and the
    in-memory [Map] when not connected or when the database path threw. *)
Definition getOrCreateSession (env : Env) (callSid phoneNumber : string)
  : M (SessionRef * Session) :=
  w <- get ;;
  if isDbConnected w
  then tryCatch (sessionFromDb env callSid phoneNumber)
                (fun _ => sessionFromMemory callSid phoneNumber)
  else sessionFromMemory callSid phoneNumber.

(** A session of the fallback path is the object the [Map] holds: a
    write to it is a write to the [Map]'s entry.  A session of the
    database path is a fresh object. *)
Definition writeSession (ref : SessionRef) (session : Session) : M unit :=
  match ref with
  | Held key => setSession key session
  | Fresh => ret tt
  end.

Definition saveMessage (outcome : Outcome unit)
           (callSid phoneNumber role content : string) : M bool :=
  w <- get ;;
  if negb (isDbConnected w) then ret false
  else
    tryCatch
      (request (EvCreateMessage callSid phoneNumber role content) outcome ;;;
       ret true)
      (fun _ => ret false).

(** [updateLead].  The handler calls it without [await]: the upsert is
    requested during the turn, and the document is stored here as soon
    as the request completes; in the source that may be after the
    handler has returned. *)
Definition updateLead (env : Env) (phoneNumber : string) (leadInfo : LeadInfo)
           (callSid : string) : M bool :=
  w <- get ;;
  if negb (isDbConnected w) then ret false
  else
    tryCatch
      (let leadDoc :=
         {| ld_id := phoneNumber;
            ld_phoneNumber := phoneNumber;
            ld_leadInfo := leadInfo;
            lastContact := now env;
            lastCallSid := callSid;
            score := calculateLeadScore leadInfo;
            ttl := 60 * 60 * 24 * 365 * 2 |} in
       request (EvUpsertLead leadDoc) (upsertOutcome env) ;;;
       upsertLeadDoc leadDoc ;;;
       ret true)
      (fun _ => ret false).

Definition getAIResponse (env : Env) (messages : list Message) : M string :=
  tryCatch
    (if negb (openaiReady env) then throw "OpenAI client not initialized"
     else request (EvChatCompletion messages) (completionOutcome env))
    (fun message =>
       if Js.includes message "not initialized"
       then ret "I'm having trouble with my AI service. Let me connect you with someone who can help."
       else if Js.includes message "deployment"
       then ret "I'm having configuration issues. Please call back in a few minutes."
       else ret "I'm having trouble right now. Could you try again?").

Definition xmlResponse (doc : list Verb) : Response :=
  {| status := None; contentType := Some "text/xml"; body := Markup doc |}.

Definition listening : Verb := Gather "30" streamUrl [Say jenny "I'm listening."].

Definition clarificationTwiml : list Verb :=
  [ Say jenny "Sorry, didn't catch that. What can I help you with?";
    listening;
    Redirect twimlUrl ].

Definition responseTwiml (aiResponse followUpPrompt : string) : list Verb :=
  [ Say jenny aiResponse;
    Gather "30" streamUrl [Say jenny followUpPrompt];
    Redirect twimlUrl ].

Definition noSpeechTwiml : list Verb :=
  [ Say jenny "Didn't hear you. How can I help?";
    listening;
    Redirect twimlUrl ].

Definition errorTwiml : list Verb :=
  [ Say jenny "Sorry, I had an error. Please try calling again."; Hangup ].

Definition readyResponse : Response :=
  {| status := Some 200; contentType := None; body := PlainText "Voice stream endpoint ready" |}.

Definition errorResponse : Response :=
  {| status := Some 200; contentType := Some "text/xml"; body := Markup errorTwiml |}.

(** [parseFloat(formData.Confidence || 0)] *)
Definition confidenceOf (formData : FormData) : float :=
  match Confidence formData with
  | Some c => c
  | None => 0%float
  end.

(** [confidence < 0.3 && speechResult && speechResult.trim().length < 3] *)
Definition isLowConfidence (confidence : float) (speechResult : FormValue) : Outcome bool :=
  if (confidence <? 0.3)%float then
    if truthyValue speechResult then
      match trimLength speechResult with
      | Returns n => Returns (n <? 3)%nat
      | Throws message => Throws message
      end
    else Returns false
  else Returns false.

(** [speechResult && speechResult.trim().length > 0] *)
Definition hasSpeech (speechResult : FormValue) : Outcome bool :=
  if truthyValue speechResult then
    match trimLength speechResult with
    | Returns n => Returns (0 <? n)%nat
    | Throws message => Throws message
    end
  else Returns false.

Definition followUp (leadInfo : LeadInfo) : string :=
  if hasEmergency leadInfo then "Can I get your address to send someone out?"
  else if Js.truthyOpt (serviceType leadInfo) && negb (Js.truthyOpt (name (contactInfo leadInfo)))
  then "What's your name for our records?"
  else "Anything else I can help with?".

Definition pushMessage (session : Session) (m : Message) : Session :=
  {| messages := messages session ++ [m];
     leadInfo := leadInfo session;
     callSid := callSid session;
     phoneNumber := phoneNumber session;
     isFromDb := isFromDb session |}.

Definition setLeadInfo (session : Session) (l : LeadInfo) : Session :=
  {| messages := messages session;
     leadInfo := l;
     callSid := callSid session;
     phoneNumber := phoneNumber session;
     isFromDb := isFromDb session |}.

(** The branch of a recognised utterance. *)
Definition processTurn (env : Env) (formData : FormData) (speechResult : string) : M Response :=
  let callSid := CallSid formData in
  let phoneNumber := From formData in
  loaded <- getOrCreateSession env callSid phoneNumber ;;
  let '(ref, session) := loaded in
  let session := pushMessage session {| role := "user"; content := speechResult |} in
  writeSession ref session ;;;
  saveMessage (createUserOutcome env) callSid phoneNumber "user" speechResult ;;;
  let analysis := analyzeMessage speechResult in
  let session := setLeadInfo session (mergeAnalysis (leadInfo session) analysis) in
  writeSession ref session ;;;
  aiResponse <- getAIResponse env (messages session) ;;
  let session := pushMessage session {| role := "assistant"; content := aiResponse |} in
  writeSession ref session ;;;
  saveMessage (createAssistantOutcome env) callSid phoneNumber "assistant" aiResponse ;;;
  updateLead env phoneNumber (leadInfo session) callSid ;;;
  ret (xmlResponse (responseTwiml aiResponse (followUp (leadInfo session)))).

(** The body of the handler's [try]. *)
Definition turn (env : Env) (req : Request) : M Response :=
  match reqBody req with
  | Some formData =>
      if String.eqb (method req) "POST" then
        let speechResult := SpeechResult formData in
        let confidence := confidenceOf formData in
        low <- liftOutcome (isLowConfidence confidence speechResult) ;;
        if low then ret (xmlResponse clarificationTwiml)
        else
          speech <- liftOutcome (hasSpeech speechResult) ;;
          if speech then
            match speechResult with
            | FString s => processTurn env formData s
            | _ => throw "speechResult is not a string"
            end
          else ret (xmlResponse noSpeechTwiml)
      else ret readyResponse
  | None => ret readyResponse
  end.

(** [module.exports]: the connection attempt, then the [try] with its
    [catch]. *)
Definition handler (env : Env) (req : Request) : M Response :=
  initializeCosmosDB env ;;;
  tryCatch (turn env req) (fun _ => ret errorResponse).

End VoiceStream.

(** ** The plain turn handler ([voice-stream/index.js]) *)

Module VoiceStreamBasic.

(** The module state: the [Map] of sessions, each a list of messages. *)
Abbreviation Sessions := (gmap string (list Message)).

Definition systemPrompt : string :=
  "You are a helpful AI voice assistant. Keep your responses conversational, concise (1-2 sentences), and natural for spoken conversation. You're talking to someone over the phone.".

Definition getOrCreateSession (sessionId : string) : Eff Sessions (list Message) :=
  sessions <- get ;;
  match sessions !! sessionId with
  | Some session => ret session
  | None =>
      let session := [ {| role := "system"; content := systemPrompt |} ] in
      modify (fun m : Sessions => <[sessionId := session]> m) ;;;
      ret session
  end.

(** [getAIResponse]: any failure of the completion call becomes the
    apology. *)
Definition getAIResponse (completion : Outcome string) : Eff Sessions string :=
  tryCatch (liftOutcome completion)
           (fun _ => ret "I'm sorry, I'm having trouble processing that right now. Could you try again?").

Definition responseTwiml (aiResponse : string) : list Verb :=
  [ Say VoiceStream.jenny aiResponse;
    Gather "30" VoiceStream.streamUrl [Say VoiceStream.jenny "What else would you like to know?"];
    Redirect VoiceStream.twimlUrl ].

Definition noSpeechTwiml : list Verb :=
  [ Say VoiceStream.jenny "I didn't catch that. Could you please say that again?";
    Gather "30" VoiceStream.streamUrl [Say VoiceStream.jenny "I'm listening..."];
    Redirect VoiceStream.twimlUrl ].

Definition errorTwiml : list Verb :=
  [ Say VoiceStream.jenny "I'm sorry, I encountered an error. Please try calling again."; Hangup ].

Definition errorResponse : Response :=
  {| status := Some 200; contentType := Some "text/xml"; body := Markup errorTwiml |}.

Definition turn (completion : Outcome string) (req : Request) : Eff Sessions Response :=
  match reqBody req with
  | Some formData =>
      if String.eqb (method req) "POST" then
        let speechResult := SpeechResult formData in
        speech <- liftOutcome (VoiceStream.hasSpeech speechResult) ;;
        if speech then
          match speechResult with
          | FString s =>
              let callSid := CallSid formData in
              session <- getOrCreateSession callSid ;;
              let session := (session ++ [ {| role := "user"; content := s |} ])%list in
              modify (fun m : Sessions => <[callSid := session]> m) ;;;
              aiResponse <- getAIResponse completion ;;
              let session := (session ++ [ {| role := "assistant"; content := aiResponse |} ])%list in
              modify (fun m : Sessions => <[callSid := session]> m) ;;;
              ret (VoiceStream.xmlResponse (responseTwiml aiResponse))
          | _ => throw "speechResult is not a string"
          end
        else ret (VoiceStream.xmlResponse noSpeechTwiml)
      else ret VoiceStream.readyResponse
  | None => ret VoiceStream.readyResponse
  end.

Definition handler (completion : Outcome string) (req : Request) : Eff Sessions Response :=
  tryCatch (turn completion req) (fun _ => ret errorResponse).

End VoiceStreamBasic.

(** ** The evaluation of the modules of the two turn handlers

    The host evaluates a module once, before the first call of the
    function it exports.  An exception of that evaluation leaves no
    function to call: every request to the endpoint fails in the host,
    and no response of the handler is set. *)

Module ModuleLoad.

(** What the packages answer while a module is evaluated: [require] for
    each package, the process settings, and the constructors and
    factories of the SDKs, each with the arguments the source gives it. *)
Record SdkEnv : Type := mkSdkEnv {
  requirePackage : string -> Outcome unit;
  WebPubSubServiceClient : Outcome unit;
  AzureKeyCredential : Outcome unit;
  OpenAIClient : Outcome unit;
  SPEECH_ENDPOINT : option string;
  URL : Outcome unit;
  fromEndpoint : Outcome unit;
  fromSubscription : Outcome unit;
  OPENAI_ENDPOINT : option string;
  OPENAI_KEY : option string;
  AzureOpenAI : Outcome unit
}.

(** The top level of [voice-stream/index.js]: the three packages, the
    Web PubSub client, the OpenAI client (its credential first), the
    speech configuration, and the empty [Map] of sessions.  Nothing of
    it is inside a [try]. *)
Definition voiceStream (sdk : SdkEnv) : Eff unit VoiceStreamBasic.Sessions :=
  liftOutcome (requirePackage sdk "@azure/web-pubsub") ;;;
  liftOutcome (requirePackage sdk "microsoft-cognitiveservices-speech-sdk") ;;;
  liftOutcome (requirePackage sdk "@azure/openai") ;;;
  liftOutcome (WebPubSubServiceClient sdk) ;;;
  liftOutcome (AzureKeyCredential sdk) ;;;
  liftOutcome (OpenAIClient sdk) ;;;
  (if Js.truthyOpt (SPEECH_ENDPOINT sdk)
   then liftOutcome (URL sdk) ;;; liftOutcome (fromEndpoint sdk)
   else liftOutcome (fromSubscription sdk)) ;;;
  ret ∅.

(** The top level of the turn handler with lead intelligence: the two
    packages, then the OpenAI client, built inside a [try] and only when
    both settings are there.  The value says whether [openai] is set. *)
Definition leadVoiceStream (sdk : SdkEnv) : Eff unit bool :=
  liftOutcome (requirePackage sdk "openai") ;;;
  liftOutcome (requirePackage sdk "@azure/cosmos") ;;;
  tryCatch
    (if Js.truthyOpt (OPENAI_ENDPOINT sdk) && Js.truthyOpt (OPENAI_KEY sdk)
     then liftOutcome (AzureOpenAI sdk) ;;; ret true
     else ret false)
    (fun _ => ret false).

Definition withOpenai (openai : bool) (env : Env) : Env :=
  {| openaiReady := openai;
     COSMOS_CONN := COSMOS_CONN env;
     connectOutcome := connectOutcome env;
     existingMessagesOutcome := existingMessagesOutcome env;
     previousCallsOutcome := previousCallsOutcome env;
     leadReadOutcome := leadReadOutcome env;
     createUserOutcome := createUserOutcome env;
     createAssistantOutcome := createAssistantOutcome env;
     upsertOutcome := upsertOutcome env;
     completionOutcome := completionOutcome env;
     now := now env |}.

(** The first request to [voice-stream/index.js] in a fresh process: what
    the host gets back. *)
Definition invokeVoiceStream (sdk : SdkEnv) (completion : Outcome string) (req : Request)
  : Outcome Response :=
  match voiceStream sdk tt with
  | (Returns conversationSessions, _) =>
      fst (VoiceStreamBasic.handler completion req conversationSessions)
  | (Throws message, _) => Throws message
  end.

(** The first request to the turn handler with lead intelligence in a
    fresh process. *)
Definition invokeLeadVoiceStream (sdk : SdkEnv) (env : Env) (req : Request)
  : Outcome Response :=
  match leadVoiceStream sdk tt with
  | (Returns openai, _) => fst (VoiceStream.handler (withOpenai openai env) req initialWorld)
  | (Throws message, _) => Throws message
  end.

End ModuleLoad.

(** ** The voice manager and the greeting handler ([voice-twiml]) *)

Module VoiceManager.

Definition baseUrl : string :=
  "https://func-blucallerai-dkavgbhvdkesgmer.westus-01.azurewebsites.net/api".

(** [AzureSpeechService.getTwilioFallbackVoice] *)
Definition getTwilioFallbackVoice (isEmergency : bool) : string :=
  if isEmergency then "en-US-Neural2-A" else "en-US-Neural2-H".

(** [text.replace(/c/g, by)] for a one-character pattern. *)
Fixpoint replaceAll (c : ascii) (by_ : string) (text : string) : string :=
  match text with
  | EmptyString => EmptyString
  | String x rest =>
      if Ascii.eqb x c then by_ ++ replaceAll c by_ rest
      else String x (replaceAll c by_ rest)
  end.

Definition escapeXML (text : string) : string :=
  replaceAll "'"%char "&apos;"
    (replaceAll (ascii_of_N 34) "&quot;"
       (replaceAll ">"%char "&gt;"
          (replaceAll "<"%char "&lt;"
             (replaceAll "&"%char "&amp;" text)))).

Definition createErrorResponse (errorMessage : string) : list Verb :=
  let voice := getTwilioFallbackVoice false in
  [ Say voice (escapeXML errorMessage); Hangup ].

(** What the speech service and the blob storage answer during one
    synthesis: [synthesizeSpeech] gives [success] and the audio, and
    [cacheAudio] gives the URL of the uploaded audio, or [null]. *)
Record SpeechEnv : Type := mkSpeechEnv {
  synthesizeOutcome : Outcome (bool * string);
  cacheAudioOutcome : Outcome (option string)
}.

Definition createAlloyTurboTwiML (audioUrl : string) (isEmergency : bool) : list Verb :=
  let timeout := if isEmergency then "15" else "30" in
  [ Play audioUrl;
    Gather timeout (baseUrl ++ "/voice-stream") [];
    Redirect (baseUrl ++ "/voice-twiml") ].

(** [generateVoiceResponse]: all or nothing; every failure is thrown
    again by the [catch]. *)
Definition generateVoiceResponse (env : SpeechEnv) (text : string) (isEmergency : bool)
  : Eff unit (list Verb) :=
  tryCatch
    (azureResult <- liftOutcome (synthesizeOutcome env) ;;
     let '(success, audioData) := azureResult in
     if success then
       audioUrl <- liftOutcome (cacheAudioOutcome env) ;;
       match audioUrl with
       | Some url =>
           if Js.truthy url then ret (createAlloyTurboTwiML url isEmergency)
           else throw "Audio upload failed - no fallback allowed"
       | None => throw "Audio upload failed - no fallback allowed"
       end
     else throw "Azure Speech failed - no fallback allowed")
    (fun message => throw message).

End VoiceManager.

Module VoiceTwiml.

Definition greeting : string :=
  "Hello! Thank you for calling Blue Caller HVAC. I'm Sarah, your AI assistant. How can I help you today?".

Definition handler (env : VoiceManager.SpeechEnv) : Eff unit Response :=
  tryCatch
    (voiceResponse <- VoiceManager.generateVoiceResponse env greeting false ;;
     ret {| status := None; contentType := Some "text/xml"; body := Markup voiceResponse |})
    (fun _ =>
       let errorResponse :=
         VoiceManager.createErrorResponse
           "Thank you for calling Blue Caller HVAC. I'm having some technical difficulties right now. Please try calling back in just a moment." in
       ret {| status := Some 200; contentType := Some "text/xml"; body := Markup errorResponse |}).

End VoiceTwiml.

(** ** Business lookup ([FirebaseService]) *)

Module Firebase.

Record Profile : Type := mkProfile {
  companyName : option string;
  industry : option string;
  businessType : option string
}.

(** The hours of a stored schedule carry both times. *)
Record Hours : Type := mkHours { open : string; close : string }.

Record Schedule : Type := mkSchedule { weekdayHours : Hours; weekendHours : Hours }.

(** The data of a business document; a document may lack any part. *)
Record BusinessData : Type := mkBusinessData {
  profile : option Profile;
  services : option (list string);
  schedule : option Schedule
}.

(** The result of a lookup. *)
Record Business : Type := mkBusiness {
  businessId : string;
  data : BusinessData;
  found : bool;
  isDefault : bool;
  isSharedNumber : bool
}.

Record HumanForwarding : Type := mkHumanForwarding {
  enabled : bool;
  forwardingNumber : string;
  transferThreshold : Z
}.

Record AIConfig : Type := mkAIConfig {
  voiceStyle : string;
  gender : string;
  responseTone : string;
  greetingMessage : string;
  businessSlogan : string;
  bufferTime : Z;
  serviceRadius : Z;
  humanForwarding : HumanForwarding
}.

(** The process settings and the answers of the Firebase services: the
    credentials, whether the SDK initialises with them, and for each
    query what the directory returns (a document with its id, none, or
    a failure). *)
Record Env : Type := mkEnv {
  appsLength : nat;
  FB_PROJECT_ID : option string;
  FB_CLIENT_EMAIL : option string;
  FB_PRIVATE_KEY : option string;
  initializeAppOutcome : Outcome unit;
  firestoreOutcome : Outcome unit;
  queryByNumber : string -> Outcome (option (string * BusinessData));
  queryByMockNumber : string -> Outcome (option (string * BusinessData));
  businessDoc : string -> Outcome (option BusinessData);
  aiConfigDoc : string -> Outcome (option AIConfig)
}.

(** [initializeFirebase]: the value left in [this.initialized]. *)
Definition initializeFirebase (env : Env) : Eff unit bool :=
  tryCatch
    (if (appsLength env =? 0)%nat then
       if negb (Js.truthyOpt (FB_PROJECT_ID env))
          || negb (Js.truthyOpt (FB_CLIENT_EMAIL env))
          || negb (Js.truthyOpt (FB_PRIVATE_KEY env))
       then ret false
       else
         liftOutcome (initializeAppOutcome env) ;;;
         liftOutcome (firestoreOutcome env) ;;;
         ret true
     else
       liftOutcome (firestoreOutcome env) ;;;
       ret true)
    (fun _ => ret false).

Definition getDefaultBusinessConfig : Business :=
  {| businessId := "default";
     data :=
       {| profile :=
            Some {| companyName := Some "Blue Caller HVAC";
                    industry := Some "hvac";
                    businessType := Some "hvac" |};
          services := Some ["heating repair"; "cooling repair"; "maintenance"; "installation"];
          schedule :=
            Some {| weekdayHours := {| open := "08:00"; close := "17:00" |};
                    weekendHours := {| open := "09:00"; close := "15:00" |} |} |};
     found := false;
     isDefault := true;
     isSharedNumber := false |}.

Definition getDefaultAIConfig : AIConfig :=
  {| voiceStyle := "friendly";
     gender := "female";
     responseTone := "professional";
     greetingMessage := "Thank you for calling Blue Caller HVAC. How may I assist you today?";
     businessSlogan := "";
     bufferTime := 15;
     serviceRadius := 25;
     humanForwarding :=
       {| enabled := false; forwardingNumber := ""; transferThreshold := 3 |} |}.

Definition findBusinessByPhone (env : Env) (initialized : bool) (phoneNumber : string)
  : Eff unit Business :=
  if negb initialized then ret getDefaultBusinessConfig
  else
    tryCatch
      (businessesQuery <- liftOutcome (queryByNumber env phoneNumber) ;;
       match businessesQuery with
       | Some (id, businessData) =>
           ret {| businessId := id; data := businessData; found := true;
                  isDefault := false; isSharedNumber := false |}
       | None =>
           sharedQuery <- liftOutcome (queryByMockNumber env phoneNumber) ;;
           match sharedQuery with
           | Some (id, businessData) =>
               ret {| businessId := id; data := businessData; found := true;
                      isDefault := false; isSharedNumber := true |}
           | None => ret getDefaultBusinessConfig
           end
       end)
      (fun _ => ret getDefaultBusinessConfig).

Definition getBusinessAIConfig (env : Env) (initialized : bool) (businessId : string)
  : Eff unit AIConfig :=
  if negb initialized || String.eqb businessId "default" then ret getDefaultAIConfig
  else
    tryCatch
      (aiConfig <- liftOutcome (aiConfigDoc env businessId) ;;
       match aiConfig with
       | Some config => ret config
       | None => ret getDefaultAIConfig
       end)
      (fun _ => ret getDefaultAIConfig).

Definition getBusinessData (env : Env) (initialized : bool) (businessId : string)
  : Eff unit (option BusinessData) :=
  if negb initialized || String.eqb businessId "default" then ret None
  else
    tryCatch (liftOutcome (businessDoc env businessId)) (fun _ => ret None).

End Firebase.

(** ** Business context ([BusinessService]) *)

Module Business.

(** The parts of an industry template the business context carries; the
    prompt texts are left out. *)
Record IndustryTemplate : Type := mkIndustryTemplate {
  template : string;
  services : list string;
  emergencyKeywords : list string;
  greetingTemplate : string
}.

Definition hvac : IndustryTemplate :=
  {| template := "hvac_base";
     services := ["heating"; "cooling"; "air conditioning"; "ventilation"; "ductwork"; "heat pumps"];
     emergencyKeywords := ["no heat"; "no air"; "no cooling"; "furnace down"; "ac down"; "leak"; "emergency"];
     greetingTemplate := "Thank you for calling {companyName}! How can we help with your heating and cooling needs today?" |}.

Definition plumbing : IndustryTemplate :=
  {| template := "plumbing_base";
     services := ["leak repair"; "drain cleaning"; "water heater"; "pipe installation"; "toilet repair"; "faucet repair"];
     emergencyKeywords := ["leak"; "flood"; "no water"; "burst pipe"; "overflow"; "emergency"; "water everywhere"];
     greetingTemplate := "Thanks for calling {companyName}! What plumbing issue can we help you with?" |}.

Definition electrical : IndustryTemplate :=
  {| template := "electrical_base";
     services := ["wiring"; "outlet installation"; "panel upgrade"; "lighting"; "circuit repair"; "safety inspection"];
     emergencyKeywords := ["no power"; "sparks"; "burning smell"; "shock"; "electrical fire"; "emergency"];
     greetingTemplate := "Hello! Thank you for calling {companyName}. How can we help with your electrical needs?" |}.

Definition roofing : IndustryTemplate :=
  {| template := "roofing_base";
     services := ["roof repair"; "roof replacement"; "leak repair"; "gutter installation"; "storm damage"];
     emergencyKeywords := ["leak"; "storm damage"; "collapsed"; "emergency"; "water coming in"];
     greetingTemplate := "Thank you for calling {companyName}! How can we help protect your home?" |}.

Definition generalContractor : IndustryTemplate :=
  {| template := "contractor_base";
     services := ["home renovation"; "kitchen remodel"; "bathroom remodel"; "additions"; "repairs"];
     emergencyKeywords := ["structural damage"; "water damage"; "emergency repair"];
     greetingTemplate := "Thank you for calling {companyName}! What home improvement project can we help you with?" |}.

Definition general : IndustryTemplate :=
  {| template := "general_base";
     services := ["various services"];
     emergencyKeywords := ["emergency"; "urgent"; "immediate"];
     greetingTemplate := "Thank you for calling {companyName}! How may we assist you today?" |}.

Definition industryTemplates : list (string * IndustryTemplate) :=
  [ ("hvac", hvac); ("plumbing", plumbing); ("electrical", electrical);
    ("roofing", roofing); ("general-contractor", generalContractor);
    ("general", general) ].

(** [this.industryTemplates[industry]], over the keys the object owns.
    An industry that names a member every object inherits
    (['constructor'], ['toString'], ...) finds that member in the source
    and no template; such a business profile is not covered here. *)
Fixpoint lookupTemplate (key : string) (table : list (string * IndustryTemplate))
  : option IndustryTemplate :=
  match table with
  | [] => None
  | (k, t) :: rest => if String.eqb k key then Some t else lookupTemplate key rest
  end.

Record BusinessContext : Type := mkBusinessContext {
  businessId : string;
  companyName : string;
  industry : string;
  contextServices : list string;
  schedule : option Firebase.Schedule;
  aiConfig : Firebase.AIConfig;
  industryTemplate : IndustryTemplate;
  contextEmergencyKeywords : list string;
  isDefault : bool;
  found : bool
}.

Definition getDefaultBusinessContext : BusinessContext :=
  {| businessId := "default";
     companyName := "Blue Caller HVAC";
     industry := "hvac";
     contextServices := services hvac;
     schedule :=
       Some {| Firebase.weekdayHours := {| Firebase.open := "08:00"; Firebase.close := "17:00" |};
               Firebase.weekendHours := {| Firebase.open := "09:00"; Firebase.close := "15:00" |} |};
     aiConfig := Firebase.getDefaultAIConfig;
     industryTemplate := hvac;
     contextEmergencyKeywords := emergencyKeywords hvac;
     isDefault := true;
     found := false |}.

(** [x || fallback] for a string that may be missing. *)
Definition orString (x : option string) (fallback : string) : string :=
  match x with
  | Some s => if Js.truthy s then s else fallback
  | None => fallback
  end.

Definition getBusinessContext (env : Firebase.Env) (initialized : bool)
           (businessId : option string) (phoneNumber : string)
  : Eff unit BusinessContext :=
  tryCatch
    (direct <-
       (match businessId with
        | Some id =>
            if Js.truthy id && negb (String.eqb id "default") then
              businessData <- Firebase.getBusinessData env initialized id ;;
              match businessData with
              | Some d =>
                  ret (Some {| Firebase.businessId := id; Firebase.data := d;
                               Firebase.found := true; Firebase.isDefault := false;
                               Firebase.isSharedNumber := false |})
              | None => ret None
              end
            else ret None
        | None => ret None
        end) ;;
     business <-
       (match direct with
        | Some b => ret b
        | None => Firebase.findBusinessByPhone env initialized phoneNumber
        end) ;;
     aiConfig <- Firebase.getBusinessAIConfig env initialized (Firebase.businessId business) ;;
     let profile := Firebase.profile (Firebase.data business) in
     let industry := orString (profile ≫= Firebase.industry) "general" in
     let industryTemplate := default general (lookupTemplate industry industryTemplates) in
     ret {| businessId := Firebase.businessId business;
            companyName := orString (profile ≫= Firebase.companyName) "Your Business";
            industry := industry;
            contextServices :=
              default (services industryTemplate) (Firebase.services (Firebase.data business));
            schedule := Firebase.schedule (Firebase.data business);
            aiConfig := aiConfig;
            industryTemplate := industryTemplate;
            contextEmergencyKeywords := emergencyKeywords industryTemplate;
            isDefault := Firebase.isDefault business;
            found := Firebase.found business |})
    (fun _ => ret getDefaultBusinessContext).

End Business.

(** ** Conversation context and follow-up ([VoiceManager]) *)

Module VoiceManagerContext.

Local Open Scope string_scope.

(** [leadInfo.contactInfo] as the voice manager reads it. *)
Record ContactDetails : Type := mkContactDetails {
  cd_name : option string;
  cd_phone : option string
}.

Record ConversationLead : Type := mkConversationLead {
  cl_hasEmergency : bool;
  cl_serviceType : option string;
  cl_contactInfo : option ContactDetails
}.

(** A conversation; either part may be missing. *)
Record Conversation : Type := mkConversation {
  conv_messages : option (list Message);
  conv_leadInfo : option ConversationLead
}.

(** The result of [analyzeConversationContext]; the early return sets
    [urgencyLevel] alone. *)
Record VoiceContext : Type := mkVoiceContext {
  ctx_isEmergency : option bool;
  ctx_customerName : option string;
  ctx_urgencyLevel : string;
  ctx_emotion : option string;
  ctx_serviceType : option string
}.

(** [array.slice(-n)] *)
Definition sliceLast {A} (n : nat) (l : list A) : list A :=
  skipn (length l - n) l.

(** [array.join(' ')] *)
Fixpoint joinSpace (parts : list string) : string :=
  match parts with
  | [] => EmptyString
  | [s] => s
  | s :: rest => s ++ " " ++ joinSpace rest
  end.

Definition emergencyKeywords : list string :=
  ["emergency"; "urgent"; "no heat"; "no air"; "gas smell"; "broken"; "flooding"; "leak"].

(** [x || null] for a string that may be missing. *)
Definition orNull (x : option string) : option string :=
  match x with
  | Some s => if Js.truthy s then Some s else None
  | None => None
  end.

(** [recentMessages.map(m => m.content).join(' ').toLowerCase()] *)
Definition allText (messages : list Message) : string :=
  Js.toLowerCase (joinSpace (map content (sliceLast 6 messages))).

Definition analyzeConversationContext (conversation : option Conversation) : VoiceContext :=
  match conversation with
  | Some {| conv_messages := Some messages; conv_leadInfo := leadInfo |} =>
      let allText := allText messages in
      let isEmergency := someIncluded allText emergencyKeywords in
      let customerName := orNull ((leadInfo ≫= cl_contactInfo) ≫= cd_name) in
      let urgencyLevel :=
        if isEmergency then "emergency"
        else if Js.includes allText "urgent" || Js.includes allText "asap"
                || Js.includes allText "soon"
        then "urgent"
        else "normal" in
      {| ctx_isEmergency := Some isEmergency;
         ctx_customerName := customerName;
         ctx_urgencyLevel := urgencyLevel;
         ctx_emotion := Some (if isEmergency then "concerned" else "friendly");
         ctx_serviceType := orNull (leadInfo ≫= cl_serviceType) |}
  | _ =>
      {| ctx_isEmergency := None;
         ctx_customerName := None;
         ctx_urgencyLevel := "normal";
         ctx_emotion := None;
         ctx_serviceType := None |}
  end.

Definition generateContextualFollowUp (conversation : option Conversation) : string :=
  match conversation ≫= conv_leadInfo with
  | None => "What else can I help you with today?"
  | Some leadInfo =>
      let name := Js.truthyOpt (cl_contactInfo leadInfo ≫= cd_name) in
      let phone := Js.truthyOpt (cl_contactInfo leadInfo ≫= cd_phone) in
      let serviceType := Js.truthyOpt (cl_serviceType leadInfo) in
      if cl_hasEmergency leadInfo
      then "Can I get your address so we can send someone out right away?"
      else if serviceType && negb name then "What's your name for our records?"
      else if name && negb phone then "And what's the best phone number to reach you?"
      else if name && negb serviceType then "What type of HVAC service do you need help with?"
      else "Is there anything else I can help you with today?"
  end.

End VoiceManagerContext.

(** ** Text for speech synthesis ([AzureSpeechService]) *)

Module Speech.

Local Open Scope string_scope.

Definition quote : string := String (ascii_of_N 34) EmptyString.

(** [<break time="..."/>] *)
Definition breakTag (time : string) : string :=
  "<break time=" ++ quote ++ time ++ quote ++ "/>".

Definition cleanTextForSSML (text : string) : string :=
  VoiceManager.replaceAll ";"%char (";" ++ breakTag "300ms")
    (VoiceManager.replaceAll ","%char ("," ++ breakTag "250ms")
       (VoiceManager.replaceAll "!"%char ("!" ++ breakTag "400ms")
          (VoiceManager.replaceAll "?"%char ("?" ++ breakTag "500ms")
             (VoiceManager.replaceAll "."%char ("." ++ breakTag "400ms")
                (VoiceManager.replaceAll "'"%char "&apos;"
                   (VoiceManager.replaceAll (ascii_of_N 34) "&quot;"
                      (VoiceManager.replaceAll ">"%char "&gt;"
                         (VoiceManager.replaceAll "<"%char "&lt;"
                            (VoiceManager.replaceAll "&"%char "&amp;" text))))))))).

End Speech.

(** ** Greeting and opening hours ([BusinessService]) *)

Module BusinessLogic.

Local Open Scope string_scope.

Fixpoint dropUnits (n : nat) (s : string) : string :=
  match n, s with
  | S n', String _ s' => dropUnits n' s'
  | _, _ => s
  end.

(** The first occurrence of [pattern] in [text]: what is before it and
    what is after it. *)
Fixpoint splitAtFirst (pattern text : string) : option (string * string) :=
  if Js.startsWith text pattern then Some (EmptyString, dropUnits (String.length pattern) text)
  else
    match text with
    | EmptyString => None
    | String c rest =>
        match splitAtFirst pattern rest with
        | Some (before, after) => Some (String c before, after)
        | None => None
        end
    end.

(** GetSubstitution for a string pattern (no captures): [$$] is a
    dollar, [$&] the matched text, [$`] and [$'] the text before and
    after the match; any other [$] stands for itself. *)
Fixpoint getSubstitution (matched before after replacement : string) : string :=
  match replacement with
  | EmptyString => EmptyString
  | String x tail =>
      if Ascii.eqb x "$" then
        match tail with
        | String c rest =>
            if Ascii.eqb c "$" then "$" ++ getSubstitution matched before after rest
            else if Ascii.eqb c "&" then matched ++ getSubstitution matched before after rest
            else if Ascii.eqb c "`" then before ++ getSubstitution matched before after rest
            else if Ascii.eqb c "'" then after ++ getSubstitution matched before after rest
            else String x (getSubstitution matched before after tail)
        | EmptyString => String x EmptyString
        end
      else String x (getSubstitution matched before after tail)
  end.

(** [text.replace(pattern, replacement)] for a string pattern: the first
    occurrence only. *)
Definition replace (pattern replacement text : string) : string :=
  match splitAtFirst pattern text with
  | Some (before, after) =>
      before ++ getSubstitution pattern before after replacement ++ after
  | None => text
  end.

Definition generateGreeting (businessContext : Business.BusinessContext) : string :=
  let greetingMessage := Firebase.greetingMessage (Business.aiConfig businessContext) in
  if Js.truthy greetingMessage && negb (String.eqb (Js.trim greetingMessage) "")
  then greetingMessage
  else replace "{companyName}" (Business.companyName businessContext)
               (Business.greetingTemplate (Business.industryTemplate businessContext)).

(** [s.split(':')[0]] *)
Fixpoint beforeColon (s : string) : string :=
  match s with
  | EmptyString => EmptyString
  | String c rest => if Ascii.eqb c ":" then EmptyString else String c (beforeColon rest)
  end.

(** The value of a digit in a radix of at most 36. *)
Definition digitValue (radix : N) (c : ascii) : option N :=
  let n := Js.codeUnit c in
  let value :=
    if Js.inRange 48 57 n then Some (n - 48)%N
    else if Js.inRange 97 122 n then Some (n - 87)%N
    else if Js.inRange 65 90 n then Some (n - 55)%N
    else None in
  match value with
  | Some d => if (d <? radix)%N then Some d else None
  | None => None
  end.

(** The longest prefix of digits, read in the radix; [None] when the
    text does not start with a digit. *)
Fixpoint digitsValue (radix : N) (acc : option N) (s : string) : option N :=
  match s with
  | EmptyString => acc
  | String c rest =>
      match digitValue radix c with
      | Some d => digitsValue radix (Some (default 0%N acc * radix + d)%N) rest
      | None => acc
      end
  end.

(** [parseInt(s)] without a radix: leading white space, a sign, the
    prefix [0x] for radix 16, then the digits; [None] is [NaN].  The
    result is the mathematical value; a number rounds it when it has
    more than 53 bits, which keeps its order with the hours of a day. *)
Definition parseInt (s : string) : option Z :=
  let s := Js.trimStart s in
  let '(negative, s) :=
    match s with
    | String c rest =>
        if Ascii.eqb c "-" then (true, rest)
        else if Ascii.eqb c "+" then (false, rest)
        else (false, s)
    | EmptyString => (false, s)
    end in
  let '(radix, s) :=
    if Js.startsWith s "0x" || Js.startsWith s "0X" then (16%N, dropUnits 2 s) else (10%N, s) in
  match digitsValue radix None s with
  | Some n => Some (if negative then - Z.of_N n else Z.of_N n)
  | None => None
  end.

(** A schedule as [analyzeBusinessHours] reads it; either part may be
    missing. *)
Record HoursTable : Type := mkHoursTable {
  weekday : option Firebase.Hours;
  weekend : option Firebase.Hours
}.

Record HoursAnalysis : Type := mkHoursAnalysis {
  isOpen : bool;
  message : option string
}.

(** [analyzeBusinessHours], on the hour and the day of the week of the
    clock (0 is Sunday, 6 is Saturday). *)
Definition analyzeBusinessHours (currentHour currentDay : Z) (schedule : option HoursTable)
  : HoursAnalysis :=
  match schedule with
  | Some {| weekday := Some weekdayHours; weekend := weekendHours |} =>
      let isWeekend := (currentDay =? 0)%Z || (currentDay =? 6)%Z in
      let hours := if isWeekend then weekendHours else Some weekdayHours in
      match hours with
      | None =>
          {| isOpen := false;
             message := Some (if isWeekend then "We're closed on weekends"
                              else "We're currently closed") |}
      | Some hours =>
          let openHour := parseInt (beforeColon (Firebase.open hours)) in
          let closeHour := parseInt (beforeColon (Firebase.close hours)) in
          let isOpen :=
            match openHour, closeHour with
            | Some o, Some c => (o <=? currentHour)%Z && (currentHour <? c)%Z
            | _, _ => false
            end in
          if negb isOpen then
            let nextOpenTime :=
              if isWeekend then "Monday at " ++ Firebase.open weekdayHours
              else "tomorrow at " ++ Firebase.open hours in
            {| isOpen := false;
               message :=
                 Some ("We're currently closed. Our next available time is " ++ nextOpenTime
                       ++ ". For emergencies, please let me know!") |}
          else {| isOpen := true; message := None |}
      end
  | _ => {| isOpen := true; message := None |}
  end.

(** The schedule of a business context, as a table of hours. *)
Definition hoursTable (businessContext : Business.BusinessContext) : option HoursTable :=
  match Business.schedule businessContext with
  | Some schedule =>
      Some {| weekday := Some (Firebase.weekdayHours schedule);
              weekend := Some (Firebase.weekendHours schedule) |}
  | None => None
  end.

End BusinessLogic.

(** ** The greeting handler of a tenant ([voice-twiml], multi-tenant) *)

Module TenantTwiml.

Local Open Scope string_scope.

(** The greeting with the closed message after it, outside the opening
    hours. *)
Definition finalGreeting (businessContext : Business.BusinessContext) (currentHour currentDay : Z)
  : string :=
  let greeting := BusinessLogic.generateGreeting businessContext in
  let hoursAnalysis :=
    BusinessLogic.analyzeBusinessHours currentHour currentDay
                                       (BusinessLogic.hoursTable businessContext) in
  if negb (BusinessLogic.isOpen hoursAnalysis) && Js.truthyOpt (BusinessLogic.message hoursAnalysis)
  then greeting ++ " " ++ default "" (BusinessLogic.message hoursAnalysis)
  else greeting.

End TenantTwiml.

(** ** The analytics of the lead dashboard ([lead-dashboard]) *)

Module LeadDashboard.

Definition totalLeads (leads : list LeadDoc) : nat := length leads.

(** [leads.filter(lead => lead.leadInfo?.hasEmergency).length] *)
Definition emergencyLeads (leads : list LeadDoc) : nat :=
  length (List.filter (fun lead => hasEmergency (ld_leadInfo lead)) leads).

(** [leads.filter(lead => lead.score >= 70).length] *)
Definition highScoreLeads (leads : list LeadDoc) : nat :=
  length (List.filter (fun lead => (70 <=? score lead)%Z) leads).

End LeadDashboard.

(** ** The business configuration API ([business-config]) *)

Module ConfigApi.

Local Open Scope string_scope.

(** The claims [verifySessionCookie] returns: the business of a user is
    the user's [uid]. *)
Record User : Type := mkUser {
  uid : string;
  email : option string;
  userBusinessId : string
}.

(** The fields of an [aiConfig] update that [validateAIConfig] reads;
    [bufferTime] in whole minutes. *)
Record ConfigUpdate : Type := mkConfigUpdate {
  u_greetingMessage : option string;
  u_voiceStyle : option string;
  u_bufferTime : option Z
}.

Definition validateAIConfig (aiConfig : ConfigUpdate) : list string :=
  (if Js.truthyOpt (u_greetingMessage aiConfig)
      && (500 <? String.length (default "" (u_greetingMessage aiConfig)))%nat
   then ["Greeting message too long (max 500 characters)"] else [])
  ++ (if Js.truthyOpt (u_voiceStyle aiConfig)
         && negb (existsb (String.eqb (default "" (u_voiceStyle aiConfig)))
                          ["professional"; "friendly"; "casual"; "authoritative"])
      then ["Invalid voice style"] else [])
  ++ (match u_bufferTime aiConfig with
      | Some bufferTime =>
          if negb (bufferTime =? 0)%Z && ((bufferTime <? 0)%Z || (60 <? bufferTime)%Z)
          then ["Buffer time must be between 0 and 60 minutes"] else []
      | None => []
      end).

Record TestVoice : Type := mkTestVoice {
  tv_text : option string;
  tv_voiceName : option string
}.

(** [req.body] of an update. *)
Record UpdateBody : Type := mkUpdateBody {
  b_businessId : option string;
  b_aiConfig : option ConfigUpdate;
  b_testVoice : option TestVoice
}.

Record ApiRequest : Type := mkApiRequest {
  api_method : string;
  authorization : option string;
  q_businessId : option string;
  q_phoneNumber : option string;
  api_reqBody : option UpdateBody
}.

(** [responseData]; [rd_full] stands for the three fields copied from the
    full business document for its owner. *)
Record ResponseData : Type := mkResponseData {
  rd_businessId : string;
  rd_found : bool;
  rd_isDefault : bool;
  rd_companyName : string;
  rd_industry : string;
  rd_services : list string;
  rd_aiAssistant : Firebase.AIConfig;
  rd_emergencyKeywords : list string;
  rd_template : string;
  rd_schedule : option Firebase.Schedule;
  rd_full : option Firebase.BusinessData
}.

(** The JSON bodies of the responses. *)
Inductive ApiBody : Type :=
| EmptyBody
| ErrorBody (error message : string)
| MethodNotAllowedBody
| ConfigBody (data : ResponseData)
| VoiceTestBody (testText : string) (voiceName : option string)
| UpdatedBody (businessId : string) (aiAssistant : Firebase.AIConfig) (companyName : string).

Record ApiResponse : Type := mkApiResponse {
  api_status : Z;
  api_body : ApiBody
}.

(** What the environment answers during one request: the directory, the
    [initialized] flags of the two Firebase services (the handler's own
    and the one of the business service), the verification of a session
    cookie (the [uid] and the [email] of its claims) and the completion
    of a write. *)
Record ApiEnv : Type := mkApiEnv {
  firebase : Firebase.Env;
  initialized : bool;
  serviceInitialized : bool;
  verifyOutcome : string -> Outcome (string * option string);
  setOutcome : Outcome unit
}.

(** The writes requested of the [aiAssistants] collection: the document
    id and the update merged into it, oldest first. *)
Abbreviation Writes := (list (string * ConfigUpdate)).

Definition liftUnit {S A} (c : Eff unit A) : Eff S A := fun w => (fst (c tt), w).

(** The key under which the directory is asked for the phone number
    [null]. *)
Definition nullNumber : string := "null".

Definition verifySessionCookie (env : ApiEnv) (sessionCookie : string)
  : Eff Writes (option User) :=
  if negb (initialized env) then throw "Firebase not initialized"
  else
    tryCatch
      (decodedClaims <- liftOutcome (verifyOutcome env sessionCookie) ;;
       ret (Some {| uid := fst decodedClaims;
                    email := snd decodedClaims;
                    userBusinessId := fst decodedClaims |}))
      (fun _ => ret None).

Definition updateBusinessAIConfig (env : ApiEnv) (businessId : string) (aiConfig : ConfigUpdate)
  : Eff Writes bool :=
  if negb (initialized env) || String.eqb businessId "default" then ret false
  else
    tryCatch
      ((fun writes => (setOutcome env, (writes ++ [(businessId, aiConfig)])%list)) ;;;
       ret true)
      (fun _ => ret false).

Definition errorResponse (status : Z) (error message : string) : ApiResponse :=
  {| api_status := status; api_body := ErrorBody error message |}.

(** [a || b] for two values that are strings or missing. *)
Definition orElse (a b : option string) : option string :=
  if Js.truthyOpt a then a else b.

Definition handleGetRequest (env : ApiEnv) (req : ApiRequest) (authenticatedUser : option User)
  : Eff Writes ApiResponse :=
  let businessId := orElse (q_businessId req) (userBusinessId <$> authenticatedUser) in
  let phoneNumber := q_phoneNumber req in
  if negb (Js.truthyOpt businessId) && negb (Js.truthyOpt phoneNumber)
  then ret (errorResponse 400 "Missing parameter" "Either businessId or phoneNumber is required")
  else
    tryCatch
      (lookup <-
         (if Js.truthyOpt phoneNumber then
            businessContext <-
              liftUnit (Business.getBusinessContext (firebase env) (serviceInitialized env)
                                                    None (default "" phoneNumber)) ;;
            ret (inl businessContext)
          else
            match authenticatedUser with
            | None =>
                ret (inr (errorResponse 401 "Authentication required"
                                        "Business ID lookup requires authentication"))
            | Some user =>
                if negb (Js.strictEq businessId (userBusinessId user))
                then ret (inr (errorResponse 403 "Access denied"
                                             "You can only access your own business configuration"))
                else
                  businessContext <-
                    liftUnit (Business.getBusinessContext (firebase env) (serviceInitialized env)
                                                          businessId nullNumber) ;;
                  ret (inl businessContext)
            end) ;;
       match lookup with
       | inr response => ret response
       | inl businessContext =>
           fullBusinessData <-
             (match authenticatedUser with
              | Some user =>
                  if String.eqb (userBusinessId user) (Business.businessId businessContext)
                  then liftUnit (Firebase.getBusinessData (firebase env) (initialized env)
                                                          (Business.businessId businessContext))
                  else ret None
              | None => ret None
              end) ;;
           ret {| api_status := 200;
                  api_body :=
                    ConfigBody
                      {| rd_businessId := Business.businessId businessContext;
                         rd_found := Business.found businessContext;
                         rd_isDefault := Business.isDefault businessContext;
                         rd_companyName := Business.companyName businessContext;
                         rd_industry := Business.industry businessContext;
                         rd_services := Business.contextServices businessContext;
                         rd_aiAssistant := Business.aiConfig businessContext;
                         rd_emergencyKeywords := Business.contextEmergencyKeywords businessContext;
                         rd_template :=
                           Business.template (Business.industryTemplate businessContext);
                         rd_schedule := Business.schedule businessContext;
                         rd_full := fullBusinessData |} |}
       end)
      (fun message => ret (errorResponse 500 "Failed to retrieve business configuration" message)).

Definition handleUpdateRequest (env : ApiEnv) (req : ApiRequest) (authenticatedUser : option User)
  : Eff Writes ApiResponse :=
  match authenticatedUser with
  | None =>
      ret (errorResponse 401 "Authentication required"
                         "You must be logged in to update business configuration")
  | Some user =>
      let businessId := api_reqBody req ≫= b_businessId in
      let aiConfig := api_reqBody req ≫= b_aiConfig in
      let testVoice := api_reqBody req ≫= b_testVoice in
      let targetBusinessId :=
        if Js.truthyOpt businessId then default "" businessId else userBusinessId user in
      if negb (String.eqb (userBusinessId user) targetBusinessId)
      then ret (errorResponse 403 "Access denied"
                              "You can only update your own business configuration")
      else
        tryCatch
          (match testVoice with
           | Some voice =>
               let testText :=
                 if Js.truthyOpt (tv_text voice) then default "" (tv_text voice)
                 else "Hello! This is a test of the "
                      ++ (if Js.truthyOpt (tv_voiceName voice)
                          then default "" (tv_voiceName voice) else "default")
                      ++ " voice for your business." in
               ret {| api_status := 200;
                      api_body := VoiceTestBody testText (tv_voiceName voice) |}
           | None =>
               match aiConfig with
               | Some config =>
                   updateSuccess <- updateBusinessAIConfig env targetBusinessId config ;;
                   if updateSuccess then
                     updatedContext <-
                       liftUnit (Business.getBusinessContext
                                   (firebase env) (serviceInitialized env)
                                   (Some targetBusinessId) nullNumber) ;;
                     ret {| api_status := 200;
                            api_body :=
                              UpdatedBody targetBusinessId
                                          (Business.aiConfig updatedContext)
                                          (Business.companyName updatedContext) |}
                   else ret (errorResponse 500 "Update failed" "Failed to update AI configuration")
               | None =>
                   ret (errorResponse 400 "Invalid request"
                          "No valid update data provided (aiConfig or testVoice expected)")
               end
           end)
          (fun message => ret (errorResponse 500 "Failed to update business configuration" message))
  end.

(** The authentication block: the user of a verified cookie, no user
    when there is no bearer header, or the reply to a cookie that could
    not be verified (the log line reads [email] of the [null] that
    [verifySessionCookie] returns, inside the [try]). *)
Definition authenticate (env : ApiEnv) (req : ApiRequest)
  : Eff Writes (option User + ApiResponse) :=
  match authorization req with
  | Some authHeader =>
      if Js.truthy authHeader && Js.startsWith authHeader "Bearer " then
        let sessionCookie := BusinessLogic.dropUnits 7 authHeader in
        tryCatch
          (authenticatedUser <- verifySessionCookie env sessionCookie ;;
           match authenticatedUser with
           | Some user => ret (inl (Some user))
           | None => throw "Cannot read properties of null (reading 'email')"
           end)
          (fun _ => ret (inr (errorResponse 401 "Authentication failed" "Invalid session cookie")))
      else ret (inl None)
  | None => ret (inl None)
  end.

(** [module.exports] *)
Definition handler (env : ApiEnv) (req : ApiRequest) : Eff Writes ApiResponse :=
  if String.eqb (api_method req) "OPTIONS"
  then ret {| api_status := 200; api_body := EmptyBody |}
  else
    tryCatch
      (authentication <- authenticate env req ;;
       match authentication with
       | inr response => ret response
       | inl authenticatedUser =>
           if String.eqb (api_method req) "GET"
           then handleGetRequest env req authenticatedUser
           else if String.eqb (api_method req) "POST" || String.eqb (api_method req) "PUT"
           then handleUpdateRequest env req authenticatedUser
           else ret {| api_status := 405; api_body := MethodNotAllowedBody |}
       end)
      (fun message => ret (errorResponse 500 "Internal server error" message)).

End ConfigApi.

(** ** Tenant-scoped conversation sessions ([MultiTenantCosmosDB]) *)

Module MultiTenantCosmosDB.

Local Open Scope string_scope.

(** [session.businessContext] *)
Record SessionContext : Type := mkSessionContext {
  sc_companyName : string;
  sc_industry : string;
  sc_services : list string
}.

(** A document of the [conversations] container; a legacy session has
    no [businessId] and no [businessContext]. *)
Record SessionDoc : Type := mkSessionDoc {
  sd_id : string;
  sd_businessId : option string;
  sd_callSid : string;
  sd_customerPhone : string;
  sd_messages : list Message;
  sd_leadScore : Z;
  sd_leadBusinessId : option string;
  sd_businessContext : option SessionContext;
  sd_createdAt : string;
  sd_updatedAt : string;
  sd_businessScoped : bool;
  sd_version : string
}.

(** The [conversations] container, by document id. *)
Abbreviation Conversations := (gmap string SessionDoc).

(** What the database answers during one call: whether it accepts the
    two creations, whether a read fails (with the code and the message of
    the error), whether it reports a missing document by throwing the
    error 404 or by an empty resource, and the clock. *)
Record DbEnv : Type := mkDbEnv {
  scopedCreateOutcome : Outcome unit;
  legacyCreateOutcome : Outcome unit;
  readFailure : string -> option (Z * string);
  missingThrows : bool;
  dbNow : string
}.

(** [`${businessId}_${callSid}`] *)
Definition sessionId (businessId callSid : string) : string :=
  businessId ++ "_" ++ callSid.

(** [items.create(doc)]: refused by the service, or a conflict when the
    id is taken, or the document is stored and returned. *)
Definition createItem (outcome : Outcome unit) (doc : SessionDoc)
  : Eff Conversations SessionDoc :=
  fun container =>
    match outcome with
    | Throws message => (Throws message, container)
    | Returns _ =>
        match container !! sd_id doc with
        | Some _ => (Throws "Entity with the specified id already exists in the system.", container)
        | None => (Returns doc, <[sd_id doc := doc]> container)
        end
    end.

Definition createLegacySession (env : DbEnv) (callSid customerPhone : string)
  : Eff Conversations SessionDoc :=
  tryCatch
    (createItem (legacyCreateOutcome env)
       {| sd_id := callSid;
          sd_businessId := None;
          sd_callSid := callSid;
          sd_customerPhone := customerPhone;
          sd_messages := [];
          sd_leadScore := 0;
          sd_leadBusinessId := None;
          sd_businessContext := None;
          sd_createdAt := dbNow env;
          sd_updatedAt := dbNow env;
          sd_businessScoped := false;
          sd_version := "1.0" |})
    (fun message => throw message).

Definition createSession (env : DbEnv) (businessId callSid customerPhone : string)
           (businessData : Firebase.BusinessData) : Eff Conversations SessionDoc :=
  tryCatch
    (createItem (scopedCreateOutcome env)
       {| sd_id := sessionId businessId callSid;
          sd_businessId := Some businessId;
          sd_callSid := callSid;
          sd_customerPhone := customerPhone;
          sd_messages := [];
          sd_leadScore := 0;
          sd_leadBusinessId := Some businessId;
          sd_businessContext :=
            Some {| sc_companyName :=
                      Business.orString (Firebase.profile businessData ≫= Firebase.companyName)
                                        "Unknown";
                    sc_industry :=
                      Business.orString (Firebase.profile businessData ≫= Firebase.industry)
                                        "general";
                    sc_services := default [] (Firebase.services businessData) |};
          sd_createdAt := dbNow env;
          sd_updatedAt := dbNow env;
          sd_businessScoped := true;
          sd_version := "2.0" |})
    (fun _ => createLegacySession env callSid customerPhone).

(** [item(id).read()]: the resource, which is empty for a missing
    document, or an error with its code. *)
Inductive ReadResult : Type :=
| ReadResource (resource : option SessionDoc)
| ReadThrows (code : Z) (message : string).

Definition readItem (env : DbEnv) (container : Conversations) (id : string) : ReadResult :=
  match readFailure env id with
  | Some (code, message) => ReadThrows code message
  | None =>
      match container !! id with
      | Some doc => ReadResource (Some doc)
      | None => if missingThrows env then ReadThrows 404 "NotFound" else ReadResource None
      end
  end.

(** [getLegacySession]: the session, or [null]; every error is caught. *)
Definition getLegacySession (env : DbEnv) (container : Conversations) (callSid : string)
  : option SessionDoc :=
  match readItem env container callSid with
  | ReadResource (Some resource) => Some resource
  | ReadResource None => None
  | ReadThrows _ _ => None
  end.

(** [getSession]: the scoped session, the legacy one when the read of
    the scoped one threw the error 404, or [null]. *)
Definition getSession (env : DbEnv) (container : Conversations) (businessId callSid : string)
  : option SessionDoc :=
  match readItem env container (sessionId businessId callSid) with
  | ReadResource (Some resource) => Some resource
  | ReadResource None => None
  | ReadThrows code _ =>
      if (code =? 404)%Z then getLegacySession env container callSid else None
  end.

(** [session && session.businessScoped === true && session.businessId],
    as a condition. *)
Definition isMultiTenantSession (session : option SessionDoc) : bool :=
  match session with
  | Some doc => sd_businessScoped doc && Js.truthyOpt (sd_businessId doc)
  | None => false
  end.

End MultiTenantCosmosDB.

(** The world after a sequence of webhook deliveries, each with what the
    environment answers during it. *)
Fixpoint deliver (steps : list (Env * Request)) (w : World) : World :=
  match steps with
  | [] => w
  | (env, req) :: rest => deliver rest (snd (VoiceStream.handler env req w))
  end.

(** The responses to a sequence of webhook deliveries. *)
Fixpoint replies (steps : list (Env * Request)) (w : World) : list (Outcome Response) :=
  match steps with
  | [] => []
  | (env, req) :: rest =>
      fst (VoiceStream.handler env req w)
      :: replies rest (snd (VoiceStream.handler env req w))
  end.

Local Open Scope list_scope.

(** ** Vocabulary of the statements *)

(** How the session returned by [getOrCreateSession] relates to the
    stores: a fresh object built from the lead document of the caller (or
    from the initial [leadInfo]), or the entry of the [Map], found there
    or just created. *)
Definition loadedFrom (w : World) (k p : string) (ref : VoiceStream.SessionRef) (s : Session)
           (w' : World) : Prop :=
  match ref with
  | VoiceStream.Fresh =>
      conversationSessions w' = conversationSessions w
      /\ (leadInfo s = initialLeadInfo
          \/ exists d, leadsContainer w !! p = Some d /\ leadInfo s = ld_leadInfo d)
  | VoiceStream.Held key =>
      key = k
      /\ ((conversationSessions w !! k = Some s
           /\ conversationSessions w' = conversationSessions w)
          \/ (conversationSessions w !! k = None
              /\ leadInfo s = initialLeadInfo
              /\ conversationSessions w' = <[k := s]> (conversationSessions w)))
  end.

(** The stored scores are recomputations: every session of the [Map] and
    every lead document carries the score [calculateLeadScore] gives on
    its [leadInfo]. *)
Definition scoresRecomputed (w : World) : Prop :=
  (forall k s, conversationSessions w !! k = Some s ->
               qualificationScore (leadInfo s) = calculateLeadScore (leadInfo s))
  /\ (forall p d, leadsContainer w !! p = Some d ->
                  score d = calculateLeadScore (ld_leadInfo d)
                  /\ qualificationScore (ld_leadInfo d) = score d).

(** [l'] keeps what [l] has set: the emergency flag and the service type. *)
Definition keepsSignals (l l' : LeadInfo) : Prop :=
  (hasEmergency l = true -> hasEmergency l' = true)
  /\ (serviceType l <> None -> serviceType l' <> None).

(** The document [updateLead] writes. *)
Definition leadDocOf (phoneNumber : string) (leadInfo : LeadInfo) (callSid stamp : string)
  : LeadDoc :=
  {| ld_id := phoneNumber;
     ld_phoneNumber := phoneNumber;
     ld_leadInfo := leadInfo;
     lastContact := stamp;
     lastCallSid := callSid;
     score := calculateLeadScore leadInfo;
     ttl := 60 * 60 * 24 * 365 * 2 |}.

(** Only the log of requests may differ. *)
Definition sameStores (w w' : World) : Prop :=
  conversationSessions w' = conversationSessions w
  /\ leadsContainer w' = leadsContainer w
  /\ isDbConnected w' = isDbConnected w.

(** The stores are as before, at most a connection attempt was made, and
    a connection that was there stays. *)
Definition untouched (w w' : World) : Prop :=
  conversationSessions w' = conversationSessions w
  /\ leadsContainer w' = leadsContainer w
  /\ (outbound w' = outbound w \/ outbound w' = outbound w ++ [EvConnect])
  /\ (isDbConnected w = true -> isDbConnected w' = true).

(** The database answers the reads of a turn: the two queries on the
    transcripts and the read of the lead document complete. *)
Definition readsAnswered (env : Env) : Prop :=
  (exists existingMessages, existingMessagesOutcome env = Returns existingMessages)
  /\ (exists previousCalls, previousCallsOutcome env = Returns previousCalls)
  /\ leadReadOutcome env = Returns tt.

(** The [leadInfo] the database path starts a turn with. *)
Definition storedLeadInfo (w : World) (phoneNumber : string) : LeadInfo :=
  match leadsContainer w !! phoneNumber with
  | Some doc => ld_leadInfo doc
  | None => initialLeadInfo
  end.

(** The utterance [speech] was processed as a turn: the session of the
    call was loaded, its [leadInfo] merged with the analysis and written
    back, the reply sent as markup, and the merged [leadInfo] offered to
    the lead upsert. *)
Definition processed (env : Env) (fd : FormData) (speech : string)
           (w : World) (res : Response) (w' : World) : Prop :=
  exists ref s0 w0 ai sfin,
    loadedFrom w (CallSid fd) (From fd) ref s0 w0
    /\ leadInfo sfin = mergeAnalysis (leadInfo s0) (analyzeMessage speech)
    /\ res = VoiceStream.xmlResponse
               (VoiceStream.responseTwiml ai (VoiceStream.followUp (leadInfo sfin)))
    /\ conversationSessions w'
       = match ref with
         | VoiceStream.Held _ => <[CallSid fd := sfin]> (conversationSessions w)
         | VoiceStream.Fresh => conversationSessions w
         end
    /\ (leadsContainer w' = leadsContainer w
        \/ leadsContainer w'
           = <[From fd := leadDocOf (From fd) (leadInfo sfin) (CallSid fd) (now env)]>
               (leadsContainer w))
    /\ (isDbConnected w = true -> isDbConnected w' = true)
    /\ (isDbConnected w = true -> readsAnswered env ->
        ref = VoiceStream.Fresh /\ leadInfo s0 = storedLeadInfo w (From fd)).

(** What one delivery does, branch by branch. *)
Definition delivered (env : Env) (req : Request) (w : World) (res : Response) (w' : World)
  : Prop :=
  match reqBody req with
  | Some fd =>
      if String.eqb (method req) "POST" then
        match VoiceStream.isLowConfidence (VoiceStream.confidenceOf fd) (SpeechResult fd) with
        | Throws _ => res = VoiceStream.errorResponse /\ untouched w w'
        | Returns true =>
            res = VoiceStream.xmlResponse VoiceStream.clarificationTwiml /\ untouched w w'
        | Returns false =>
            match VoiceStream.hasSpeech (SpeechResult fd) with
            | Throws _ => res = VoiceStream.errorResponse /\ untouched w w'
            | Returns false =>
                res = VoiceStream.xmlResponse VoiceStream.noSpeechTwiml /\ untouched w w'
            | Returns true =>
                match SpeechResult fd with
                | FString s => processed env fd s w res w'
                | _ => res = VoiceStream.errorResponse /\ untouched w w'
                end
            end
        end
      else res = VoiceStream.readyResponse /\ untouched w w'
  | None => res = VoiceStream.readyResponse /\ untouched w w'
  end.

(** Sample answers of the environment and sample deliveries, for the
    concrete instances below: a process without a connection string, one
    with a connection string and a database that answers, and one whose
    lead upsert fails. *)
Definition sampleEnv : Env :=
  {| openaiReady := true;
     COSMOS_CONN := None;
     connectOutcome := Returns tt;
     existingMessagesOutcome := Returns [];
     previousCallsOutcome := Returns 0%nat;
     leadReadOutcome := Returns tt;
     createUserOutcome := Returns tt;
     createAssistantOutcome := Returns tt;
     upsertOutcome := Returns tt;
     completionOutcome := Returns "Sure, I can help with that.";
     now := "2024-01-01T00:00:00.000Z" |}.

Definition sampleForm (confidence : float) (speech : string) : FormData :=
  {| SpeechResult := FString speech;
     CallSid := "CA1";
     From := "+15550100";
     Confidence := Some confidence |}.

Definition sampleTurn (confidence : float) (speech : string) : Request :=
  {| method := "POST"; reqBody := Some (sampleForm confidence speech) |}.

Definition connectedWorld : World :=
  {| isDbConnected := true;
     conversationSessions := ∅;
     leadsContainer := ∅;
     outbound := [] |}.

Definition emergencySession : Session :=
  {| messages := [];
     leadInfo :=
       {| hasEmergency := true;
          serviceType := Some "heating";
          contactInfo := {| name := None |};
          urgencyLevel := "emergency";
          qualificationScore := 100 |};
     callSid := "CA1";
     phoneNumber := "+15550100";
     isFromDb := false |}.

(** A process without a database connection that holds the session of
    the call in its [Map]. *)
Definition offlineEmergencyWorld : World :=
  {| isDbConnected := false;
     conversationSessions := {[ "CA1" := emergencySession ]};
     leadsContainer := ∅;
     outbound := [] |}.

(** A process in which [OPENAI_KEY] is not set: the packages are
    installed and every other construction completes, but the credential
    constructor refuses the missing key. *)
Definition keyMissing : ModuleLoad.SdkEnv :=
  {| ModuleLoad.requirePackage := fun _ => Returns tt;
     ModuleLoad.WebPubSubServiceClient := Returns tt;
     ModuleLoad.AzureKeyCredential := Throws "key must be a non-empty string";
     ModuleLoad.OpenAIClient := Returns tt;
     ModuleLoad.SPEECH_ENDPOINT := None;
     ModuleLoad.URL := Returns tt;
     ModuleLoad.fromEndpoint := Returns tt;
     ModuleLoad.fromSubscription := Returns tt;
     ModuleLoad.OPENAI_ENDPOINT := Some "https://voiceai.openai.azure.com/";
     ModuleLoad.OPENAI_KEY := None;
     ModuleLoad.AzureOpenAI := Throws "Missing credentials" |}.

Definition sampleConnection : string :=
  "AccountEndpoint=https://voiceai.documents.azure.com:443/;AccountKey=c2FtcGxl;".

Definition databaseEnv : Env :=
  {| openaiReady := true;
     COSMOS_CONN := Some sampleConnection;
     connectOutcome := Returns tt;
     existingMessagesOutcome := Returns [];
     previousCallsOutcome := Returns 0%nat;
     leadReadOutcome := Returns tt;
     createUserOutcome := Returns tt;
     createAssistantOutcome := Returns tt;
     upsertOutcome := Returns tt;
     completionOutcome := Returns "Sure, I can help with that.";
     now := "2024-01-01T00:00:00.000Z" |}.

Definition failingUpsertEnv : Env :=
  {| openaiReady := true;
     COSMOS_CONN := Some sampleConnection;
     connectOutcome := Returns tt;
     existingMessagesOutcome := Returns [];
     previousCallsOutcome := Returns 0%nat;
     leadReadOutcome := Returns tt;
     createUserOutcome := Returns tt;
     createAssistantOutcome := Returns tt;
     upsertOutcome := Throws "Request timeout";
     completionOutcome := Returns "Sure, I can help with that.";
     now := "2024-01-01T00:00:00.000Z" |}.

(** The [leadInfo] of the session at the end of each processed turn, as
    handed to the lead upsert (oldest first). *)
Fixpoint offeredLeadInfos (events : list Event) : list LeadInfo :=
  match events with
  | [] => []
  | EvUpsertLead doc :: rest => ld_leadInfo doc :: offeredLeadInfos rest
  | _ :: rest => offeredLeadInfos rest
  end.

Definition isChatCompletion (e : Event) : bool :=
  match e with EvChatCompletion _ => true | _ => false end.

(** A delivery of the telephony provider: a POST with a form body. *)
Definition isWebhook (req : Request) : bool :=
  String.eqb (method req) "POST" && bool_decide (is_Some (reqBody req)).

(** The responses a handler may set: markup that gathers the next
    utterance, markup that hangs up, or, to a request that is not a POST
    with a body, the plain readiness text. *)
Definition replyShape (req : Request) (res : Response) : Prop :=
  isGatherMarkup (body res) = true
  \/ isHangupMarkup (body res) = true
  \/ (isWebhook req = false /\ res = VoiceStream.readyResponse).

(** The directory has no business for the number, or the lookup failed. *)
Definition noMatchOrFailure (env : Firebase.Env) (initialized : bool) (phoneNumber : string)
  : Prop :=
  initialized = false
  \/ (exists m, Firebase.queryByNumber env phoneNumber = Throws m)
  \/ (Firebase.queryByNumber env phoneNumber = Returns None
      /\ (Firebase.queryByMockNumber env phoneNumber = Returns None
          \/ exists m, Firebase.queryByMockNumber env phoneNumber = Throws m)).

Definition unreachableDirectory : Firebase.Env :=
  {| Firebase.appsLength := 0;
     Firebase.FB_PROJECT_ID := Some "project";
     Firebase.FB_CLIENT_EMAIL := Some "agent@project.example";
     Firebase.FB_PRIVATE_KEY := Some "key";
     Firebase.initializeAppOutcome := Returns tt;
     Firebase.firestoreOutcome := Returns tt;
     Firebase.queryByNumber := fun _ => Throws "UNAVAILABLE";
     Firebase.queryByMockNumber := fun _ => Throws "UNAVAILABLE";
     Firebase.businessDoc := fun _ => Throws "UNAVAILABLE";
     Firebase.aiConfigDoc := fun _ => Throws "UNAVAILABLE" |}.

(** What a pattern can match: [Matches r t] when [r] matches exactly the
    text [t]. *)
Inductive Matches : Regex.regex -> string -> Prop :=
| MatchesChr (accept : ascii -> bool) (c : ascii) :
    accept c = true -> Matches (Regex.Chr accept) (String c EmptyString)
| MatchesCat (r1 r2 : Regex.regex) (t1 t2 : string) :
    Matches r1 t1 -> Matches r2 t2 -> Matches (Regex.Cat r1 r2) (t1 ++ t2)%string
| MatchesAltLeft (r1 r2 : Regex.regex) (t : string) :
    Matches r1 t -> Matches (Regex.Alt r1 r2) t
| MatchesAltRight (r1 r2 : Regex.regex) (t : string) :
    Matches r2 t -> Matches (Regex.Alt r1 r2) t
| MatchesPlusOnce (r : Regex.regex) (t : string) :
    Matches r t -> Matches (Regex.Plus r) t
| MatchesPlusMore (r : Regex.regex) (t1 t2 : string) :
    Matches r t1 -> Matches (Regex.Plus r) t2 -> Matches (Regex.Plus r) (t1 ++ t2)%string
| MatchesOptNone (r : Regex.regex) :
    Matches (Regex.Opt r) EmptyString
| MatchesOptSome (r : Regex.regex) (t : string) :
    Matches r t -> Matches (Regex.Opt r) t
| MatchesGroup (r : Regex.regex) (t : string) :
    Matches r t -> Matches (Regex.Group r) t.

Fixpoint allUnits (f : ascii -> bool) (s : string) : bool :=
  match s with
  | EmptyString => true
  | String c s' => f c && allUnits f s'
  end.

(** The letters A-Z and a-z. *)
Definition isAsciiLetter (c : ascii) : bool :=
  Js.inRange 65 90 (Js.codeUnit c) || Js.inRange 97 122 (Js.codeUnit c).

(** A word of the name pattern: one letter or more. *)
Definition isWord (w : string) : Prop := w <> EmptyString /\ allUnits isAsciiLetter w = true.

(** A gap of the name pattern: one white-space character or more. *)
Definition isGap (g : string) : Prop := g <> EmptyString /\ allUnits Js.isWhiteSpace g = true.

(** The session at the end of a processed turn: the utterance pushed,
    the analysis merged, the reply pushed. *)
Definition turnSession (session : Session) (speech aiResponse : string) : Session :=
  let session := VoiceStream.pushMessage session {| role := "user"; content := speech |} in
  let session :=
    VoiceStream.setLeadInfo session (mergeAnalysis (leadInfo session) (analyzeMessage speech)) in
  VoiceStream.pushMessage session {| role := "assistant"; content := aiResponse |}.

(** A transcript of whole exchanges: a user message, then the reply. *)
Fixpoint isExchanges (ms : list Message) : bool :=
  match ms with
  | [] => true
  | m1 :: m2 :: rest =>
      String.eqb (role m1) "user" && String.eqb (role m2) "assistant" && isExchanges rest
  | _ => false
  end.

(** The process has no connection string. *)
Definition withoutDatabase (steps : list (Env * Request)) : Prop :=
  Forall (fun step => COSMOS_CONN (fst step) = None) steps.

(** The three apologies of [getAIResponse]. *)
Definition apologies : list string :=
  [ "I'm having trouble with my AI service. Let me connect you with someone who can help.";
    "I'm having configuration issues. Please call back in a few minutes.";
    "I'm having trouble right now. Could you try again?" ]%string.

(** The connection string has the SQL API format [initializeCosmosDB]
    asks for. *)
Definition hasSqlApiFormat (env : Env) : bool :=
  Js.truthyOpt (COSMOS_CONN env)
  && Js.includes (default "" (COSMOS_CONN env)) "AccountEndpoint="
  && Js.includes (default "" (COSMOS_CONN env)) "AccountKey=".

(** The lead documents the dashboard is given are documents of the
    [leads] container. *)
Definition storedLeads (w : World) (leads : list LeadDoc) : Prop :=
  Forall (fun lead => exists p, leadsContainer w !! p = Some lead) leads.

(** A lead document with a score of 70 or more is flagged as an
    emergency. *)
Definition highScoreIsEmergency (lead : LeadDoc) : Prop :=
  70 <= score lead -> hasEmergency (ld_leadInfo lead) = true.

(** The sessions of the plain turn handler after a sequence of
    deliveries, each with the completion of its chat request. *)
Fixpoint deliverBasic (steps : list (Outcome string * Request)) (m : VoiceStreamBasic.Sessions)
  : VoiceStreamBasic.Sessions :=
  match steps with
  | [] => m
  | (completion, req) :: rest =>
      deliverBasic rest (snd (VoiceStreamBasic.handler completion req m))
  end.

(** A history of the plain turn handler: the system prompt, then whole
    exchanges. *)
Definition isHistory (h : list Message) : Prop :=
  exists exchanges,
    h = {| role := "system"; content := VoiceStreamBasic.systemPrompt |} :: exchanges
    /\ isExchanges exchanges = true.

(** One character of a text, as it reaches the synthesiser: a pause is
    put after each punctuation mark and after each escaped character. *)
Definition spokenUnit (c : ascii) : string :=
  let n := Js.codeUnit c in
  if (n =? 38)%N then "&amp;" ++ Speech.breakTag "300ms"
  else if (n =? 60)%N then "&lt;" ++ Speech.breakTag "300ms"
  else if (n =? 62)%N then "&gt;" ++ Speech.breakTag "300ms"
  else if (n =? 34)%N then "&quot;" ++ Speech.breakTag "300ms"
  else if (n =? 39)%N then "&apos;" ++ Speech.breakTag "300ms"
  else if (n =? 46)%N then "." ++ Speech.breakTag "400ms"
  else if (n =? 63)%N then "?" ++ Speech.breakTag "500ms"
  else if (n =? 33)%N then "!" ++ Speech.breakTag "400ms"
  else if (n =? 44)%N then "," ++ Speech.breakTag "250ms"
  else if (n =? 59)%N then ";" ++ Speech.breakTag "300ms"
  else String c EmptyString.

Fixpoint spoken (text : string) : string :=
  match text with
  | EmptyString => EmptyString
  | String c rest => spokenUnit c ++ spoken rest
  end.

(** The characters XML markup is made of, and the five [escapeXML]
    replaces. *)
Definition isMarkupUnit (c : ascii) : bool :=
  let n := Js.codeUnit c in
  (n =? 60)%N || (n =? 62)%N || (n =? 34)%N || (n =? 39)%N.

Definition isSpecialUnit (c : ascii) : bool :=
  (Js.codeUnit c =? 38)%N || isMarkupUnit c.

(** The hour [n] as the two digits of a time of day. *)
Definition twoDigits (n : Z) : string :=
  String (ascii_of_N (48 + Z.to_N (n / 10))) (String (ascii_of_N (48 + Z.to_N (n mod 10))) EmptyString).

(** A time of day [HH:MM], the minutes being any text. *)
Definition timeOfDay (hour : Z) (minutes : string) : string :=
  (twoDigits hour ++ ":" ++ minutes)%string.

(** Saturday and Sunday, as [Date.prototype.getDay] numbers them. *)
Definition isWeekendDay (day : Z) : bool := (day =? 0)%Z || (day =? 6)%Z.

Definition defaultGreeting : string :=
  "Thank you for calling Blue Caller HVAC. How may I assist you today?".

(** A directory with one plumbing business, which has no document in the
    collection of AI configurations. *)
Definition plumberDirectory : Firebase.Env :=
  {| Firebase.appsLength := 0;
     Firebase.FB_PROJECT_ID := Some "project"%string;
     Firebase.FB_CLIENT_EMAIL := Some "agent@project.example"%string;
     Firebase.FB_PRIVATE_KEY := Some "key"%string;
     Firebase.initializeAppOutcome := Returns tt;
     Firebase.firestoreOutcome := Returns tt;
     Firebase.queryByNumber := fun _ =>
       Returns (Some ("biz-17"%string,
                      {| Firebase.profile :=
                           Some {| Firebase.companyName := Some "Harbor Plumbing"%string;
                                   Firebase.industry := Some "plumbing"%string;
                                   Firebase.businessType := None |};
                         Firebase.services := None;
                         Firebase.schedule := None |}));
     Firebase.queryByMockNumber := fun _ => Returns None;
     Firebase.businessDoc := fun _ => Returns None;
     Firebase.aiConfigDoc := fun _ => Returns None |}.

(** The request carries a bearer cookie that the environment verifies
    as the session of the user [id]. *)
Definition verifiedAs (env : ConfigApi.ApiEnv) (req : ConfigApi.ApiRequest) (id : string) : Prop :=
  exists header email,
    ConfigApi.authorization req = Some header
    /\ Js.startsWith header "Bearer " = true
    /\ ConfigApi.initialized env = true
    /\ ConfigApi.verifyOutcome env (BusinessLogic.dropUnits 7 header) = Returns (id, email).

(** The request carries a bearer cookie that cannot be verified. *)
Definition unverifiableCookie (env : ConfigApi.ApiEnv) (req : ConfigApi.ApiRequest) : Prop :=
  exists header,
    ConfigApi.authorization req = Some header
    /\ Js.startsWith header "Bearer " = true
    /\ (ConfigApi.initialized env = false
        \/ exists m, ConfigApi.verifyOutcome env (BusinessLogic.dropUnits 7 header) = Throws m).

(** An environment in which the cookie [owner-cookie] is the session of
    the owner of the business [biz-17]. *)
Definition ownerEnv : ConfigApi.ApiEnv :=
  {| ConfigApi.firebase :=
       {| Firebase.appsLength := 0;
          Firebase.FB_PROJECT_ID := Some "project"%string;
          Firebase.FB_CLIENT_EMAIL := Some "agent@project.example"%string;
          Firebase.FB_PRIVATE_KEY := Some "key"%string;
          Firebase.initializeAppOutcome := Returns tt;
          Firebase.firestoreOutcome := Returns tt;
          Firebase.queryByNumber := Firebase.queryByNumber plumberDirectory;
          Firebase.queryByMockNumber := fun _ => Returns None;
          Firebase.businessDoc := fun id =>
            if String.eqb id "biz-17"
            then Returns (Some {| Firebase.profile :=
                                    Some {| Firebase.companyName := Some "Harbor Plumbing"%string;
                                            Firebase.industry := Some "plumbing"%string;
                                            Firebase.businessType := None |};
                                  Firebase.services := None;
                                  Firebase.schedule := None |})
            else Returns None;
          Firebase.aiConfigDoc := fun _ => Returns None |};
     ConfigApi.initialized := true;
     ConfigApi.serviceInitialized := true;
     ConfigApi.verifyOutcome := fun cookie =>
       if String.eqb cookie "owner-cookie"
       then Returns ("biz-17"%string, Some "owner@harbor.example"%string)
       else Throws "auth/invalid-session-cookie";
     ConfigApi.setOutcome := Returns tt |}.

(** An update that [validateAIConfig] finds two faults with. *)
Definition faultyUpdate : ConfigApi.ConfigUpdate :=
  {| ConfigApi.u_greetingMessage := None;
     ConfigApi.u_voiceStyle := Some "robotic"%string;
     ConfigApi.u_bufferTime := Some 600 |}.

(** Requests of the owner of [biz-17]: a lookup by business id and an
    update. *)
Definition ownerLookup : ConfigApi.ApiRequest :=
  {| ConfigApi.api_method := "GET";
     ConfigApi.authorization := Some "Bearer owner-cookie"%string;
     ConfigApi.q_businessId := Some "biz-17"%string;
     ConfigApi.q_phoneNumber := None;
     ConfigApi.api_reqBody := None |}.

Definition ownerUpdate : ConfigApi.ApiRequest :=
  {| ConfigApi.api_method := "POST";
     ConfigApi.authorization := Some "Bearer owner-cookie"%string;
     ConfigApi.q_businessId := None;
     ConfigApi.q_phoneNumber := None;
     ConfigApi.api_reqBody :=
       Some {| ConfigApi.b_businessId := None;
               ConfigApi.b_aiConfig := Some faultyUpdate;
               ConfigApi.b_testVoice := None |} |}.

(** A public lookup by phone number, sent with a stale cookie. *)
Definition staleLookup : ConfigApi.ApiRequest :=
  {| ConfigApi.api_method := "GET";
     ConfigApi.authorization := Some "Bearer stale-cookie"%string;
     ConfigApi.q_businessId := None;
     ConfigApi.q_phoneNumber := Some "+12792405162"%string;
     ConfigApi.api_reqBody := None |}.

(** A text without an underscore, as the call identifiers of the
    telephony provider are. *)
Definition noUnderscore (s : string) : bool :=
  allUnits (fun c => negb (Ascii.eqb c "_")) s.

(** A database that refuses the creation of scoped sessions and reports
    missing documents by an empty resource. *)
Definition degradedDb : MultiTenantCosmosDB.DbEnv :=
  {| MultiTenantCosmosDB.scopedCreateOutcome := Throws "Request rate is large";
     MultiTenantCosmosDB.legacyCreateOutcome := Returns tt;
     MultiTenantCosmosDB.readFailure := fun _ => None;
     MultiTenantCosmosDB.missingThrows := false;
     MultiTenantCosmosDB.dbNow := "2024-01-01T00:00:00.000Z" |}.

(** The legacy session of the call [CA1], as the fallback creates it. *)
Definition legacySample : MultiTenantCosmosDB.SessionDoc :=
  {| MultiTenantCosmosDB.sd_id := "CA1";
     MultiTenantCosmosDB.sd_businessId := None;
     MultiTenantCosmosDB.sd_callSid := "CA1";
     MultiTenantCosmosDB.sd_customerPhone := "+15550100";
     MultiTenantCosmosDB.sd_messages := [];
     MultiTenantCosmosDB.sd_leadScore := 0;
     MultiTenantCosmosDB.sd_leadBusinessId := None;
     MultiTenantCosmosDB.sd_businessContext := None;
     MultiTenantCosmosDB.sd_createdAt := "2024-01-01T00:00:00.000Z";
     MultiTenantCosmosDB.sd_updatedAt := "2024-01-01T00:00:00.000Z";
     MultiTenantCosmosDB.sd_businessScoped := false;
     MultiTenantCosmosDB.sd_version := "1.0" |}.

(** * Properties *)

(** ** Scoring *)

Lemma calculateLeadScore_unfold (l : LeadInfo) :
  calculateLeadScore l =
  Z.min (10
         + (if hasEmergency l then 50 else 0)
         + (if Js.strictEq (serviceType l) "installation" then 40
            else if Js.truthyOpt (serviceType l) then 20 else 0)
         + (if Js.truthyOpt (name (contactInfo l)) then 15 else 0)
         + (if String.eqb (urgencyLevel l) "emergency" then 30 else 0)) 100.
Proof.
  unfold calculateLeadScore.
  destruct (hasEmergency l), (Js.strictEq (serviceType l) "installation"),
    (Js.truthyOpt (serviceType l)), (Js.truthyOpt (name (contactInfo l))),
    (String.eqb (urgencyLevel l) "emergency"); reflexivity.
Qed.

(** C9: for every [leadInfo] the score is an integer between 10 and 100:
    it is the base of 10 plus bonuses that are never negative, capped at
    100; in particular it is never 0. *)
Theorem calculateLeadScore_bounds (l : LeadInfo) :
  10 <= calculateLeadScore l <= 100
  /\ calculateLeadScore l <> 0
  /\ exists bonus, 0 <= bonus /\ calculateLeadScore l = Z.min (10 + bonus) 100.
Proof.
  rewrite calculateLeadScore_unfold.
  set (e := if hasEmergency l then 50 else 0).
  set (s := if Js.strictEq (serviceType l) "installation" then 40
            else if Js.truthyOpt (serviceType l) then 20 else 0).
  set (n := if Js.truthyOpt (name (contactInfo l)) then 15 else 0).
  set (u := if String.eqb (urgencyLevel l) "emergency" then 30 else 0).
  assert (He : 0 <= e) by (subst e; destruct (hasEmergency l); lia).
  assert (Hs : 0 <= s)
    by (subst s; destruct (Js.strictEq (serviceType l) "installation"),
          (Js.truthyOpt (serviceType l)); lia).
  assert (Hn : 0 <= n) by (subst n; destruct (Js.truthyOpt (name (contactInfo l))); lia).
  assert (Hu : 0 <= u) by (subst u; destruct (String.eqb (urgencyLevel l) "emergency"); lia).
  repeat split; try lia.
  exists (e + s + n + u). split; [lia | f_equal; lia].
Qed.

(** ** Analysis of one utterance *)

(** C10: for every utterance the analysis has [hasEmergency] true exactly
    when [urgencyLevel] is ['emergency'], and [urgencyLevel] is ['normal']
    otherwise. *)
Theorem analyzeMessage_emergency_iff (message : string) :
  (a_hasEmergency (analyzeMessage message) = true
   <-> a_urgencyLevel (analyzeMessage message) = "emergency")
  /\ (a_hasEmergency (analyzeMessage message) = false
      -> a_urgencyLevel (analyzeMessage message) = "normal")
  /\ a_hasEmergency (analyzeMessage message)
     = someIncluded (Js.toLowerCase message) emergencyKeywords.
Proof.
  unfold analyzeMessage; cbn [a_hasEmergency a_urgencyLevel].
  destruct (someIncluded (Js.toLowerCase message) emergencyKeywords);
    repeat split; intros; congruence.
Qed.

(** ** Effects of the helpers of the turn handler

    Each helper returns normally in every world and for every answer of
    the environment; the lemmas say what it leaves in the stores. *)

Lemma initializeCosmosDB_effect (env : Env) (w : World) :
  exists b w',
    VoiceStream.initializeCosmosDB env w = (Returns b, w')
    /\ conversationSessions w' = conversationSessions w
    /\ leadsContainer w' = leadsContainer w
    /\ (outbound w' = outbound w \/ outbound w' = outbound w ++ [EvConnect])
    /\ (isDbConnected w = true -> isDbConnected w' = true).
Proof.
  unfold VoiceStream.initializeCosmosDB, bind, get, tryCatch.
  destruct (isDbConnected w) eqn:Hc.
  { exists true, w. cbn. auto 10. }
  destruct (negb (Js.truthyOpt (COSMOS_CONN env))).
  { exists false, w. cbn. rewrite Hc. repeat split; auto; discriminate. }
  destruct (negb (Js.includes _ _) || negb (Js.includes _ _)).
  { exists false, w. cbn. rewrite Hc. repeat split; auto; discriminate. }
  unfold request, setDbConnected, modify, ret.
  destruct (connectOutcome env); cbn; eexists _, _; (split; [reflexivity|]); cbn;
    repeat split; auto; discriminate.
Qed.

Lemma sessionFromMemory_effect (k p : string) (w : World) :
  exists ref s w',
    VoiceStream.sessionFromMemory k p w = (Returns (ref, s), w')
    /\ leadsContainer w' = leadsContainer w
    /\ isDbConnected w' = isDbConnected w
    /\ loadedFrom w k p ref s w'.
Proof.
  unfold VoiceStream.sessionFromMemory, bind, get.
  destruct (conversationSessions w !! k) as [s|] eqn:Hk.
  - exists (VoiceStream.Held k), s, w. cbn. rewrite Hk. cbn. intuition eauto.
  - eexists (VoiceStream.Held k), _, _. cbn. rewrite Hk. cbn.
    repeat split; try reflexivity. right. repeat split; reflexivity.
Qed.

Lemma getOrCreateSession_effect (env : Env) (k p : string) (w : World) :
  exists ref s w',
    VoiceStream.getOrCreateSession env k p w = (Returns (ref, s), w')
    /\ leadsContainer w' = leadsContainer w
    /\ isDbConnected w' = isDbConnected w
    /\ loadedFrom w k p ref s w'.
Proof.
  unfold VoiceStream.getOrCreateSession, bind, get.
  destruct (isDbConnected w) eqn:Hc; [|rewrite <- Hc; apply sessionFromMemory_effect].
  unfold tryCatch, VoiceStream.sessionFromDb, bind, request.
  destruct (existingMessagesOutcome env) as [msgs|e1].
  2:{ cbn -[VoiceStream.sessionFromMemory].
      match goal with |- context [VoiceStream.sessionFromMemory k p ?w0] =>
        destruct (sessionFromMemory_effect k p w0) as (ref & s & w' & Heq & Hl & Hd & Hload)
      end.
      exists ref, s, w'. rewrite Heq. cbn in *. repeat split; try assumption; congruence. }
  destruct (previousCallsOutcome env) as [n|e2].
  2:{ cbn -[VoiceStream.sessionFromMemory].
      match goal with |- context [VoiceStream.sessionFromMemory k p ?w0] =>
        destruct (sessionFromMemory_effect k p w0) as (ref & s & w' & Heq & Hl & Hd & Hload)
      end.
      exists ref, s, w'. rewrite Heq. cbn in *. repeat split; try assumption; congruence. }
  cbn. unfold tryCatch, VoiceStream.readLead, bind, request, get.
  destruct (leadReadOutcome env); cbn.
  - destruct (leadsContainer w !! p) as [d|] eqn:Hd; cbn;
      eexists VoiceStream.Fresh, _, _; (split; [reflexivity|]); cbn; repeat split; eauto.
  - eexists VoiceStream.Fresh, _, _; (split; [reflexivity|]); cbn; repeat split; eauto.
Qed.

(** Connected, and with its reads answered, [getOrCreateSession] builds a
    fresh session from the lead document of the caller. *)
Lemma getOrCreateSession_connected (env : Env) (k p : string) (w : World) :
  isDbConnected w = true -> readsAnswered env ->
  exists s w',
    VoiceStream.getOrCreateSession env k p w = (Returns (VoiceStream.Fresh, s), w')
    /\ leadInfo s = storedLeadInfo w p.
Proof.
  intros Hc ([ms Hm] & [n Hn] & Hr).
  unfold VoiceStream.getOrCreateSession, bind, get. rewrite Hc.
  unfold tryCatch, VoiceStream.sessionFromDb, bind, request. rewrite Hm, Hn. cbn.
  unfold tryCatch, VoiceStream.readLead, bind, request, get. rewrite Hr. cbn.
  unfold storedLeadInfo.
  destruct (leadsContainer w !! p) as [d|]; cbn; eexists _, _; split; reflexivity.
Qed.

Local Ltac returns :=
  cbn; eexists _, _; (split; [reflexivity|]); cbn; repeat split; eauto.

Lemma saveMessage_effect (o : Outcome unit) (k p r c : string) (w : World) :
  exists b w', VoiceStream.saveMessage o k p r c w = (Returns b, w') /\ sameStores w w'.
Proof.
  unfold VoiceStream.saveMessage, bind, get, tryCatch, request, sameStores.
  destruct (isDbConnected w) eqn:Hc; [|returns].
  destruct o; returns.
Qed.

Lemma getAIResponse_effect (env : Env) (ms : list Message) (w : World) :
  exists a w', VoiceStream.getAIResponse env ms w = (Returns a, w') /\ sameStores w w'.
Proof.
  unfold VoiceStream.getAIResponse, tryCatch, request, throw, sameStores.
  destruct (openaiReady env); [|returns].
  destruct (completionOutcome env) as [a|m]; [returns|].
  cbn. destruct (Js.includes m "not initialized"); [returns|].
  destruct (Js.includes m "deployment"); returns.
Qed.

Lemma updateLead_effect (env : Env) (p : string) (l : LeadInfo) (k : string) (w : World) :
  exists b w',
    VoiceStream.updateLead env p l k w = (Returns b, w')
    /\ conversationSessions w' = conversationSessions w
    /\ isDbConnected w' = isDbConnected w
    /\ (leadsContainer w' = leadsContainer w
        \/ leadsContainer w' = <[p := leadDocOf p l k (now env)]> (leadsContainer w)).
Proof.
  unfold VoiceStream.updateLead, bind, get, tryCatch, request, upsertLeadDoc, modify.
  destruct (isDbConnected w) eqn:Hc; [|returns].
  destruct (upsertOutcome env); returns.
Qed.

(** The branch of a recognised utterance returns the reply markup; the
    [leadInfo] of the session it loaded is merged with the analysis of the
    utterance, written to the [Map] entry when the session lives there,
    and offered to the lead upsert. *)
Lemma processTurn_effect (env : Env) (fd : FormData) (speech : string) (w : World) :
  exists ref s0 w0 ai sfin w',
    loadedFrom w (CallSid fd) (From fd) ref s0 w0
    /\ leadInfo sfin = mergeAnalysis (leadInfo s0) (analyzeMessage speech)
    /\ VoiceStream.processTurn env fd speech w
       = (Returns (VoiceStream.xmlResponse
                     (VoiceStream.responseTwiml ai (VoiceStream.followUp (leadInfo sfin)))), w')
    /\ conversationSessions w'
       = match ref with
         | VoiceStream.Held _ => <[CallSid fd := sfin]> (conversationSessions w)
         | VoiceStream.Fresh => conversationSessions w
         end
    /\ (leadsContainer w' = leadsContainer w
        \/ leadsContainer w'
           = <[From fd := leadDocOf (From fd) (leadInfo sfin) (CallSid fd) (now env)]>
               (leadsContainer w))
    /\ VoiceStream.getOrCreateSession env (CallSid fd) (From fd) w = (Returns (ref, s0), w0)
    /\ isDbConnected w' = isDbConnected w.
Proof.
  unfold VoiceStream.processTurn.
  destruct (getOrCreateSession_effect env (CallSid fd) (From fd) w)
    as (ref & s0 & w0 & Hget & Hl0 & Hd0 & Hload).
  unfold bind at 1. rewrite Hget.
  set (s1 := VoiceStream.pushMessage s0 _).
  set (s2 := VoiceStream.setLeadInfo s1 _).
  assert (Hw : forall (s : Session) (w1 : World),
             exists w2, VoiceStream.writeSession ref s w1 = (Returns tt, w2)
                        /\ leadsContainer w2 = leadsContainer w1
                        /\ isDbConnected w2 = isDbConnected w1
                        /\ conversationSessions w2
                           = match ref with
                             | VoiceStream.Held key => <[key := s]> (conversationSessions w1)
                             | VoiceStream.Fresh => conversationSessions w1
                             end).
  { intros s w1. destruct ref; cbn; eauto 10. }
  destruct (Hw s1 w0) as (w1 & E1 & Hl1 & Hd1 & Hs1).
  unfold bind at 1. rewrite E1.
  destruct (saveMessage_effect (createUserOutcome env) (CallSid fd) (From fd) "user" speech w1)
    as (b2 & w2 & E2 & Hs2 & Hl2 & Hd2).
  unfold bind at 1. rewrite E2.
  destruct (Hw s2 w2) as (w3 & E3 & Hl3 & Hd3 & Hs3).
  unfold bind at 1. rewrite E3.
  destruct (getAIResponse_effect env (messages s2) w3) as (ai & w4 & E4 & Hs4 & Hl4 & Hd4).
  unfold bind at 1. rewrite E4.
  set (s3 := VoiceStream.pushMessage s2 _).
  destruct (Hw s3 w4) as (w5 & E5 & Hl5 & Hd5 & Hs5).
  unfold bind at 1. rewrite E5.
  destruct (saveMessage_effect (createAssistantOutcome env) (CallSid fd) (From fd) "assistant" ai w5)
    as (b6 & w6 & E6 & Hs6 & Hl6 & Hd6).
  unfold bind at 1. rewrite E6.
  destruct (updateLead_effect env (From fd) (leadInfo s3) (CallSid fd) w6)
    as (b7 & w7 & E7 & Hs7 & Hd7 & Hl7).
  unfold bind at 1. rewrite E7.
  exists ref, s0, w0, ai, s3, w7.
  split; [exact Hload|]. split; [reflexivity|]. split; [reflexivity|].
  split.
  - rewrite Hs7, Hs6, Hs5, Hs4, Hs3, Hs2, Hs1.
    destruct ref as [key|]; cbn in Hload.
    + destruct Hload as [-> [[_ ->]|(_ & _ & ->)]];
        rewrite ?insert_insert_eq; reflexivity.
    + apply Hload.
  - split; [|split; [reflexivity|congruence]].
    rewrite Hl6, Hl5, Hl4, Hl3, Hl2, Hl1, Hl0 in Hl7. exact Hl7.
Qed.

(** Every delivery returns a response, and does what [delivered] says. *)
Lemma handler_delivered (env : Env) (req : Request) (w : World) :
  exists res w',
    VoiceStream.handler env req w = (Returns res, w') /\ delivered env req w res w'.
Proof.
  unfold VoiceStream.handler.
  destruct (initializeCosmosDB_effect env w) as (b & w1 & Hinit & Hs1 & Hl1 & Ho1 & Hc1).
  unfold bind at 1. rewrite Hinit.
  assert (Hu : untouched w w1) by (split; [|split; [|split]]; assumption).
  unfold tryCatch, VoiceStream.turn, delivered.
  destruct (reqBody req) as [fd|]; [|cbn; eauto].
  destruct (String.eqb (method req) "POST"); [|cbn; eauto].
  unfold bind at 1, liftOutcome at 1.
  destruct (VoiceStream.isLowConfidence _ _) as [[|]|m]; [cbn; eauto| |cbn; eauto].
  unfold bind at 1, liftOutcome at 1.
  destruct (VoiceStream.hasSpeech _) as [[|]|m]; [|cbn; eauto|cbn; eauto].
  destruct (SpeechResult fd) as [|s|items]; [cbn; eauto| |cbn; eauto].
  destruct (processTurn_effect env fd s w1)
    as (ref & s0 & w0 & ai & sfin & w' & Hload & Hfin & Hrun & Hs & Hl & Hget & Hc).
  rewrite Hrun. eexists _, w'. split; [reflexivity|].
  exists ref, s0, w0, ai, sfin.
  rewrite Hs1 in Hs. rewrite Hl1 in Hl.
  split; [unfold loadedFrom in *; rewrite Hs1, Hl1 in Hload; exact Hload|].
  split; [exact Hfin|]. split; [reflexivity|]. split; [exact Hs|]. split; [exact Hl|].
  split; [intros Hw; rewrite Hc; apply Hc1, Hw|].
  intros Hw Hr.
  destruct (getOrCreateSession_connected env (CallSid fd) (From fd) w1 (Hc1 Hw) Hr)
    as (s' & w'' & Hget' & Hlead).
  rewrite Hget in Hget'. injection Hget' as -> -> _.
  split; [reflexivity|]. rewrite Hlead. unfold storedLeadInfo. rewrite Hl1. reflexivity.
Qed.

(** ** The stored score *)

Lemma mergeAnalysis_score (l : LeadInfo) (a : Analysis) :
  qualificationScore (mergeAnalysis l a) = calculateLeadScore (mergeAnalysis l a).
Proof. reflexivity. Qed.

Lemma delivered_scoresRecomputed (env : Env) (req : Request) (w : World)
      (res : Response) (w' : World) :
  delivered env req w res w' -> scoresRecomputed w -> scoresRecomputed w'.
Proof.
  intros Hd [Hs Hl].
  assert (Hu : untouched w w' -> scoresRecomputed w').
  { intros (Es & El & _). split; intros ? ?; rewrite ?Es, ?El; [apply Hs|apply Hl]. }
  unfold delivered in Hd.
  destruct (reqBody req) as [fd|]; [|apply Hu, Hd].
  destruct (String.eqb (method req) "POST"); [|apply Hu, Hd].
  destruct (VoiceStream.isLowConfidence _ _) as [[|]|m]; [apply Hu, Hd| |apply Hu, Hd].
  destruct (VoiceStream.hasSpeech _) as [[|]|m]; [|apply Hu, Hd|apply Hu, Hd].
  destruct (SpeechResult fd) as [|s|items]; [apply Hu, Hd| |apply Hu, Hd].
  destruct Hd as (ref & s0 & w0 & ai & sfin & _ & Hfin & _ & Es & El & _).
  split.
  - intros k x. rewrite Es. destruct ref as [key|]; [|apply Hs].
    rewrite lookup_insert. destruct (decide (CallSid fd = k)); [|apply Hs].
    intros [= <-]. rewrite Hfin. apply mergeAnalysis_score.
  - intros p d. destruct El as [-> | ->]; [apply Hl|].
    rewrite lookup_insert. destruct (decide (From fd = p)); [|apply Hl].
    intros [= <-]. cbn. rewrite Hfin. split; [reflexivity|apply mergeAnalysis_score].
Qed.

(** C3: the score is a function of the fields [hasEmergency],
    [serviceType], [urgencyLevel] and [contactInfo.name] alone, and after
    any sequence of deliveries every stored score (of a session of the
    [Map], of a lead document) is the recomputation of that function on
    the [leadInfo] stored with it. *)
Theorem score_always_recomputed (steps : list (Env * Request)) (w : World)
        (H : scoresRecomputed w) :
  scoresRecomputed (deliver steps w)
  /\ exists f : bool -> option string -> string -> option string -> Z,
      forall l, calculateLeadScore l
                = f (hasEmergency l) (serviceType l) (urgencyLevel l) (name (contactInfo l)).
Proof.
  split.
  - revert w H. induction steps as [|[env req] rest IH]; intros w H; [exact H|].
    cbn [deliver]. apply IH.
    destruct (handler_delivered env req w) as (res & w' & Heq & Hd).
    rewrite Heq. cbn [snd]. eapply delivered_scoresRecomputed; eassumption.
  - exists (fun e st u n =>
              calculateLeadScore
                {| hasEmergency := e; serviceType := st;
                   contactInfo := {| name := n |};
                   urgencyLevel := u; qualificationScore := 0 |}).
    intros [e st [n] u q]. reflexivity.
Qed.

Lemma scoresRecomputed_initial : scoresRecomputed initialWorld.
Proof. split; intros ? ?; cbn; rewrite lookup_empty; discriminate. Qed.

(** An instance: two turns of one call, delivered to the initial world. *)
Lemma score_always_recomputed_witness :
  scoresRecomputed
    (deliver [ (sampleEnv, sampleTurn 0.9 "my furnace is broken");
               (sampleEnv, sampleTurn 0.9 "this is an emergency") ] initialWorld)
  /\ exists f : bool -> option string -> string -> option string -> Z,
      forall l, calculateLeadScore l
                = f (hasEmergency l) (serviceType l) (urgencyLevel l) (name (contactInfo l)).
Proof.
  exact (score_always_recomputed _ initialWorld scoresRecomputed_initial).
Defined.

(** ** Monotone merge *)

Lemma keepsSignals_refl (l : LeadInfo) : keepsSignals l l.
Proof. split; auto. Qed.

Lemma keepsSignals_trans (l1 l2 l3 : LeadInfo) :
  keepsSignals l1 l2 -> keepsSignals l2 l3 -> keepsSignals l1 l3.
Proof. intros [A B] [C D]. split; auto. Qed.

Lemma mergeAnalysis_keepsSignals (l : LeadInfo) (a : Analysis) :
  keepsSignals l (mergeAnalysis l a).
Proof.
  split; cbn.
  - intros ->. destruct (a_hasEmergency a); reflexivity.
  - intros Hn. destruct (a_serviceType a) as [t|]; cbn; [|exact Hn].
    destruct t; cbn; [exact Hn|discriminate].
Qed.

Lemma delivered_keepsSignals (env : Env) (req : Request) (w : World)
      (res : Response) (w' : World) (k : string) (s : Session) :
  delivered env req w res w' ->
  conversationSessions w !! k = Some s ->
  exists s', conversationSessions w' !! k = Some s'
             /\ keepsSignals (leadInfo s) (leadInfo s').
Proof.
  intros Hd Hk.
  assert (Hu : untouched w w' ->
               exists s', conversationSessions w' !! k = Some s'
                          /\ keepsSignals (leadInfo s) (leadInfo s')).
  { intros (Es & _). exists s. rewrite Es. split; [exact Hk|apply keepsSignals_refl]. }
  unfold delivered in Hd.
  destruct (reqBody req) as [fd|]; [|apply Hu, Hd].
  destruct (String.eqb (method req) "POST"); [|apply Hu, Hd].
  destruct (VoiceStream.isLowConfidence _ _) as [[|]|m]; [apply Hu, Hd| |apply Hu, Hd].
  destruct (VoiceStream.hasSpeech _) as [[|]|m]; [|apply Hu, Hd|apply Hu, Hd].
  destruct (SpeechResult fd) as [|u|items]; [apply Hu, Hd| |apply Hu, Hd].
  destruct Hd as (ref & s0 & w0 & ai & sfin & Hload & Hfin & _ & Es & _).
  rewrite Es. destruct ref as [key|].
  - rewrite lookup_insert. destruct (decide (CallSid fd = k)) as [<-|Hne].
    + exists sfin. split; [reflexivity|].
      destruct Hload as [_ [[Hin _]|[Hnone _]]]; [|congruence].
      assert (s0 = s) as -> by congruence.
      rewrite Hfin. apply mergeAnalysis_keepsSignals.
    + exists s. split; [exact Hk|apply keepsSignals_refl].
  - exists s. split; [exact Hk|apply keepsSignals_refl].
Qed.

Lemma merged_turns_keepSignals (utterances : list string) (l : LeadInfo) :
  keepsSignals l (fold_left (fun acc u => mergeAnalysis acc (analyzeMessage u)) utterances l).
Proof.
  revert l. induction utterances as [|u rest IH]; intros l; [apply keepsSignals_refl|].
  cbn [fold_left]. eapply keepsSignals_trans; [apply mergeAnalysis_keepsSignals|apply IH].
Qed.

Lemma offeredLeadInfos_app (a b : list Event) :
  offeredLeadInfos (a ++ b) = offeredLeadInfos a ++ offeredLeadInfos b.
Proof.
  induction a as [|e a IH]; [reflexivity|].
  destruct e; cbn; rewrite IH; reflexivity.
Qed.

Lemma saveMessage_offers (o : Outcome unit) (k p r c : string) (w : World) :
  offeredLeadInfos (outbound (snd (VoiceStream.saveMessage o k p r c w)))
  = offeredLeadInfos (outbound w).
Proof.
  unfold VoiceStream.saveMessage, bind, get, tryCatch, request.
  destruct (isDbConnected w); [|reflexivity].
  destruct o; cbn; rewrite offeredLeadInfos_app; apply app_nil_r.
Qed.

Lemma getAIResponse_offers (env : Env) (ms : list Message) (w : World) :
  offeredLeadInfos (outbound (snd (VoiceStream.getAIResponse env ms w)))
  = offeredLeadInfos (outbound w).
Proof.
  unfold VoiceStream.getAIResponse, tryCatch, request, throw.
  destruct (openaiReady env); [|reflexivity].
  destruct (completionOutcome env) as [a|m]; cbn.
  - rewrite offeredLeadInfos_app. apply app_nil_r.
  - destruct (Js.includes m "not initialized"); [|destruct (Js.includes m "deployment")];
      cbn; rewrite offeredLeadInfos_app; apply app_nil_r.
Qed.

Lemma getOrCreateSession_offers (env : Env) (k p : string) (w : World) :
  isDbConnected w = true -> readsAnswered env ->
  offeredLeadInfos (outbound (snd (VoiceStream.getOrCreateSession env k p w)))
  = offeredLeadInfos (outbound w).
Proof.
  intros Hc ([ms Hm] & [n Hn] & Hr).
  unfold VoiceStream.getOrCreateSession, bind, get. rewrite Hc.
  unfold tryCatch, VoiceStream.sessionFromDb, bind, request. rewrite Hm, Hn. cbn.
  unfold tryCatch, VoiceStream.readLead, bind, request, get. rewrite Hr. cbn.
  destruct (leadsContainer w !! p) as [d|]; cbn;
    rewrite <- !app_assoc, offeredLeadInfos_app; apply app_nil_r.
Qed.

Lemma updateLead_offers (env : Env) (p : string) (l : LeadInfo) (k : string) (w : World) :
  isDbConnected w = true ->
  offeredLeadInfos (outbound (snd (VoiceStream.updateLead env p l k w)))
  = offeredLeadInfos (outbound w) ++ [l].
Proof.
  intros Hc.
  unfold VoiceStream.updateLead, bind, get, tryCatch, request, upsertLeadDoc, modify.
  rewrite Hc. destruct (upsertOutcome env); cbn; rewrite offeredLeadInfos_app; reflexivity.
Qed.

(** In the database path a turn offers to the lead upsert the [leadInfo]
    of the lead document it read, merged with the analysis of the
    utterance. *)
Lemma connected_turn_offers (env : Env) (fd : FormData) (speech : string) (w : World) :
  isDbConnected w = true -> readsAnswered env ->
  offeredLeadInfos (outbound (snd (VoiceStream.processTurn env fd speech w)))
  = offeredLeadInfos (outbound w)
    ++ [mergeAnalysis (storedLeadInfo w (From fd)) (analyzeMessage speech)].
Proof.
  intros Hc Hr. unfold VoiceStream.processTurn.
  destruct (getOrCreateSession_connected env (CallSid fd) (From fd) w Hc Hr)
    as (s0 & w0 & Hget & Hlead).
  pose proof (getOrCreateSession_offers env (CallSid fd) (From fd) w Hc Hr) as O0.
  destruct (getOrCreateSession_effect env (CallSid fd) (From fd) w)
    as (ref' & s' & w' & Hget' & _ & Hd0 & _).
  rewrite Hget in Hget'. injection Hget' as <- <- <-.
  rewrite Hget in O0. cbn [snd] in O0.
  unfold bind at 1. rewrite Hget.
  set (s1 := VoiceStream.pushMessage s0 _).
  set (s2 := VoiceStream.setLeadInfo s1 _).
  unfold bind at 1. cbn [VoiceStream.writeSession ret].
  pose proof (saveMessage_offers (createUserOutcome env) (CallSid fd) (From fd) "user" speech w0)
    as O2.
  destruct (saveMessage_effect (createUserOutcome env) (CallSid fd) (From fd) "user" speech w0)
    as (b2 & w2 & E2 & _ & _ & Hd2).
  rewrite E2 in O2. cbn [snd] in O2.
  unfold bind at 1. rewrite E2.
  unfold bind at 1. cbn [VoiceStream.writeSession ret].
  pose proof (getAIResponse_offers env (messages s2) w2) as O4.
  destruct (getAIResponse_effect env (messages s2) w2) as (ai & w4 & E4 & _ & _ & Hd4).
  rewrite E4 in O4. cbn [snd] in O4.
  unfold bind at 1. rewrite E4.
  set (s3 := VoiceStream.pushMessage s2 _).
  unfold bind at 1. cbn [VoiceStream.writeSession ret].
  pose proof (saveMessage_offers (createAssistantOutcome env) (CallSid fd) (From fd)
                                 "assistant" ai w4) as O6.
  destruct (saveMessage_effect (createAssistantOutcome env) (CallSid fd) (From fd)
                               "assistant" ai w4)
    as (b6 & w6 & E6 & _ & _ & Hd6).
  rewrite E6 in O6. cbn [snd] in O6.
  unfold bind at 1. rewrite E6.
  assert (Hc6 : isDbConnected w6 = true) by congruence.
  pose proof (updateLead_offers env (From fd) (leadInfo s3) (CallSid fd) w6 Hc6) as O7.
  destruct (updateLead_effect env (From fd) (leadInfo s3) (CallSid fd) w6)
    as (b7 & w7 & E7 & _).
  rewrite E7 in O7. cbn [snd] in O7.
  unfold bind at 1. rewrite E7. cbn [ret snd].
  rewrite O7, O6, O4, O2, O0. f_equal. f_equal.
  unfold s3, s2, s1. cbn [leadInfo VoiceStream.pushMessage VoiceStream.setLeadInfo].
  rewrite Hlead. reflexivity.
Qed.

(** C4, as the code has it: the merge of a turn never clears the signals.
    Across every sequence of deliveries the session a call has in the
    [Map] keeps them: once [hasEmergency] is true it stays true, and once
    [serviceType] is not [null] it stays not [null].  The same holds for
    the merges of any sequence of utterances into a [leadInfo].  In the
    database path the session of a turn starts from the lead document
    the turn reads: what the turn offers to the lead upsert is the
    [leadInfo] of that document merged with the analysis of the
    utterance, and keeps the signals of that document; nothing carries
    the signals of an earlier turn but the document that is read. *)
Theorem session_signals_monotone (steps : list (Env * Request)) (w : World)
        (k : string) (s : Session) (H : conversationSessions w !! k = Some s) :
  (exists s',
      conversationSessions (deliver steps w) !! k = Some s'
      /\ (hasEmergency (leadInfo s) = true -> hasEmergency (leadInfo s') = true)
      /\ (serviceType (leadInfo s) <> None -> serviceType (leadInfo s') <> None))
  /\ (forall (utterances : list string) (l : LeadInfo),
         let l' := fold_left (fun acc u => mergeAnalysis acc (analyzeMessage u)) utterances l in
         (hasEmergency l = true -> hasEmergency l' = true)
         /\ (serviceType l <> None -> serviceType l' <> None))
  /\ (forall (env : Env) (fd : FormData) (speech : string) (w0 : World),
         isDbConnected w0 = true ->
         readsAnswered env ->
         offeredLeadInfos (outbound (snd (VoiceStream.processTurn env fd speech w0)))
         = offeredLeadInfos (outbound w0)
           ++ [mergeAnalysis (storedLeadInfo w0 (From fd)) (analyzeMessage speech)]
         /\ (hasEmergency (storedLeadInfo w0 (From fd)) = true ->
             hasEmergency (mergeAnalysis (storedLeadInfo w0 (From fd)) (analyzeMessage speech))
             = true)
         /\ (serviceType (storedLeadInfo w0 (From fd)) <> None ->
             serviceType (mergeAnalysis (storedLeadInfo w0 (From fd)) (analyzeMessage speech))
             <> None)).
Proof.
  split; [|split; [intros us l; apply merged_turns_keepSignals|]].
  - assert (G : exists s', conversationSessions (deliver steps w) !! k = Some s'
                           /\ keepsSignals (leadInfo s) (leadInfo s')).
    { revert w s H. induction steps as [|[env req] rest IH]; intros w s H.
      - exists s. split; [exact H|apply keepsSignals_refl].
      - cbn [deliver].
        destruct (handler_delivered env req w) as (res & w' & Heq & Hd).
        rewrite Heq. cbn [snd].
        destruct (delivered_keepsSignals _ _ _ _ _ _ _ Hd H) as (s1 & H1 & K1).
        destruct (IH w' s1 H1) as (s2 & H2 & K2).
        exists s2. split; [exact H2|eapply keepsSignals_trans; eassumption]. }
    destruct G as (s' & Hs' & [A B]). exists s'. auto.
  - clear k s H. intros env fd speech w0 Hc Hr.
    split; [apply connected_turn_offers; assumption|].
    apply (mergeAnalysis_keepsSignals (storedLeadInfo w0 (From fd)) (analyzeMessage speech)).
Qed.

(** An instance: a process without a database whose [Map] holds a session
    with an emergency and a service type set, and one more turn of that
    call that mentions neither. *)
Lemma session_signals_monotone_witness :
  (exists s',
      conversationSessions
        (deliver [ (sampleEnv, sampleTurn 0.9 "thanks, anything else?") ] offlineEmergencyWorld)
        !! "CA1" = Some s'
      /\ (hasEmergency (leadInfo emergencySession) = true -> hasEmergency (leadInfo s') = true)
      /\ (serviceType (leadInfo emergencySession) <> None -> serviceType (leadInfo s') <> None))
  /\ (forall (utterances : list string) (l : LeadInfo),
         let l' := fold_left (fun acc u => mergeAnalysis acc (analyzeMessage u)) utterances l in
         (hasEmergency l = true -> hasEmergency l' = true)
         /\ (serviceType l <> None -> serviceType l' <> None))
  /\ (forall (env : Env) (fd : FormData) (speech : string) (w0 : World),
         isDbConnected w0 = true ->
         readsAnswered env ->
         offeredLeadInfos (outbound (snd (VoiceStream.processTurn env fd speech w0)))
         = offeredLeadInfos (outbound w0)
           ++ [mergeAnalysis (storedLeadInfo w0 (From fd)) (analyzeMessage speech)]
         /\ (hasEmergency (storedLeadInfo w0 (From fd)) = true ->
             hasEmergency (mergeAnalysis (storedLeadInfo w0 (From fd)) (analyzeMessage speech))
             = true)
         /\ (serviceType (storedLeadInfo w0 (From fd)) <> None ->
             serviceType (mergeAnalysis (storedLeadInfo w0 (From fd)) (analyzeMessage speech))
             <> None)).
Proof.
  apply (session_signals_monotone _ offlineEmergencyWorld "CA1" emergencySession).
  reflexivity.
Defined.

(** C4 as stated fails in the database path: the session of a turn is
    rebuilt from the lead document of the caller, and a lead upsert that
    fails is only logged.  After a first turn that sets the emergency flag
    and the service type and whose upsert fails, the session of the second
    turn of the same call has neither. *)
Lemma signals_lost_after_failed_upsert :
  let steps :=
    [ (failingUpsertEnv, sampleTurn 0.9 "This is an emergency, my furnace is out");
      (databaseEnv, sampleTurn 0.9 "thank you") ] in
  map hasEmergency (offeredLeadInfos (outbound (deliver steps initialWorld)))
  = [true; false]
  /\ map serviceType (offeredLeadInfos (outbound (deliver steps initialWorld)))
     = [Some "heating"%string; None]
  /\ replies steps initialWorld
     = [ Returns (VoiceStream.xmlResponse
                    (VoiceStream.responseTwiml
                       "Sure, I can help with that."
                       "Can I get your address to send someone out?"));
         Returns (VoiceStream.xmlResponse
                    (VoiceStream.responseTwiml
                       "Sure, I can help with that."
                       "Anything else I can help with?")) ].
Proof. repeat split; vm_compute; reflexivity. Qed.

(** ** Lead upsert *)

(** C5: when the upsert request of a first [updateLead] does not fail, a
    second [updateLead] with the same [leadInfo] and phone number leaves
    the score of the stored lead document as the first left it, whatever
    the call id and the time of the second call, and whether or not its
    request fails. *)
Theorem updateLead_score_idempotent (env1 env2 : Env) (phoneNumber : string)
        (l : LeadInfo) (callSid1 callSid2 : string) (w : World)
        (H : upsertOutcome env1 = Returns tt) :
  let w1 := snd (VoiceStream.updateLead env1 phoneNumber l callSid1 w) in
  let w2 := snd (VoiceStream.updateLead env2 phoneNumber l callSid2 w1) in
  score <$> (leadsContainer w2 !! phoneNumber) = score <$> (leadsContainer w1 !! phoneNumber)
  /\ (isDbConnected w = true ->
      score <$> (leadsContainer w2 !! phoneNumber) = Some (calculateLeadScore l)).
Proof.
  unfold VoiceStream.updateLead, bind, get, tryCatch, request, upsertLeadDoc, modify.
  rewrite H. destruct (isDbConnected w) eqn:Hc; cbn; rewrite Hc; cbn.
  - destruct (upsertOutcome env2); cbn; rewrite ?lookup_insert_eq; cbn; auto.
  - split; [reflexivity|discriminate].
Qed.

(** An instance: the same lead upserted twice, under two call ids, with the
    database connected. *)
Lemma updateLead_score_idempotent_witness :
  let l := mergeAnalysis initialLeadInfo (analyzeMessage "I need a new furnace") in
  let w1 := snd (VoiceStream.updateLead databaseEnv "+15550100" l "CA1" connectedWorld) in
  let w2 := snd (VoiceStream.updateLead databaseEnv "+15550100" l "CA2" w1) in
  score <$> (leadsContainer w2 !! "+15550100") = score <$> (leadsContainer w1 !! "+15550100")
  /\ (isDbConnected connectedWorld = true ->
      score <$> (leadsContainer w2 !! "+15550100") = Some (calculateLeadScore l)).
Proof.
  exact (updateLead_score_idempotent databaseEnv databaseEnv "+15550100" _ "CA1" "CA2"
           connectedWorld eq_refl).
Defined.

(** ** The confidence filter *)

Lemma trim_nonempty_truthy (s : string) : Js.trim s <> "" -> Js.truthy s = true.
Proof. destruct s; [intros H; exfalso; apply H; reflexivity|reflexivity]. Qed.

Lemma length_pos_nonempty (s : string) : s <> "" -> (0 <? String.length s)%nat = true.
Proof. destruct s; [congruence|reflexivity]. Qed.



(** A result at exactly 0.3 is not below the threshold and is answered
    with the reply of the language model. *)
Example threshold_is_accepted :
  (0.3 <? 0.3)%float = false
  /\ fst (VoiceStream.handler sampleEnv (sampleTurn 0.3 "hello") initialWorld)
     = Returns (VoiceStream.xmlResponse
                  (VoiceStream.responseTwiml "Sure, I can help with that."
                                             "Anything else I can help with?")).
Proof. split; vm_compute; reflexivity. Qed.

(** A result below the threshold with a short text is answered with the
    repetition request, and no completion is requested. *)
Example low_confidence_short_text_is_rejected :
  fst (VoiceStream.handler sampleEnv (sampleTurn 0.05 "hm") initialWorld)
  = Returns (VoiceStream.xmlResponse VoiceStream.clarificationTwiml)
  /\ outbound (snd (VoiceStream.handler sampleEnv (sampleTurn 0.05 "hm") initialWorld)) = [].
Proof. split; vm_compute; reflexivity. Qed.


(** ** No exception reaches the telephony layer *)

Lemma delivered_replyShape (env : Env) (req : Request) (w : World)
      (res : Response) (w' : World) :
  delivered env req w res w' -> replyShape req res.
Proof.
  unfold delivered, replyShape, isWebhook.
  destruct (reqBody req) as [fd|].
  2:{ intros [-> _]. right. right. split; [apply andb_false_r|reflexivity]. }
  destruct (String.eqb (method req) "POST").
  2:{ intros [-> _]. right. right. split; reflexivity. }
  destruct (VoiceStream.isLowConfidence _ _) as [[|]|m];
    [intros [-> _]; left; reflexivity| |intros [-> _]; right; left; reflexivity].
  destruct (VoiceStream.hasSpeech _) as [[|]|m];
    [|intros [-> _]; left; reflexivity|intros [-> _]; right; left; reflexivity].
  destruct (SpeechResult fd) as [|s|items];
    [intros [-> _]; right; left; reflexivity| |intros [-> _]; right; left; reflexivity].
  intros (ref & s0 & w0 & ai & sfin & _ & _ & -> & _). left. reflexivity.
Qed.

Lemma basic_handler_replies (completion : Outcome string) (req : Request)
      (m : VoiceStreamBasic.Sessions) :
  exists res m',
    VoiceStreamBasic.handler completion req m = (Returns res, m') /\ replyShape req res.
Proof.
  unfold VoiceStreamBasic.handler, VoiceStreamBasic.turn, tryCatch, replyShape, isWebhook.
  destruct (reqBody req) as [fd|].
  2:{ eexists _, _. split; [reflexivity|]. right. right.
      split; [apply andb_false_r|reflexivity]. }
  destruct (String.eqb (method req) "POST").
  2:{ eexists _, _. split; [reflexivity|]. right. right. split; reflexivity. }
  unfold bind at 1, liftOutcome at 1.
  destruct (VoiceStream.hasSpeech _) as [[|]|e].
  - destruct (SpeechResult fd) as [|s|items].
    + eexists _, _. split; [reflexivity|]. right. left. reflexivity.
    + unfold VoiceStreamBasic.getOrCreateSession, VoiceStreamBasic.getAIResponse,
        bind, get, modify, tryCatch, liftOutcome, ret.
      destruct (m !! CallSid fd); destruct completion;
        eexists _, _; (split; [reflexivity|]); left; reflexivity.
    + eexists _, _. split; [reflexivity|]. right. left. reflexivity.
  - eexists _, _. split; [reflexivity|]. left. reflexivity.
  - eexists _, _. split; [reflexivity|]. right. left. reflexivity.
Qed.

Lemma greeting_handler_replies (env : VoiceManager.SpeechEnv) :
  exists res,
    VoiceTwiml.handler env tt = (Returns res, tt)
    /\ (isGatherMarkup (body res) = true \/ isHangupMarkup (body res) = true).
Proof.
  unfold VoiceTwiml.handler, VoiceManager.generateVoiceResponse, tryCatch, bind,
    liftOutcome, throw, ret.
  destruct (VoiceManager.synthesizeOutcome env) as [[[|] audio]|e];
    try (eexists; split; [reflexivity|]; right; reflexivity).
  destruct (VoiceManager.cacheAudioOutcome env) as [[url|]|e];
    try (eexists; split; [reflexivity|]; right; reflexivity).
  destruct (Js.truthy url);
    eexists; (split; [reflexivity|]); [left|right]; reflexivity.
Qed.

(** Once their modules are evaluated, the exported functions let no
    exception out: for every request, every state and every answer of
    the external services, each of the three handlers returns, having
    set a response. *)
Lemma loaded_handlers_respond (env : Env) (req : Request) (w : World)
      (completion : Outcome string) (m : VoiceStreamBasic.Sessions)
      (speech : VoiceManager.SpeechEnv) :
  (exists res w', VoiceStream.handler env req w = (Returns res, w') /\ replyShape req res)
  /\ (exists res m',
         VoiceStreamBasic.handler completion req m = (Returns res, m') /\ replyShape req res)
  /\ (exists res,
         VoiceTwiml.handler speech tt = (Returns res, tt)
         /\ (isGatherMarkup (body res) = true \/ isHangupMarkup (body res) = true)).
Proof.
  split; [|split].
  - destruct (handler_delivered env req w) as (res & w' & Heq & Hd).
    exists res, w'. split; [exact Heq|]. eapply delivered_replyShape, Hd.
  - apply basic_handler_replies.
  - apply greeting_handler_replies.
Qed.

(** C7 fails in [voice-stream/index.js]: the module builds its SDK clients
    at the top level, outside any [try].  In a process where [OPENAI_KEY]
    is not set the credential constructor throws while the module is
    evaluated, and every request to the endpoint, whatever it carries,
    ends in that exception: no response is set, neither the reply markup
    nor the hangup markup.  The exported function is not at fault: called
    in any state it returns with a response.  The turn handler with lead
    intelligence builds its client inside a [try]: in the same process
    its module is evaluated without an exception, and the caller hears
    the apology for the missing client in a markup reply. *)
Theorem unguarded_construction_fails_every_call :
  (forall (completion : Outcome string) (req : Request),
      ModuleLoad.invokeVoiceStream keyMissing completion req
      = Throws "key must be a non-empty string")
  /\ (forall (completion : Outcome string) (req : Request) (m : VoiceStreamBasic.Sessions),
         exists res m', VoiceStreamBasic.handler completion req m = (Returns res, m'))
  /\ ModuleLoad.leadVoiceStream keyMissing tt = (Returns false, tt)
  /\ ModuleLoad.invokeLeadVoiceStream keyMissing sampleEnv (sampleTurn 0.9 "My heater is broken")
     = Returns (VoiceStream.xmlResponse
                  (VoiceStream.responseTwiml
                     "I'm having trouble with my AI service. Let me connect you with someone who can help."
                     "What's your name for our records?")).
Proof.
  split; [intros completion req; reflexivity|].
  split.
  { intros completion req m.
    destruct (basic_handler_replies completion req m) as (res & m' & Heq & _).
    exists res, m'. exact Heq. }
  split; [reflexivity|].
  vm_compute. reflexivity.
Qed.

(** ** Business resolution *)

Lemma findBusinessByPhone_total (env : Firebase.Env) (initialized : bool) (phoneNumber : string) :
  exists b, Firebase.findBusinessByPhone env initialized phoneNumber tt = (Returns b, tt).
Proof.
  unfold Firebase.findBusinessByPhone, tryCatch, bind, liftOutcome, ret.
  destruct initialized; cbn; [|eauto].
  destruct (Firebase.queryByNumber env phoneNumber) as [[[id d]|]|e]; eauto.
  destruct (Firebase.queryByMockNumber env phoneNumber) as [[[id d]|]|e]; eauto.
Qed.

Lemma findBusinessByPhone_default (env : Firebase.Env) (initialized : bool)
      (phoneNumber : string) :
  noMatchOrFailure env initialized phoneNumber ->
  Firebase.findBusinessByPhone env initialized phoneNumber tt
  = (Returns Firebase.getDefaultBusinessConfig, tt).
Proof.
  unfold Firebase.findBusinessByPhone, tryCatch, bind, liftOutcome, ret.
  intros [-> | [[m Hq] | [Hq [Hm | [m Hm]]]]]; [reflexivity| | |];
    destruct initialized; cbn; try reflexivity; rewrite Hq; try reflexivity;
    rewrite Hm; reflexivity.
Qed.

Lemma getBusinessAIConfig_total (env : Firebase.Env) (initialized : bool) (id : string) :
  exists c, Firebase.getBusinessAIConfig env initialized id tt = (Returns c, tt).
Proof.
  unfold Firebase.getBusinessAIConfig, tryCatch, bind, liftOutcome, ret.
  destruct (negb initialized || String.eqb id "default"); [eauto|].
  destruct (Firebase.aiConfigDoc env id) as [[c|]|e]; eauto.
Qed.

Lemma getBusinessContext_by_phone (env : Firebase.Env) (initialized : bool)
      (phoneNumber : string) :
  exists b ai,
    Firebase.findBusinessByPhone env initialized phoneNumber tt = (Returns b, tt)
    /\ Firebase.getBusinessAIConfig env initialized (Firebase.businessId b) tt = (Returns ai, tt)
    /\ exists c,
        Business.getBusinessContext env initialized None phoneNumber tt = (Returns c, tt)
        /\ Business.businessId c = Firebase.businessId b
        /\ Business.companyName c
           = Business.orString (Firebase.profile (Firebase.data b) ≫= Firebase.companyName)
                               "Your Business"
        /\ Business.industry c
           = Business.orString (Firebase.profile (Firebase.data b) ≫= Firebase.industry)
                               "general"
        /\ Business.contextServices c
           = default (Business.services (Business.industryTemplate c))
                     (Firebase.services (Firebase.data b))
        /\ Business.isDefault c = Firebase.isDefault b
        /\ Business.found c = Firebase.found b.
Proof.
  destruct (findBusinessByPhone_total env initialized phoneNumber) as (b & Hb).
  destruct (getBusinessAIConfig_total env initialized (Firebase.businessId b)) as (ai & Hai).
  exists b, ai. split; [exact Hb|]. split; [exact Hai|].
  unfold Business.getBusinessContext, tryCatch.
  unfold bind at 1. cbn [ret]. unfold bind at 1. rewrite Hb.
  unfold bind at 1. rewrite Hai.
  eexists. split; [reflexivity|]. cbn. repeat split; reflexivity.
Qed.

(** C6: for every dialed number the lookup returns a business and the
    business context is built, without an exception; when Firebase is not
    initialised, when a query fails, or when no business matches, the
    lookup returns the fixed default business, and the context carries its
    company name ['Blue Caller HVAC'], its industry ['hvac'] and its
    service list.  Missing credentials, or credentials the SDK refuses,
    leave Firebase not initialised. *)
Theorem business_resolution_total (env : Firebase.Env) (initialized : bool)
        (phoneNumber : string) :
  (exists b, Firebase.findBusinessByPhone env initialized phoneNumber tt = (Returns b, tt))
  /\ (exists c,
         Business.getBusinessContext env initialized None phoneNumber tt = (Returns c, tt))
  /\ (noMatchOrFailure env initialized phoneNumber ->
      Firebase.findBusinessByPhone env initialized phoneNumber tt
      = (Returns Firebase.getDefaultBusinessConfig, tt)
      /\ exists c,
          Business.getBusinessContext env initialized None phoneNumber tt = (Returns c, tt)
          /\ Business.businessId c = "default"
          /\ Business.companyName c = "Blue Caller HVAC"
          /\ Business.industry c = "hvac"
          /\ Business.contextServices c
             = ["heating repair"; "cooling repair"; "maintenance"; "installation"]
          /\ Business.isDefault c = true
          /\ Business.found c = false)
  /\ (exists b, Firebase.initializeFirebase env tt = (Returns b, tt))
  /\ (Firebase.appsLength env = 0%nat ->
      Js.truthyOpt (Firebase.FB_PROJECT_ID env) = false
      \/ Js.truthyOpt (Firebase.FB_CLIENT_EMAIL env) = false
      \/ Js.truthyOpt (Firebase.FB_PRIVATE_KEY env) = false
      \/ (exists m, Firebase.initializeAppOutcome env = Throws m) ->
      Firebase.initializeFirebase env tt = (Returns false, tt)).
Proof.
  split; [apply findBusinessByPhone_total|].
  split.
  { destruct (getBusinessContext_by_phone env initialized phoneNumber)
      as (b & ai & _ & _ & c & Hc & _). eauto. }
  split.
  { intros H. pose proof (findBusinessByPhone_default _ _ _ H) as Hd.
    split; [exact Hd|].
    destruct (getBusinessContext_by_phone env initialized phoneNumber)
      as (b & ai & Hb & _ & c & Hc & Hid & Hn & Hi & Hs & Hdef & Hf).
    rewrite Hd in Hb. injection Hb as <-.
    exists c. split; [exact Hc|].
    rewrite Hs, Hn, Hi, Hid, Hdef, Hf. repeat split; reflexivity. }
  split.
  { unfold Firebase.initializeFirebase, tryCatch, bind, liftOutcome, ret.
    destruct (Firebase.appsLength env =? 0)%nat.
    - destruct (negb _ || negb _ || negb _); [eauto|].
      destruct (Firebase.initializeAppOutcome env); [|eauto].
      destruct (Firebase.firestoreOutcome env); eauto.
    - destruct (Firebase.firestoreOutcome env); eauto. }
  intros Hz H.
  unfold Firebase.initializeFirebase, tryCatch, bind, liftOutcome, ret.
  rewrite Hz. cbn.
  destruct H as [-> | [-> | [-> | [m ->]]]]; cbn; rewrite ?orb_true_r; try reflexivity.
  destruct (negb _ || negb _ || negb _); reflexivity.
Qed.

(** An instance: Firebase is initialised and every query fails. *)
Lemma business_resolution_total_witness :
  Firebase.findBusinessByPhone unreachableDirectory true "+12792405162" tt
  = (Returns Firebase.getDefaultBusinessConfig, tt)
  /\ exists c,
      Business.getBusinessContext unreachableDirectory true None "+12792405162" tt
      = (Returns c, tt)
      /\ Business.businessId c = "default"
      /\ Business.companyName c = "Blue Caller HVAC"
      /\ Business.industry c = "hvac"
      /\ Business.contextServices c
         = ["heating repair"; "cooling repair"; "maintenance"; "installation"]
      /\ Business.isDefault c = true
      /\ Business.found c = false.
Proof.
  apply (business_resolution_total unreachableDirectory true "+12792405162").
  right. left. exists "UNAVAILABLE". reflexivity.
Defined.

(** ** The documented test utterances *)

(** The most a lead without an emergency can score is 65: the base, an
    installation and a name. *)
Lemma calculateLeadScore_without_emergency (l : LeadInfo) :
  hasEmergency l = false ->
  String.eqb (urgencyLevel l) "emergency" = false ->
  calculateLeadScore l <= 65.
Proof.
  intros He Hu. rewrite calculateLeadScore_unfold, He, Hu.
  destruct (Js.strictEq _ _), (Js.truthyOpt (serviceType l)),
    (Js.truthyOpt (name (contactInfo l))); lia.
Qed.

(** C2, as the code computes it: on the utterance of the installation
    test the name is ["John Smith"], but the service type is ['cooling']
    (the keyword [air conditioning] of ['cooling'] is tried before the
    keyword [new] of ['installation']) and the score of a fresh session
    is 45; the same holds with the word [installed] added, as the README
    has it. *)
Theorem installation_test_as_coded :
  let utterance := "Hi, my name is John Smith, I need a new air conditioning system" in
  let analysis := analyzeMessage utterance in
  name (a_contactInfo analysis) = Some "John Smith"
  /\ a_hasEmergency analysis = false
  /\ a_serviceType analysis = Some "cooling"
  /\ someIncluded (Js.toLowerCase utterance) ["install"; "new"; "replace"] = true
  /\ qualificationScore (mergeAnalysis initialLeadInfo analysis) = 45
  /\ (leadInfo <$>
      conversationSessions
        (snd (VoiceStream.handler sampleEnv (sampleTurn 0.9 utterance) initialWorld)) !! "CA1")
     = Some {| hasEmergency := false;
               serviceType := Some "cooling";
               contactInfo := {| name := Some "John Smith" |};
               urgencyLevel := "normal";
               qualificationScore := 45 |}
  /\ a_serviceType
       (analyzeMessage
          "Hi, my name is John Smith, I need a new air conditioning system installed")
     = Some "cooling".
Proof. repeat split; vm_compute; reflexivity. Qed.

(** ** Name extraction *)

#[local] Arguments String.append !s1 s2 : simpl nomatch.

Lemma string_app_assoc (a b c : string) : ((a ++ b) ++ c = a ++ (b ++ c))%string.
Proof. induction a as [|x a IH]; simpl; [reflexivity|f_equal; exact IH]. Qed.

Lemma string_app_nil_r (a : string) : (a ++ "")%string = a.
Proof. induction a as [|x a IH]; simpl; [reflexivity|f_equal; exact IH]. Qed.

Lemma string_length_app (a b : string) :
  String.length (a ++ b)%string = (String.length a + String.length b)%nat.
Proof. induction a as [|x a IH]; simpl; [reflexivity|f_equal; exact IH]. Qed.

Lemma take_app (t rest : string) :
  Js.take (String.length (t ++ rest)%string - String.length rest) (t ++ rest)%string = t.
Proof.
  rewrite string_length_app.
  replace (String.length t + String.length rest - String.length rest)%nat
    with (String.length t) by lia.
  induction t as [|x t IH]; simpl; [destruct rest; reflexivity|f_equal; exact IH].
Qed.

(** The matcher only succeeds through a match: when [run] succeeds, the
    input splits into a text the pattern matches and a rest on which the
    continuation succeeded. *)
Lemma run_sound {A : Type} (r : Regex.regex) :
  forall (s : string) (cap : option string) (k : string -> option string -> option A) (x : A),
    Regex.run r s cap k = Some x ->
    exists t rest cap', s = (t ++ rest)%string /\ Matches r t /\ k rest cap' = Some x.
Proof.
  induction r as [accept|r1 IH1 r2 IH2|r1 IH1 r2 IH2|r1 IH1|r1 IH1|r1 IH1];
    intros s cap k x H; cbn [Regex.run] in H.
  - destruct s as [|c s]; [discriminate|].
    destruct (accept c) eqn:Hc; [|discriminate].
    exists (String c ""), s, cap. repeat split; [constructor; exact Hc|exact H].
  - apply IH1 in H. destruct H as (t1 & s1 & cap1 & -> & M1 & H).
    apply IH2 in H. destruct H as (t2 & s2 & cap2 & -> & M2 & H).
    exists (t1 ++ t2)%string, s2, cap2. rewrite string_app_assoc.
    repeat split; [constructor; assumption|exact H].
  - unfold Regex.orElse in H. destruct (Regex.run r1 s cap k) eqn:E1.
    + injection H as <-. apply IH1 in E1. destruct E1 as (t & rest & cap' & -> & M & Hk).
      exists t, rest, cap'. repeat split; [apply MatchesAltLeft; exact M|exact Hk].
    + apply IH2 in H. destruct H as (t & rest & cap' & -> & M & Hk).
      exists t, rest, cap'. repeat split; [apply MatchesAltRight; exact M|exact Hk].
  - revert H. generalize (String.length s) as fuel. intros fuel. revert s cap x.
    induction fuel as [|fuel IHf]; intros s cap x H.
    + apply IH1 in H. destruct H as (t & rest & cap' & -> & M & Hk).
      exists t, rest, cap'. repeat split; [apply MatchesPlusOnce; exact M|exact Hk].
    + apply IH1 in H. destruct H as (t & rest & cap' & -> & M & Hk).
      destruct (String.length rest <? String.length (t ++ rest)%string)%nat.
      * unfold Regex.orElse in Hk.
        match type of Hk with
        | match ?it with _ => _ end = _ => destruct it eqn:Eit
        end.
        -- injection Hk as <-. apply IHf in Eit.
           destruct Eit as (t2 & rest2 & cap2 & -> & M2 & Hk2).
           exists (t ++ t2)%string, rest2, cap2. rewrite string_app_assoc.
           repeat split; [apply MatchesPlusMore; assumption|exact Hk2].
        -- exists t, rest, cap'. repeat split; [apply MatchesPlusOnce; exact M|exact Hk].
      * exists t, rest, cap'. repeat split; [apply MatchesPlusOnce; exact M|exact Hk].
  - unfold Regex.orElse in H. destruct (Regex.run r1 s cap k) eqn:E1.
    + injection H as <-. apply IH1 in E1. destruct E1 as (t & rest & cap' & -> & M & Hk).
      exists t, rest, cap'. repeat split; [apply MatchesOptSome; exact M|exact Hk].
    + exists ""%string, s, cap. repeat split; [apply MatchesOptNone|exact H].
  - apply IH1 in H. destruct H as (t & rest & cap' & -> & M & Hk).
    exists t, rest, (Some (Js.take (String.length (t ++ rest)%string - String.length rest)
                                   (t ++ rest)%string)).
    repeat split; [apply MatchesGroup; exact M|exact Hk].
Qed.

Lemma classI_letters (x : ascii) :
  existsb (fun k => (Regex.canonicalize (ascii_of_N (97 + N.of_nat k)) =? Regex.canonicalize x)%N)
          (seq 0 (N.to_nat (122 - 97) + 1))
  = isAsciiLetter x.
Proof. destruct x as [[] [] [] [] [] [] [] []]; vm_compute; reflexivity. Qed.

Lemma letter_not_whiteSpace (x : ascii) :
  isAsciiLetter x = true -> Js.isWhiteSpace x = false.
Proof. destruct x as [[] [] [] [] [] [] [] []]; vm_compute; congruence. Qed.

Lemma matches_plus_chr (f : ascii -> bool) (t : string) :
  Matches (Regex.Plus (Regex.Chr f)) t -> t <> "" /\ allUnits f t = true.
Proof.
  remember (Regex.Plus (Regex.Chr f)) as r eqn:Er. intros H.
  induction H as [| | | |r t M _|r t1 t2 M1 _ M2 IH2| | |]; try discriminate.
  - injection Er as ->. inversion M as [accept c Hc| | | | | | | |]; subst.
    split; [discriminate|]. simpl. rewrite Hc. reflexivity.
  - injection Er as ->. inversion M1 as [accept c Hc| | | | | | | |]; subst.
    split; [discriminate|].
    destruct (IH2 eq_refl) as [_ Hall]. simpl. rewrite Hc, Hall. reflexivity.
Qed.

Lemma allUnits_ext (f g : ascii -> bool) (t : string) :
  (forall x, f x = g x) -> allUnits f t = allUnits g t.
Proof.
  intros E. induction t as [|c t IH]; [reflexivity|].
  cbn [allUnits]. rewrite E, IH. reflexivity.
Qed.

Lemma matches_nameWord (t : string) : Matches nameWord t -> isWord t.
Proof.
  intros H. apply matches_plus_chr in H. destruct H as [Hne Hall]. split; [exact Hne|].
  rewrite <- Hall. symmetry. apply allUnits_ext, classI_letters.
Qed.

Lemma matches_nameGap (t : string) : Matches nameGap t -> isGap t.
Proof. intros H. apply matches_plus_chr in H. exact H. Qed.

Lemma matches_nameGroup (t : string) :
  Matches nameGroup t ->
  exists w1, isWord w1
             /\ (t = w1 \/ exists g w2, isGap g /\ isWord w2 /\ t = (w1 ++ g ++ w2)%string).
Proof.
  intros H. inversion H as [|r1 r2 t1 t2 M1 M2| | | | | | |]; subst.
  exists t1. split; [apply matches_nameWord, M1|].
  inversion M2 as [| | | | | |r|r t M|]; subst.
  - left. apply string_app_nil_r.
  - right. inversion M as [|r1 r2 g w2 Mg Mw| | | | | | |]; subst.
    exists g, w2. split; [apply matches_nameGap, Mg|].
    split; [apply matches_nameWord, Mw|reflexivity].
Qed.

Lemma run_namePattern (s : string) (cap : option string) :
  Regex.run namePattern s None (fun _ c => Some c) = Some cap ->
  exists t, cap = Some t /\ Matches nameGroup t.
Proof.
  unfold namePattern.
  set (p := Regex.Alt _ _).
  change (Regex.run (Regex.Cat p (Regex.Cat nameGap (Regex.Group nameGroup))) s None
                    (fun _ c => Some c))
    with (Regex.run p s None
            (fun s1 cap1 =>
               Regex.run nameGap s1 cap1
                 (fun s2 cap2 =>
                    Regex.run nameGroup s2 cap2
                      (fun s3 _ =>
                         Some (Some (Js.take (String.length s2 - String.length s3) s2)))))).
  intros H.
  apply run_sound in H. destruct H as (t1 & s1 & cap1 & _ & _ & H).
  apply run_sound in H. destruct H as (t2 & s2 & cap2 & _ & _ & H).
  apply run_sound in H. destruct H as (t & s3 & cap3 & -> & M & H).
  rewrite take_app in H. injection H as <-. exists t. split; [reflexivity|exact M].
Qed.

Lemma exec_namePattern (s : string) (cap : option string) :
  Regex.exec namePattern s = Some cap ->
  exists t, cap = Some t /\ Matches nameGroup t.
Proof.
  induction s as [|c s IH]; cbn [Regex.exec];
    destruct (Regex.run namePattern _ None _) as [cap'|] eqn:E;
    intros H;
    try (injection H as <-; eapply run_namePattern, E);
    try discriminate H.
  apply IH, H.
Qed.

Lemma rev_rev (s a b : string) : Js.rev (Js.rev s a) b = Js.rev a (s ++ b)%string.
Proof. revert a. induction s as [|x s IH]; intros a; simpl; [reflexivity|apply IH]. Qed.

Lemma rev_snoc (s : string) (d : ascii) (acc : string) :
  Js.rev (s ++ String d "")%string acc = String d (Js.rev s acc).
Proof. revert acc. induction s as [|x s IH]; intros acc; simpl; [reflexivity|apply IH]. Qed.

Lemma trim_fixed (t : string) :
  Js.trimStart t = t -> Js.trimStart (Js.rev t "") = Js.rev t "" -> Js.trim t = t.
Proof.
  intros H1 H2. unfold Js.trim. rewrite H1, H2, rev_rev. simpl. apply string_app_nil_r.
Qed.

Lemma word_first (w rest : string) :
  isWord w -> Js.trimStart (w ++ rest)%string = (w ++ rest)%string.
Proof.
  intros [Hne Hall]. destruct w as [|c w]; [congruence|].
  simpl in *. apply andb_true_iff in Hall. destruct Hall as [Hc _].
  rewrite (letter_not_whiteSpace c Hc). reflexivity.
Qed.

Lemma word_snoc (w : string) :
  isWord w -> exists w0 d, w = (w0 ++ String d "")%string /\ isAsciiLetter d = true.
Proof.
  intros [Hne Hall]. induction w as [|c w IH]; [congruence|].
  simpl in Hall. apply andb_true_iff in Hall. destruct Hall as [Hc Hw].
  destruct w as [|c' w'].
  - exists "", c. split; [reflexivity|exact Hc].
  - destruct (IH ltac:(discriminate) Hw) as (w0 & d & E & Hd).
    exists (String c w0), d. simpl. rewrite <- E. split; [reflexivity|exact Hd].
Qed.

Lemma word_last (pre w : string) :
  isWord w -> Js.trimStart (Js.rev (pre ++ w)%string "") = Js.rev (pre ++ w)%string "".
Proof.
  intros Hw. destruct (word_snoc w Hw) as (w0 & d & -> & Hd).
  rewrite <- string_app_assoc, rev_snoc. simpl.
  rewrite (letter_not_whiteSpace d Hd). reflexivity.
Qed.

(** C8, as the pattern has it: whatever follows ["my name is"], ["i'm"]
    or ["i am"] (in any letter case) and white space is taken as the name,
    with no validation: one word of letters A-Z or a-z, or two such words
    with the white space between them.  For ["I'm calling about..."] the
    name is ["calling about"]. *)
Theorem name_extraction (message n : string) (H : extractName message = Some n) :
  (exists w1,
      isWord w1
      /\ (n = w1 \/ exists g w2, isGap g /\ isWord w2 /\ n = (w1 ++ g ++ w2)%string))
  /\ extractName "I'm calling about..." = Some "calling about"%string
  /\ extractName "Hello, my name is Alice" = Some "Alice"%string
  /\ extractName "hi I AM Bob   Jones and so on" = Some "Bob   Jones"%string
  /\ extractName "I'm 42 years old" = None.
Proof.
  split; [|repeat split; vm_compute; reflexivity].
  unfold extractName in H.
  destruct (Regex.exec namePattern message) as [[t|]|] eqn:E; try discriminate.
  injection H as <-.
  apply exec_namePattern in E. destruct E as (t' & [= <-] & M).
  destruct (matches_nameGroup t M) as (w1 & Hw1 & Hshape).
  assert (Ht : Js.trim t = t).
  { apply trim_fixed.
    - destruct Hshape as [-> | (g & w2 & _ & _ & ->)].
      + rewrite <- (string_app_nil_r w1). apply word_first, Hw1.
      + apply word_first, Hw1.
    - destruct Hshape as [-> | (g & w2 & _ & Hw2 & ->)].
      + apply (word_last "" w1 Hw1).
      + rewrite <- string_app_assoc. apply word_last, Hw2. }
  rewrite Ht. exists w1. split; [exact Hw1|exact Hshape].
Qed.

(** An instance: the name extracted from ["I'm calling about..."]. *)
Lemma name_extraction_witness :
  (exists w1,
      isWord w1
      /\ ("calling about"%string = w1
          \/ exists g w2, isGap g /\ isWord w2 /\ "calling about"%string = (w1 ++ g ++ w2)%string))
  /\ extractName "I'm calling about..." = Some "calling about"%string
  /\ extractName "Hello, my name is Alice" = Some "Alice"%string
  /\ extractName "hi I AM Bob   Jones and so on" = Some "Bob   Jones"%string
  /\ extractName "I'm 42 years old" = None.
Proof.
  apply (name_extraction "I'm calling about..." "calling about").
  vm_compute. reflexivity.
Defined.

(** C8 as stated fails on its example: the pattern takes two words, so
    the name extracted from ["I'm calling about..."] is ["calling about"],
    not ["calling"]. *)
Lemma calling_about_is_extracted :
  name (a_contactInfo (analyzeMessage "I'm calling about...")) = Some "calling about"%string
  /\ name (a_contactInfo (analyzeMessage "I'm calling about...")) <> Some "calling"%string.
Proof. split; vm_compute; [reflexivity|discriminate]. Qed.

(** * Further properties of the turn handler *)

(** ** Emergency utterances *)

Lemma startsWith_toLowerCase (s p : string) :
  Js.startsWith s p = true -> Js.startsWith (Js.toLowerCase s) (Js.toLowerCase p) = true.
Proof.
  revert s. induction p as [|a p IH]; intros s H; [destruct s; reflexivity|].
  destruct s as [|b s]; [discriminate|]. cbn in *.
  destruct (Ascii.eqb a b) eqn:E; [|discriminate].
  apply Ascii.eqb_eq in E. subst b. rewrite Ascii.eqb_refl. apply IH, H.
Qed.

Lemma includes_toLowerCase (s sub : string) :
  Js.includes s sub = true -> Js.includes (Js.toLowerCase s) (Js.toLowerCase sub) = true.
Proof.
  induction s as [|c s IH]; cbn [Js.includes]; intros H.
  - apply orb_true_iff in H. destruct H as [H|H]; [|discriminate].
    apply startsWith_toLowerCase in H. cbn in *. rewrite H. reflexivity.
  - apply orb_true_iff in H. apply orb_true_iff. destruct H as [H|H].
    + left. apply (startsWith_toLowerCase (String c s)), H.
    + right. apply IH, H.
Qed.

(** X1: an utterance with an emergency keyword, merged into any lead,
    leaves the emergency flag set and the urgency at ["emergency"], a score
    of 90 or more, and the address as the next question. *)
Theorem emergency_turn_scores_high (l : LeadInfo) (utterance : string)
        (H : someIncluded (Js.toLowerCase utterance) emergencyKeywords = true) :
  hasEmergency (mergeAnalysis l (analyzeMessage utterance)) = true
  /\ urgencyLevel (mergeAnalysis l (analyzeMessage utterance)) = "emergency"%string
  /\ 90 <= qualificationScore (mergeAnalysis l (analyzeMessage utterance)) <= 100
  /\ VoiceStream.followUp (mergeAnalysis l (analyzeMessage utterance))
     = "Can I get your address to send someone out?"%string.
Proof.
  unfold mergeAnalysis, analyzeMessage. rewrite H. cbn.
  split; [reflexivity|]. split; [reflexivity|]. split; [|reflexivity].
  unfold calculateLeadScore. cbn.
  destruct (Js.strictEq _ "installation"); [|destruct (Js.truthyOpt (if Js.truthyOpt _ then _ else _))];
    destruct (Js.truthyOpt (name _)); lia.
Qed.

Lemma emergency_turn_scores_high_witness :
  hasEmergency (mergeAnalysis initialLeadInfo (analyzeMessage "There is a gas smell in my kitchen"))
  = true
  /\ urgencyLevel (mergeAnalysis initialLeadInfo (analyzeMessage "There is a gas smell in my kitchen"))
     = "emergency"%string
  /\ 90 <= qualificationScore
             (mergeAnalysis initialLeadInfo (analyzeMessage "There is a gas smell in my kitchen"))
     <= 100
  /\ VoiceStream.followUp
       (mergeAnalysis initialLeadInfo (analyzeMessage "There is a gas smell in my kitchen"))
     = "Can I get your address to send someone out?"%string.
Proof.
  apply (emergency_turn_scores_high initialLeadInfo "There is a gas smell in my kitchen").
  vm_compute. reflexivity.
Defined.

(** X2: the urgency of a lead is that of the last utterance alone: it is
    ["emergency"] exactly when the last utterance has an emergency keyword.
    After an utterance without one, a lead flagged as an emergency keeps
    the flag, has the urgency ["normal"], a score of 60 or more, and still
    gets the address question. *)
Theorem urgency_follows_last_utterance (l : LeadInfo) (utterance : string) :
  (urgencyLevel (mergeAnalysis l (analyzeMessage utterance)) = "emergency"%string
   <-> someIncluded (Js.toLowerCase utterance) emergencyKeywords = true)
  /\ (someIncluded (Js.toLowerCase utterance) emergencyKeywords = false ->
      hasEmergency l = true ->
      hasEmergency (mergeAnalysis l (analyzeMessage utterance)) = true
      /\ urgencyLevel (mergeAnalysis l (analyzeMessage utterance)) = "normal"%string
      /\ 60 <= qualificationScore (mergeAnalysis l (analyzeMessage utterance)) <= 100
      /\ VoiceStream.followUp (mergeAnalysis l (analyzeMessage utterance))
         = "Can I get your address to send someone out?"%string).
Proof.
  unfold mergeAnalysis, analyzeMessage.
  destruct (someIncluded _ emergencyKeywords) eqn:E; cbn.
  - split; [tauto|discriminate].
  - split; [split; discriminate|]. intros _ ->. cbn.
    split; [reflexivity|]. split; [reflexivity|]. split; [|reflexivity].
    unfold calculateLeadScore. cbn.
    destruct (Js.strictEq _ "installation"); [|destruct (Js.truthyOpt (if Js.truthyOpt _ then _ else _))];
      destruct (Js.truthyOpt (name _)); lia.
Qed.

(** X3: the emergency keywords are found whatever the letter case in
    which the caller's words were transcribed. *)
Theorem emergency_detection_ignores_case (message spelling keyword : string)
        (Hk : In keyword emergencyKeywords)
        (Hs : Js.toLowerCase spelling = keyword)
        (Hm : Js.includes message spelling = true) :
  a_hasEmergency (analyzeMessage message) = true
  /\ a_urgencyLevel (analyzeMessage message) = "emergency"%string.
Proof.
  assert (E : someIncluded (Js.toLowerCase message) emergencyKeywords = true).
  { unfold someIncluded. apply existsb_exists. exists keyword. split; [exact Hk|].
    rewrite <- Hs. apply includes_toLowerCase, Hm. }
  unfold analyzeMessage. cbn [a_hasEmergency a_urgencyLevel]. rewrite E. split; reflexivity.
Qed.

Lemma emergency_detection_ignores_case_witness :
  a_hasEmergency (analyzeMessage "We have NO HEAT since Monday") = true
  /\ a_urgencyLevel (analyzeMessage "We have NO HEAT since Monday") = "emergency"%string.
Proof.
  apply (emergency_detection_ignores_case "We have NO HEAT since Monday" "NO HEAT" "no heat").
  - cbn. auto.
  - reflexivity.
  - vm_compute. reflexivity.
Defined.

Lemma urgency_follows_last_utterance_witness :
  hasEmergency (mergeAnalysis (leadInfo emergencySession) (analyzeMessage "thank you")) = true
  /\ urgencyLevel (mergeAnalysis (leadInfo emergencySession) (analyzeMessage "thank you"))
     = "normal"%string
  /\ 60 <= qualificationScore (mergeAnalysis (leadInfo emergencySession) (analyzeMessage "thank you"))
     <= 100
  /\ VoiceStream.followUp (mergeAnalysis (leadInfo emergencySession) (analyzeMessage "thank you"))
     = "Can I get your address to send someone out?"%string.
Proof.
  apply (proj2 (urgency_follows_last_utterance (leadInfo emergencySession) "thank you"));
    vm_compute; reflexivity.
Defined.

(** ** The branches of a delivery *)

(** After the connection attempt, a delivery either answers at once and
    leaves the world as the attempt left it, or runs the turn on the
    utterance. *)
Lemma handler_cases (env : Env) (req : Request) (w : World) :
  exists b w1,
    VoiceStream.initializeCosmosDB env w = (Returns b, w1)
    /\ untouched w w1
    /\ ((exists res, VoiceStream.handler env req w = (Returns res, w1)
                     /\ In res [ VoiceStream.readyResponse;
                                 VoiceStream.xmlResponse VoiceStream.clarificationTwiml;
                                 VoiceStream.xmlResponse VoiceStream.noSpeechTwiml;
                                 VoiceStream.errorResponse ])
        \/ (exists fd s, reqBody req = Some fd
                         /\ SpeechResult fd = FString s
                         /\ Js.trim s <> EmptyString
                         /\ VoiceStream.handler env req w = VoiceStream.processTurn env fd s w1)).
Proof.
  destruct (initializeCosmosDB_effect env w) as (b & w1 & Hinit & Hs1 & Hl1 & Ho1 & Hc1).
  exists b, w1. split; [exact Hinit|]. split; [repeat split; assumption|].
  assert (Hh : VoiceStream.handler env req w
               = tryCatch (VoiceStream.turn env req) (fun _ => ret VoiceStream.errorResponse) w1).
  { unfold VoiceStream.handler. unfold bind at 1. rewrite Hinit. reflexivity. }
  rewrite Hh. clear Hh.
  remember (tryCatch (VoiceStream.turn env req) (fun _ => ret VoiceStream.errorResponse) w1)
    as r eqn:Hr.
  unfold tryCatch, VoiceStream.turn in Hr.
  destruct (reqBody req) as [fd|]; [|left; subst r; cbn; eauto].
  destruct (String.eqb (method req) "POST"); [|left; subst r; cbn; eauto].
  unfold bind at 1, liftOutcome at 1 in Hr.
  destruct (VoiceStream.isLowConfidence _ _) as [[|]|m];
    [left; subst r; cbn; eauto 6| |left; subst r; cbn; eauto 7].
  unfold bind at 1, liftOutcome at 1 in Hr.
  destruct (VoiceStream.hasSpeech _) as [[|]|m] eqn:Hsp;
    [|left; subst r; cbn; eauto 7|left; subst r; cbn; eauto 7].
  destruct (SpeechResult fd) as [|s|items] eqn:Hsr;
    [left; subst r; cbn; eauto 7| |left; subst r; cbn; eauto 7].
  right. exists fd, s. split; [reflexivity|]. split; [exact Hsr|].
  destruct (processTurn_effect env fd s w1)
    as (ref & s0 & w0 & ai & sfin & w' & _ & _ & Hrun & _).
  rewrite Hrun in Hr |- *. split; [|exact Hr].
  intros Ht. unfold VoiceStream.hasSpeech, trimLength, truthyValue in Hsp.
  rewrite Ht in Hsp. destruct (Js.truthy s); discriminate.
Qed.

(** The turn, with the session it leaves in the [Map]. *)
Lemma processTurn_session (env : Env) (fd : FormData) (speech : string) (w : World) :
  exists ref s0 w0 ai w',
    VoiceStream.getOrCreateSession env (CallSid fd) (From fd) w = (Returns (ref, s0), w0)
    /\ loadedFrom w (CallSid fd) (From fd) ref s0 w0
    /\ VoiceStream.processTurn env fd speech w
       = (Returns (VoiceStream.xmlResponse
                     (VoiceStream.responseTwiml
                        ai (VoiceStream.followUp (leadInfo (turnSession s0 speech ai))))), w')
    /\ conversationSessions w'
       = match ref with
         | VoiceStream.Held _ =>
             <[CallSid fd := turnSession s0 speech ai]> (conversationSessions w)
         | VoiceStream.Fresh => conversationSessions w
         end.
Proof.
  unfold VoiceStream.processTurn.
  destruct (getOrCreateSession_effect env (CallSid fd) (From fd) w)
    as (ref & s0 & w0 & Hget & Hl0 & Hd0 & Hload).
  unfold bind at 1. rewrite Hget.
  set (s1 := VoiceStream.pushMessage s0 _).
  set (s2 := VoiceStream.setLeadInfo s1 _).
  assert (Hw : forall (s : Session) (w1 : World),
             exists w2, VoiceStream.writeSession ref s w1 = (Returns tt, w2)
                        /\ conversationSessions w2
                           = match ref with
                             | VoiceStream.Held key => <[key := s]> (conversationSessions w1)
                             | VoiceStream.Fresh => conversationSessions w1
                             end).
  { intros s w1. destruct ref; cbn; eauto 10. }
  destruct (Hw s1 w0) as (w1 & E1 & Hs1).
  unfold bind at 1. rewrite E1.
  destruct (saveMessage_effect (createUserOutcome env) (CallSid fd) (From fd) "user" speech w1)
    as (b2 & w2 & E2 & Hs2 & _).
  unfold bind at 1. rewrite E2.
  destruct (Hw s2 w2) as (w3 & E3 & Hs3).
  unfold bind at 1. rewrite E3.
  destruct (getAIResponse_effect env (messages s2) w3) as (ai & w4 & E4 & Hs4 & _).
  unfold bind at 1. rewrite E4.
  set (s3 := VoiceStream.pushMessage s2 _).
  destruct (Hw s3 w4) as (w5 & E5 & Hs5).
  unfold bind at 1. rewrite E5.
  destruct (saveMessage_effect (createAssistantOutcome env) (CallSid fd) (From fd) "assistant" ai w5)
    as (b6 & w6 & E6 & Hs6 & _).
  unfold bind at 1. rewrite E6.
  destruct (updateLead_effect env (From fd) (leadInfo s3) (CallSid fd) w6)
    as (b7 & w7 & E7 & Hs7 & _).
  unfold bind at 1. rewrite E7.
  exists ref, s0, w0, ai, w7.
  split; [reflexivity|]. split; [exact Hload|]. split; [reflexivity|].
  rewrite Hs7, Hs6, Hs5, Hs4, Hs3, Hs2, Hs1.
  destruct ref as [key|]; cbn in Hload.
  - destruct Hload as [-> [[_ ->]|(_ & _ & ->)]]; rewrite ?insert_insert_eq; reflexivity.
  - apply Hload.
Qed.

(** ** Input that is not speech *)

(** X4: a delivery whose transcript is missing, empty or only white space
    is never processed as a turn: the caller is asked again, and the
    sessions and the leads stay as they are. *)
Theorem blank_speech_is_never_processed (env : Env) (req : Request) (fd : FormData) (w : World)
        (Hm : method req = "POST"%string)
        (Hb : reqBody req = Some fd)
        (Hs : SpeechResult fd = FUndefined
              \/ exists s, SpeechResult fd = FString s /\ Js.trim s = EmptyString) :
  exists res w',
    VoiceStream.handler env req w = (Returns res, w')
    /\ (res = VoiceStream.xmlResponse VoiceStream.noSpeechTwiml
        \/ res = VoiceStream.xmlResponse VoiceStream.clarificationTwiml)
    /\ untouched w w'.
Proof.
  destruct (handler_delivered env req w) as (res & w' & Heq & Hd).
  exists res, w'. split; [exact Heq|].
  unfold delivered in Hd. rewrite Hb, Hm in Hd. cbn [String.eqb] in Hd.
  replace (("POST" =? "POST")%string) with true in Hd by reflexivity.
  unfold VoiceStream.isLowConfidence, VoiceStream.hasSpeech in Hd.
  destruct Hs as [Hs|(s & Hs & Ht)]; rewrite Hs in Hd; cbn in Hd.
  - destruct (VoiceStream.confidenceOf fd <? 0.3)%float; destruct Hd as [-> Hu]; auto.
  - rewrite Ht in Hd. cbn in Hd.
    destruct (VoiceStream.confidenceOf fd <? 0.3)%float; destruct (Js.truthy s);
      cbn in Hd; destruct Hd as [-> Hu]; auto.
Qed.

Lemma blank_speech_is_never_processed_witness :
  exists res w',
    VoiceStream.handler sampleEnv (sampleTurn 0.9 "   ") initialWorld = (Returns res, w')
    /\ (res = VoiceStream.xmlResponse VoiceStream.noSpeechTwiml
        \/ res = VoiceStream.xmlResponse VoiceStream.clarificationTwiml)
    /\ untouched initialWorld w'.
Proof.
  apply (blank_speech_is_never_processed sampleEnv (sampleTurn 0.9 "   ") (sampleForm 0.9 "   "));
    [reflexivity|reflexivity|].
  right. exists "   "%string. split; reflexivity.
Defined.

(** X5: a [SpeechResult] that is not a string (the form carried the key
    more than once) ends the call with the error markup, whatever the
    confidence, and leaves the sessions and the leads as they are. *)
Theorem repeated_speech_field_hangs_up (env : Env) (req : Request) (fd : FormData)
        (items : list string) (w : World)
        (Hm : method req = "POST"%string)
        (Hb : reqBody req = Some fd)
        (Hs : SpeechResult fd = FArray items) :
  exists w',
    VoiceStream.handler env req w = (Returns VoiceStream.errorResponse, w')
    /\ isHangupMarkup (body VoiceStream.errorResponse) = true
    /\ untouched w w'.
Proof.
  destruct (handler_delivered env req w) as (res & w' & Heq & Hd).
  exists w'.
  unfold delivered in Hd. rewrite Hb, Hm in Hd.
  replace (("POST" =? "POST")%string) with true in Hd by reflexivity.
  unfold VoiceStream.isLowConfidence, VoiceStream.hasSpeech in Hd.
  rewrite Hs in Hd; cbn in Hd.
  destruct (VoiceStream.confidenceOf fd <? 0.3)%float; destruct Hd as [-> Hu]; auto.
Qed.

Lemma repeated_speech_field_hangs_up_witness :
  exists w',
    VoiceStream.handler sampleEnv
      {| method := "POST";
         reqBody := Some {| SpeechResult := FArray ["hello"; "hello"]%string;
                            CallSid := "CA1"; From := "+15550100";
                            Confidence := Some 0.9%float |} |}
      initialWorld
    = (Returns VoiceStream.errorResponse, w')
    /\ isHangupMarkup (body VoiceStream.errorResponse) = true
    /\ untouched initialWorld w'.
Proof.
  eapply repeated_speech_field_hangs_up; reflexivity.
Defined.

(** ** What a delivery leaves alone *)

(** X6: a delivery writes at most the session of its own [CallSid] and the
    lead document of its own [From]: the sessions of the other calls and
    the leads of the other callers are as before. *)
Theorem delivery_touches_one_call_and_one_caller (env : Env) (req : Request) (w : World) :
  (forall k, (forall fd, reqBody req = Some fd -> CallSid fd <> k) ->
             conversationSessions (snd (VoiceStream.handler env req w)) !! k
             = conversationSessions w !! k)
  /\ (forall p, (forall fd, reqBody req = Some fd -> From fd <> p) ->
                leadsContainer (snd (VoiceStream.handler env req w)) !! p
                = leadsContainer w !! p).
Proof.
  destruct (handler_cases env req w)
    as (b & w1 & _ & (Hs1 & Hl1 & _) & [(res & -> & _)|(fd & s & Hb & _ & _ & ->)]).
  { cbn. rewrite Hs1, Hl1. split; reflexivity. }
  destruct (processTurn_effect env fd s w1)
    as (ref & s0 & w0 & ai & sfin & w' & _ & _ & -> & Hs & Hl & _).
  cbn [snd]. rewrite Hs, Hs1. split.
  - intros k Hk. destruct ref; [|reflexivity].
    apply lookup_insert_ne. apply Hk, Hb.
  - intros p Hp. destruct Hl as [-> | ->]; rewrite Hl1; [reflexivity|].
    apply lookup_insert_ne. apply Hp, Hb.
Qed.

(** One delivery keeps a session of the [Map], or extends its transcript
    by one exchange. *)
Lemma handler_session_grows (env : Env) (req : Request) (w : World) (k : string) (s : Session) :
  conversationSessions w !! k = Some s ->
  exists s',
    conversationSessions (snd (VoiceStream.handler env req w)) !! k = Some s'
    /\ callSid s' = callSid s
    /\ phoneNumber s' = phoneNumber s
    /\ (messages s' = messages s
        \/ exists u ai, messages s' = messages s ++ [ {| role := "user"; content := u |};
                                                      {| role := "assistant"; content := ai |} ]).
Proof.
  intros Hk.
  destruct (handler_cases env req w)
    as (b & w1 & _ & (Hs1 & _) & [(res & -> & _)|(fd & u & Hb & _ & _ & ->)]).
  { cbn. rewrite Hs1. eauto 6. }
  destruct (processTurn_session env fd u w1)
    as (ref & s0 & w0 & ai & w' & _ & Hload & -> & Hs).
  cbn [snd]. rewrite Hs, Hs1. destruct ref as [key|]; [|eauto 6].
  destruct (decide (CallSid fd = k)) as [<-|Hne].
  - rewrite lookup_insert_eq. eexists. split; [reflexivity|].
    assert (s0 = s) as ->.
    { cbn in Hload. rewrite Hs1 in Hload.
      destruct Hload as (_ & [[H0 _]|[H0 _]]); congruence. }
    split; [reflexivity|]. split; [reflexivity|]. right. exists u, ai.
    cbn. rewrite <- app_assoc. reflexivity.
  - rewrite lookup_insert_ne by exact Hne. eauto 6.
Qed.

(** X7: a session of the [Map] is never dropped or rewritten by later
    deliveries: it stays under its key, for the same call and caller, and
    its transcript only grows, by whole exchanges (the utterance, then
    the reply). *)
Theorem session_history_is_append_only (steps : list (Env * Request)) (w : World)
        (k : string) (s : Session)
        (H : conversationSessions w !! k = Some s) :
  exists s' extra,
    conversationSessions (deliver steps w) !! k = Some s'
    /\ callSid s' = callSid s
    /\ phoneNumber s' = phoneNumber s
    /\ messages s' = messages s ++ extra
    /\ isExchanges extra = true.
Proof.
  revert w s H. induction steps as [|[env req] rest IH]; intros w s H.
  { exists s, []. cbn. rewrite app_nil_r. auto. }
  destruct (handler_session_grows env req w k s H) as (s1 & H1 & Hc & Hp & Hm).
  destruct (IH _ _ H1) as (s' & extra & H' & Hc' & Hp' & Hm' & He).
  cbn [deliver]. destruct Hm as [Hm|(u & ai & Hm)].
  - exists s', extra. rewrite H', Hc', Hp', Hm', Hm. auto.
  - eexists s', (_ :: _ :: extra). rewrite H', Hc', Hp', Hm', Hm, <- app_assoc.
    split; [reflexivity|]. split; [exact Hc|]. split; [exact Hp|].
    split; [reflexivity|]. cbn. exact He.
Qed.

Lemma session_history_is_append_only_witness :
  exists s' extra,
    conversationSessions
      (deliver [ (sampleEnv, sampleTurn 0.9 "my furnace is broken");
                 (sampleEnv, sampleTurn 0.9 "   ") ] offlineEmergencyWorld) !! "CA1"%string = Some s'
    /\ callSid s' = callSid emergencySession
    /\ phoneNumber s' = phoneNumber emergencySession
    /\ messages s' = messages emergencySession ++ extra
    /\ isExchanges extra = true.
Proof.
  apply session_history_is_append_only. reflexivity.
Defined.

(** ** The database connection *)

(** X8: [initializeCosmosDB] never raises, and its result is the
    connection flag it leaves.  It tries to connect only when not yet
    connected and given a connection string with [AccountEndpoint=] and
    [AccountKey=]; it answers [true] exactly when already connected or
    when that attempt completed. *)
Theorem connection_attempt_conditions (env : Env) (w : World) :
  exists b w',
    VoiceStream.initializeCosmosDB env w = (Returns b, w')
    /\ isDbConnected w' = b
    /\ conversationSessions w' = conversationSessions w
    /\ leadsContainer w' = leadsContainer w
    /\ outbound w'
       = outbound w ++ (if negb (isDbConnected w) && hasSqlApiFormat env then [EvConnect] else [])
    /\ (b = true <->
        isDbConnected w = true
        \/ (hasSqlApiFormat env = true /\ connectOutcome env = Returns tt)).
Proof.
  unfold VoiceStream.initializeCosmosDB, hasSqlApiFormat, bind, get, tryCatch.
  destruct (isDbConnected w) eqn:Hc.
  { exists true, w. cbn. rewrite app_nil_r. intuition. }
  destruct (Js.truthyOpt (COSMOS_CONN env)); cbn [negb andb].
  2:{ exists false, w. cbn. rewrite app_nil_r, Hc. intuition discriminate. }
  destruct (Js.includes _ "AccountEndpoint="); cbn [negb andb orb].
  2:{ exists false, w. cbn. rewrite app_nil_r, Hc. intuition discriminate. }
  destruct (Js.includes _ "AccountKey="); cbn [negb andb orb].
  2:{ exists false, w. cbn. rewrite app_nil_r, Hc. intuition discriminate. }
  unfold request, setDbConnected, modify, ret.
  destruct (connectOutcome env) as [[]|m]; cbn; eexists _, _; (split; [reflexivity|]); cbn;
    intuition (auto; discriminate).
Qed.

(** ** The reply of the language model *)

(** X9: [getAIResponse] never raises and writes no store.  Without a
    client it sends nothing and gives the first apology; with a client it
    sends one completion request with the messages it was given, and
    gives the content of the completion, or one of the three apologies
    when the request failed. *)
Theorem reply_or_apology (env : Env) (ms : list Message) (w : World) :
  exists a w',
    VoiceStream.getAIResponse env ms w = (Returns a, w')
    /\ sameStores w w'
    /\ (openaiReady env = false ->
        outbound w' = outbound w /\ nth_error apologies 0 = Some a)
    /\ (openaiReady env = true ->
        outbound w' = outbound w ++ [EvChatCompletion ms]
        /\ (forall r, completionOutcome env = Returns r -> a = r)
        /\ (forall m, completionOutcome env = Throws m -> In a apologies)).
Proof.
  unfold VoiceStream.getAIResponse, tryCatch, request, throw, sameStores.
  destruct (openaiReady env).
  2:{ cbn. eexists _, _. split; [reflexivity|]. intuition discriminate. }
  destruct (completionOutcome env) as [a|m].
  { eexists _, _. split; [reflexivity|]. cbn. intuition (try discriminate; congruence). }
  cbn. destruct (Js.includes m "not initialized").
  { eexists _, _. split; [reflexivity|]. cbn. intuition (try discriminate; auto). }
  destruct (Js.includes m "deployment");
    eexists _, _; (split; [reflexivity|]); cbn; intuition (try discriminate; auto).
Qed.

(** ** Without a database *)

Lemma processTurn_offline (env : Env) (fd : FormData) (speech : string) (w : World) :
  isDbConnected w = false ->
  exists res w',
    VoiceStream.processTurn env fd speech w = (Returns res, w')
    /\ isDbConnected w' = false
    /\ leadsContainer w' = leadsContainer w
    /\ (outbound w' = outbound w
        \/ exists ms, outbound w' = outbound w ++ [EvChatCompletion ms]).
Proof.
  intros Hc.
  unfold VoiceStream.processTurn, VoiceStream.getOrCreateSession, VoiceStream.sessionFromMemory,
    VoiceStream.saveMessage, VoiceStream.updateLead, VoiceStream.getAIResponse,
    VoiceStream.writeSession, setSession, modify, tryCatch, request, throw, bind, get, ret.
  rewrite Hc.
  destruct (conversationSessions w !! CallSid fd) as [s|]; cbn; rewrite Hc; cbn;
    (destruct (openaiReady env); cbn; rewrite ?Hc; cbn;
     [destruct (completionOutcome env) as [a|m]; cbn; rewrite ?Hc; cbn;
      [|destruct (Js.includes m "not initialized"); cbn; rewrite ?Hc; cbn;
        [|destruct (Js.includes m "deployment"); cbn; rewrite ?Hc; cbn]]|]);
    eexists _, _; (split; [reflexivity|]); cbn; eauto.
Qed.

Lemma handler_offline (env : Env) (req : Request) (w : World) :
  COSMOS_CONN env = None -> isDbConnected w = false ->
  isDbConnected (snd (VoiceStream.handler env req w)) = false
  /\ leadsContainer (snd (VoiceStream.handler env req w)) = leadsContainer w
  /\ (outbound (snd (VoiceStream.handler env req w)) = outbound w
      \/ exists ms, outbound (snd (VoiceStream.handler env req w))
                    = outbound w ++ [EvChatCompletion ms]).
Proof.
  intros Hn Hc.
  assert (Hi : VoiceStream.initializeCosmosDB env w = (Returns false, w)).
  { unfold VoiceStream.initializeCosmosDB, bind, get, tryCatch. rewrite Hc, Hn. reflexivity. }
  destruct (handler_cases env req w)
    as (b & w1 & Hi' & _ & [(res & -> & _)|(fd & s & _ & _ & _ & ->)]);
    rewrite Hi in Hi'; injection Hi' as <- <-.
  { cbn. auto. }
  destruct (processTurn_offline env fd s w Hc) as (res & w' & -> & H). exact H.
Qed.

(** X10: a process without a connection string never connects, never
    writes a lead document, and sends nothing but chat completion
    requests, whatever is delivered to it. *)
Theorem nothing_persisted_without_database (steps : list (Env * Request)) (w : World)
        (H : withoutDatabase steps)
        (Hc : isDbConnected w = false) :
  isDbConnected (deliver steps w) = false
  /\ leadsContainer (deliver steps w) = leadsContainer w
  /\ exists events,
      outbound (deliver steps w) = outbound w ++ events
      /\ forallb isChatCompletion events = true.
Proof.
  revert w Hc. induction H as [|[env req] rest Hn _ IH]; intros w Hc.
  { cbn. split; [exact Hc|]. split; [reflexivity|]. exists []. rewrite app_nil_r. auto. }
  cbn [deliver]. cbn in Hn.
  destruct (handler_offline env req w Hn Hc) as (Hc1 & Hl1 & Ho1).
  destruct (IH _ Hc1) as (Hc2 & Hl2 & events & Ho2 & He).
  split; [exact Hc2|]. split; [congruence|].
  destruct Ho1 as [Ho1|[ms Ho1]]; rewrite Ho2, Ho1.
  - exists events. auto.
  - exists (EvChatCompletion ms :: events). rewrite <- app_assoc. auto.
Qed.

Lemma nothing_persisted_without_database_witness :
  isDbConnected
    (deliver [ (sampleEnv, sampleTurn 0.9 "my furnace is broken");
               (sampleEnv, sampleTurn 0.9 "this is an emergency") ] initialWorld) = false
  /\ leadsContainer
       (deliver [ (sampleEnv, sampleTurn 0.9 "my furnace is broken");
                  (sampleEnv, sampleTurn 0.9 "this is an emergency") ] initialWorld)
     = leadsContainer initialWorld
  /\ exists events,
      outbound
        (deliver [ (sampleEnv, sampleTurn 0.9 "my furnace is broken");
                   (sampleEnv, sampleTurn 0.9 "this is an emergency") ] initialWorld)
      = outbound initialWorld ++ events
      /\ forallb isChatCompletion events = true.
Proof.
  apply nothing_persisted_without_database; [|reflexivity].
  repeat constructor.
Defined.

(** ** The lead document *)

(** X11: a lead written by [updateLead] is the lead the next turn of that
    caller starts from: with the database connected and answering, the
    session built for any later call of the same number carries the
    [leadInfo] that was saved. *)
Theorem saved_lead_is_reloaded (env env' : Env) (p k k' : string) (l : LeadInfo) (w : World)
        (Hc : isDbConnected w = true)
        (Hu : upsertOutcome env = Returns tt)
        (Hr : readsAnswered env') :
  exists w1 s w2,
    VoiceStream.updateLead env p l k w = (Returns true, w1)
    /\ leadsContainer w1 !! p = Some (leadDocOf p l k (now env))
    /\ VoiceStream.getOrCreateSession env' k' p w1 = (Returns (VoiceStream.Fresh, s), w2)
    /\ leadInfo s = l.
Proof.
  assert (E : exists w1, VoiceStream.updateLead env p l k w = (Returns true, w1)
                         /\ isDbConnected w1 = true
                         /\ leadsContainer w1 = <[p := leadDocOf p l k (now env)]> (leadsContainer w)).
  { unfold VoiceStream.updateLead, bind, get, tryCatch, request, upsertLeadDoc, modify.
    rewrite Hc, Hu. cbn. eexists. split; [reflexivity|]. split; [exact Hc|reflexivity]. }
  destruct E as (w1 & E & Hc1 & Hl1).
  destruct (getOrCreateSession_connected env' k' p w1 Hc1 Hr) as (s & w2 & Hg & Hs).
  exists w1, s, w2. split; [exact E|].
  split; [rewrite Hl1; apply lookup_insert_eq|]. split; [exact Hg|].
  rewrite Hs. unfold storedLeadInfo. rewrite Hl1, lookup_insert_eq. reflexivity.
Qed.

Lemma saved_lead_is_reloaded_witness :
  exists w1 s w2,
    VoiceStream.updateLead databaseEnv "+15550100" (leadInfo emergencySession) "CA1" connectedWorld
    = (Returns true, w1)
    /\ leadsContainer w1 !! "+15550100"%string
       = Some (leadDocOf "+15550100" (leadInfo emergencySession) "CA1" (now databaseEnv))
    /\ VoiceStream.getOrCreateSession databaseEnv "CA2" "+15550100" w1
       = (Returns (VoiceStream.Fresh, s), w2)
    /\ leadInfo s = leadInfo emergencySession.
Proof.
  apply saved_lead_is_reloaded; [reflexivity|reflexivity|].
  split; [eexists; reflexivity|]. split; [eexists; reflexivity|reflexivity].
Defined.

(** ** What the language model is asked *)

(** X12: in a process without a database, a turn asks the language
    model once, with the whole history of the call: the messages of the
    session of the [Map] (the system prompt alone for a new call),
    followed by the utterance of the caller. *)
Theorem completion_is_asked_with_the_history (env : Env) (req : Request) (fd : FormData)
        (s : string) (w : World)
        (Hn : COSMOS_CONN env = None)
        (Hc : isDbConnected w = false)
        (Hai : openaiReady env = true)
        (Hm : method req = "POST"%string)
        (Hb : reqBody req = Some fd)
        (Hs : SpeechResult fd = FString s)
        (Ht : (3 <= String.length (Js.trim s))%nat) :
  outbound (snd (VoiceStream.handler env req w))
  = outbound w
    ++ [EvChatCompletion
          (match conversationSessions w !! CallSid fd with
           | Some session => messages session
           | None => [ {| role := "system"; content := VoiceStream.systemPrompt |} ]
           end ++ [ {| role := "user"; content := s |} ])].
Proof.
  assert (Hne : Js.trim s <> EmptyString) by (intros E; rewrite E in Ht; cbn in Ht; lia).
  assert (Hlow : VoiceStream.isLowConfidence (VoiceStream.confidenceOf fd) (SpeechResult fd)
                 = Returns false).
  { unfold VoiceStream.isLowConfidence, trimLength, truthyValue. rewrite Hs.
    destruct (VoiceStream.confidenceOf fd <? 0.3)%float; [|reflexivity].
    rewrite (trim_nonempty_truthy s Hne).
    replace (String.length (Js.trim s) <? 3)%nat with false; [reflexivity|].
    symmetry. apply Nat.ltb_ge. lia. }
  assert (Hsp : VoiceStream.hasSpeech (SpeechResult fd) = Returns true).
  { unfold VoiceStream.hasSpeech, trimLength, truthyValue. rewrite Hs.
    rewrite (trim_nonempty_truthy s Hne), (length_pos_nonempty _ Hne). reflexivity. }
  assert (Hi : VoiceStream.initializeCosmosDB env w = (Returns false, w)).
  { unfold VoiceStream.initializeCosmosDB, bind, get, tryCatch. rewrite Hc, Hn. reflexivity. }
  unfold VoiceStream.handler. unfold bind at 1. rewrite Hi.
  unfold tryCatch, VoiceStream.turn. rewrite Hb, Hm.
  change (String.eqb "POST" "POST") with true. cbv iota.
  unfold bind at 1, liftOutcome at 1. rewrite Hlow.
  unfold bind at 1, liftOutcome at 1. rewrite Hsp. rewrite Hs.
  unfold VoiceStream.processTurn, VoiceStream.getOrCreateSession, VoiceStream.sessionFromMemory,
    VoiceStream.saveMessage, VoiceStream.updateLead, VoiceStream.getAIResponse,
    VoiceStream.writeSession, setSession, modify, tryCatch, request, throw, bind, get, ret.
  rewrite Hc, Hai.
  destruct (conversationSessions w !! CallSid fd) as [session|]; cbn; rewrite Hc; cbn;
    (destruct (completionOutcome env) as [a|m]; cbn; rewrite ?Hc; cbn;
     [|destruct (Js.includes m "not initialized"); cbn; rewrite ?Hc; cbn;
       [|destruct (Js.includes m "deployment"); cbn; rewrite ?Hc; cbn]]);
    reflexivity.
Qed.

Lemma completion_is_asked_with_the_history_witness :
  outbound (snd (VoiceStream.handler sampleEnv (sampleTurn 0.9 "my furnace is broken") initialWorld))
  = outbound initialWorld
    ++ [EvChatCompletion
          (match conversationSessions initialWorld !! CallSid (sampleForm 0.9 "my furnace is broken") with
           | Some session => messages session
           | None => [ {| role := "system"; content := VoiceStream.systemPrompt |} ]
           end ++ [ {| role := "user"; content := "my furnace is broken" |} ])].
Proof.
  apply completion_is_asked_with_the_history; try reflexivity.
  vm_compute. lia.
Defined.

(** * The voice manager *)

(** ** Escaping *)

Lemma replaceAll_app (c : ascii) (by_ a b : string) :
  VoiceManager.replaceAll c by_ (a ++ b)%string
  = (VoiceManager.replaceAll c by_ a ++ VoiceManager.replaceAll c by_ b)%string.
Proof.
  induction a as [|x a IH]; [reflexivity|].
  cbn. rewrite IH. destruct (Ascii.eqb x c); [|reflexivity].
  rewrite string_app_assoc. reflexivity.
Qed.

Lemma escapeXML_app (a b : string) :
  VoiceManager.escapeXML (a ++ b)%string
  = (VoiceManager.escapeXML a ++ VoiceManager.escapeXML b)%string.
Proof. unfold VoiceManager.escapeXML. rewrite !replaceAll_app. reflexivity. Qed.

Lemma allUnits_app (f : ascii -> bool) (a b : string) :
  allUnits f (a ++ b)%string = allUnits f a && allUnits f b.
Proof.
  induction a as [|x a IH]; [reflexivity|]. cbn. rewrite IH. apply andb_assoc.
Qed.

Lemma escapeXML_unit_clean (c : ascii) :
  allUnits (fun x => negb (isMarkupUnit x)) (VoiceManager.escapeXML (String c EmptyString)) = true.
Proof. destruct c as [[] [] [] [] [] [] [] []]; vm_compute; reflexivity. Qed.

Lemma escapeXML_unit_id (c : ascii) :
  isSpecialUnit c = false -> VoiceManager.escapeXML (String c EmptyString) = String c EmptyString.
Proof. destruct c as [[] [] [] [] [] [] [] []]; vm_compute; intros H; try reflexivity; discriminate H. Qed.

(** X13: [escapeXML] leaves no [<], [>] or quote in its result, whatever
    the text; it works character by character (the escape of a
    concatenation is the concatenation of the escapes), and it changes
    nothing in a text without [&], [<], [>] and quotes. *)
Theorem escapeXML_removes_markup (text more : string) :
  allUnits (fun x => negb (isMarkupUnit x)) (VoiceManager.escapeXML text) = true
  /\ VoiceManager.escapeXML (text ++ more)%string
     = (VoiceManager.escapeXML text ++ VoiceManager.escapeXML more)%string
  /\ (allUnits (fun x => negb (isSpecialUnit x)) text = true ->
      VoiceManager.escapeXML text = text).
Proof.
  split; [|split; [apply escapeXML_app|]].
  - induction text as [|c text IH]; [reflexivity|].
    change (String c text) with (String c EmptyString ++ text)%string.
    rewrite escapeXML_app, allUnits_app, IH, escapeXML_unit_clean. reflexivity.
  - induction text as [|c text IH]; [reflexivity|].
    cbn [allUnits]. intros H. apply andb_true_iff in H. destruct H as [Hc Ht].
    change (String c text) with (String c EmptyString ++ text)%string.
    rewrite escapeXML_app, (IH Ht), escapeXML_unit_id; [reflexivity|].
    apply negb_true_iff, Hc.
Qed.

(** ** The text sent to the synthesiser *)

Lemma cleanTextForSSML_app (a b : string) :
  Speech.cleanTextForSSML (a ++ b)%string
  = (Speech.cleanTextForSSML a ++ Speech.cleanTextForSSML b)%string.
Proof. unfold Speech.cleanTextForSSML. rewrite !replaceAll_app. reflexivity. Qed.

Lemma cleanTextForSSML_unit (c : ascii) :
  Speech.cleanTextForSSML (String c EmptyString) = spokenUnit c.
Proof. destruct c as [[] [] [] [] [] [] [] []]; vm_compute; reflexivity. Qed.

(** X14: the ten replacements of [cleanTextForSSML], done one after the
    other over the whole text, come to one pass over its characters: the
    five escaped characters become their entity, and a pause is put after
    each punctuation mark and, because the last replacement also finds
    the semicolon that ends an entity, after each escaped character (so
    after the apostrophe of a contraction). *)
Theorem cleanTextForSSML_is_one_pass (text : string) :
  Speech.cleanTextForSSML text = spoken text.
Proof.
  induction text as [|c text IH]; [reflexivity|].
  change (String c text) with (String c EmptyString ++ text)%string.
  rewrite cleanTextForSSML_app, IH, cleanTextForSSML_unit. reflexivity.
Qed.

(** * Conversation context *)

Lemma skipn_app_exact {A} (older recent : list A) :
  skipn (length older) (older ++ recent) = recent.
Proof. induction older as [|x older IH]; [reflexivity|exact IH]. Qed.

Lemma sliceLast_app {A} (n : nat) (older recent : list A) :
  (n <= length recent)%nat ->
  VoiceManagerContext.sliceLast n (older ++ recent) = VoiceManagerContext.sliceLast n recent.
Proof.
  intros H. unfold VoiceManagerContext.sliceLast. rewrite length_app.
  replace (length older + length recent - n)%nat
    with (length older + (length recent - n))%nat by lia.
  rewrite skipn_app.
  replace (length older + (length recent - n) - length older)%nat
    with (length recent - n)%nat by lia.
  rewrite (skipn_all2 older) by lia. reflexivity.
Qed.

(** X15: the context of a conversation depends on its last six messages
    alone: what was said before them changes neither the emergency flag
    nor the urgency nor the emotion. *)
Theorem context_window_is_six_messages
        (older recent : list Message) (leadInfo : option VoiceManagerContext.ConversationLead)
        (H : (6 <= length recent)%nat) :
  VoiceManagerContext.analyzeConversationContext
    (Some {| VoiceManagerContext.conv_messages := Some (older ++ recent);
             VoiceManagerContext.conv_leadInfo := leadInfo |})
  = VoiceManagerContext.analyzeConversationContext
      (Some {| VoiceManagerContext.conv_messages := Some recent;
               VoiceManagerContext.conv_leadInfo := leadInfo |}).
Proof.
  unfold VoiceManagerContext.analyzeConversationContext, VoiceManagerContext.allText.
  rewrite sliceLast_app by exact H. reflexivity.
Qed.

Lemma context_window_is_six_messages_witness :
  VoiceManagerContext.analyzeConversationContext
    (Some {| VoiceManagerContext.conv_messages :=
               Some ([ {| role := "user"; content := "this is an emergency" |} ]
                     ++ [ {| role := "assistant"; content := "Someone is on the way." |};
                          {| role := "user"; content := "thank you" |};
                          {| role := "assistant"; content := "You are welcome." |};
                          {| role := "user"; content := "what are your hours" |};
                          {| role := "assistant"; content := "We open at eight." |};
                          {| role := "user"; content := "great" |} ]);
             VoiceManagerContext.conv_leadInfo := None |})
  = VoiceManagerContext.analyzeConversationContext
      (Some {| VoiceManagerContext.conv_messages :=
                 Some [ {| role := "assistant"; content := "Someone is on the way." |};
                        {| role := "user"; content := "thank you" |};
                        {| role := "assistant"; content := "You are welcome." |};
                        {| role := "user"; content := "what are your hours" |};
                        {| role := "assistant"; content := "We open at eight." |};
                        {| role := "user"; content := "great" |} ];
               VoiceManagerContext.conv_leadInfo := None |}).
Proof.
  apply context_window_is_six_messages. cbn. lia.
Defined.

(** X16: the urgency of a conversation is ["emergency"], ["urgent"] or
    ["normal"]; it is ["emergency"] exactly when the emergency flag is
    set, which the word "urgent" alone brings about; so the level
    ["urgent"] is only reached by "asap" or "soon" in a text without
    "urgent". *)
Theorem urgent_word_means_emergency (conversation : option VoiceManagerContext.Conversation) :
  In (VoiceManagerContext.ctx_urgencyLevel
        (VoiceManagerContext.analyzeConversationContext conversation))
     ["emergency"; "urgent"; "normal"]%string
  /\ (VoiceManagerContext.ctx_urgencyLevel
        (VoiceManagerContext.analyzeConversationContext conversation) = "emergency"%string
      <-> VoiceManagerContext.ctx_isEmergency
            (VoiceManagerContext.analyzeConversationContext conversation) = Some true)
  /\ (forall messages,
        conversation ≫= VoiceManagerContext.conv_messages = Some messages ->
        (Js.includes (VoiceManagerContext.allText messages) "urgent" = true ->
         VoiceManagerContext.ctx_urgencyLevel
           (VoiceManagerContext.analyzeConversationContext conversation) = "emergency"%string)
        /\ (VoiceManagerContext.ctx_urgencyLevel
              (VoiceManagerContext.analyzeConversationContext conversation) = "urgent"%string ->
            Js.includes (VoiceManagerContext.allText messages) "urgent" = false
            /\ (Js.includes (VoiceManagerContext.allText messages) "asap" = true
                \/ Js.includes (VoiceManagerContext.allText messages) "soon" = true))).
Proof.
  destruct conversation as [[[messages|] leadInfo]|];
    try (cbn; split; [auto|split; [split; discriminate|intros ? [=]]]).
  unfold VoiceManagerContext.analyzeConversationContext.
  set (text := VoiceManagerContext.allText messages).
  assert (Hu : Js.includes text "urgent" = true ->
               someIncluded text VoiceManagerContext.emergencyKeywords = true).
  { intros Hu. unfold someIncluded. apply existsb_exists. exists "urgent"%string.
    split; [cbn; auto|exact Hu]. }
  cbn [VoiceManagerContext.ctx_urgencyLevel VoiceManagerContext.ctx_isEmergency].
  destruct (someIncluded text VoiceManagerContext.emergencyKeywords) eqn:E.
  - split; [cbn; auto|]. split; [tauto|]. intros ms [= <-]. fold text.
    split; [reflexivity|discriminate].
  - destruct (Js.includes text "urgent") eqn:E1; [discriminate (Hu eq_refl)|].
    cbn [orb].
    destruct (Js.includes text "asap") eqn:E2; cbn [orb];
      [|destruct (Js.includes text "soon") eqn:E3];
      (split; [cbn; auto|]); (split; [split; discriminate|]);
      intros ms [= <-]; fold text; rewrite E1, ?E2, ?E3;
      (split; [discriminate|]); intros Hx; try discriminate Hx; auto.
Qed.

(** X17: the follow-up of a conversation asks for the address whenever
    the lead is an emergency, whatever else is known; the closing
    question is kept for a lead that is not an emergency and has either
    nothing (no service type and no name) or everything (service type,
    name and phone number). *)
Theorem closing_question_conditions (lead : VoiceManagerContext.ConversationLead)
        (messages : option (list Message)) :
  (VoiceManagerContext.cl_hasEmergency lead = true ->
   VoiceManagerContext.generateContextualFollowUp
     (Some {| VoiceManagerContext.conv_messages := messages;
              VoiceManagerContext.conv_leadInfo := Some lead |})
   = "Can I get your address so we can send someone out right away?"%string)
  /\ (VoiceManagerContext.generateContextualFollowUp
        (Some {| VoiceManagerContext.conv_messages := messages;
                 VoiceManagerContext.conv_leadInfo := Some lead |})
      = "Is there anything else I can help you with today?"%string
      <-> VoiceManagerContext.cl_hasEmergency lead = false
          /\ let name :=
               Js.truthyOpt (VoiceManagerContext.cl_contactInfo lead ≫= VoiceManagerContext.cd_name) in
             let phone :=
               Js.truthyOpt (VoiceManagerContext.cl_contactInfo lead ≫= VoiceManagerContext.cd_phone) in
             let service := Js.truthyOpt (VoiceManagerContext.cl_serviceType lead) in
             (service = false /\ name = false)
             \/ (service = true /\ name = true /\ phone = true)).
Proof.
  unfold VoiceManagerContext.generateContextualFollowUp. cbn [mbind option_bind VoiceManagerContext.conv_leadInfo].
  split; [intros ->; reflexivity|]. cbv zeta.
  destruct (VoiceManagerContext.cl_hasEmergency lead);
    destruct (Js.truthyOpt (VoiceManagerContext.cl_serviceType lead));
    destruct (Js.truthyOpt (VoiceManagerContext.cl_contactInfo lead ≫= VoiceManagerContext.cd_name));
    destruct (Js.truthyOpt (VoiceManagerContext.cl_contactInfo lead ≫= VoiceManagerContext.cd_phone));
    cbn; split; intros H; try discriminate H; try tauto;
    try (destruct H as [H _]; discriminate H);
    try (destruct H as [_ [[H1 H2]|(H1 & H2 & H3)]]; discriminate).
Qed.

(** * Greetings and opening hours of a tenant *)

(** ** The greeting *)

(** X18: a business that is found in the directory but has no readable
    AI configuration (no document, or the read failed) is greeted with
    the greeting of the default configuration, which names Blue Caller
    HVAC, and not with the greeting of its industry and its own company
    name. *)
Theorem unconfigured_business_is_greeted_as_default
        (env : Firebase.Env) (phoneNumber id : string) (data : Firebase.BusinessData)
        (Hq : Firebase.queryByNumber env phoneNumber = Returns (Some (id, data)))
        (Ha : Firebase.aiConfigDoc env id = Returns None
              \/ exists m, Firebase.aiConfigDoc env id = Throws m) :
  exists c,
    Business.getBusinessContext env true None phoneNumber tt = (Returns c, tt)
    /\ Business.found c = true
    /\ Business.businessId c = id
    /\ Business.companyName c
       = Business.orString (Firebase.profile data ≫= Firebase.companyName) "Your Business"
    /\ BusinessLogic.generateGreeting c = defaultGreeting.
Proof.
  assert (Hai : Firebase.getBusinessAIConfig env true id tt
                = (Returns Firebase.getDefaultAIConfig, tt)).
  { unfold Firebase.getBusinessAIConfig, tryCatch, bind, liftOutcome, ret. cbn [negb orb].
    destruct (String.eqb id "default"); [reflexivity|].
    destruct Ha as [-> | [m ->]]; reflexivity. }
  assert (Hb : Firebase.findBusinessByPhone env true phoneNumber tt
               = (Returns {| Firebase.businessId := id; Firebase.data := data;
                             Firebase.found := true; Firebase.isDefault := false;
                             Firebase.isSharedNumber := false |}, tt)).
  { unfold Firebase.findBusinessByPhone, tryCatch, bind, liftOutcome, ret. cbn [negb].
    rewrite Hq. reflexivity. }
  unfold Business.getBusinessContext, tryCatch.
  unfold bind at 1. cbn [ret]. unfold bind at 1. rewrite Hb.
  unfold bind at 1. cbn [Firebase.businessId]. rewrite Hai.
  eexists. split; [reflexivity|]. cbn. repeat split; reflexivity.
Qed.

Lemma unconfigured_business_is_greeted_as_default_witness :
  exists c,
    Business.getBusinessContext plumberDirectory true None "+12792405162" tt = (Returns c, tt)
    /\ Business.found c = true
    /\ Business.businessId c = "biz-17"%string
    /\ Business.companyName c = "Harbor Plumbing"%string
    /\ BusinessLogic.generateGreeting c = defaultGreeting.
Proof.
  apply (unconfigured_business_is_greeted_as_default plumberDirectory "+12792405162" "biz-17"
           {| Firebase.profile :=
                Some {| Firebase.companyName := Some "Harbor Plumbing"%string;
                        Firebase.industry := Some "plumbing"%string;
                        Firebase.businessType := None |};
              Firebase.services := None;
              Firebase.schedule := None |}).
  - reflexivity.
  - left. reflexivity.
Defined.

Lemma getSubstitution_plain (matched before after replacement : string) :
  Js.includes replacement "$" = false ->
  BusinessLogic.getSubstitution matched before after replacement = replacement.
Proof.
  induction replacement as [|x tail IH]; [reflexivity|].
  cbn [Js.includes Js.startsWith BusinessLogic.getSubstitution].
  rewrite (Ascii.eqb_sym x). destruct (Ascii.eqb "$" x).
  - destruct tail; discriminate.
  - cbn [orb]. intros H. rewrite (IH H). reflexivity.
Qed.

(** X19: when the tenant has set no greeting of its own, the greeting is
    the greeting of its industry with the company name in the place of
    the placeholder, for every company name without a dollar sign (which
    [replace] reads as a substitution pattern). *)
Theorem template_greeting_names_the_company (c : Business.BusinessContext)
        (Hblank : Js.trim (Firebase.greetingMessage (Business.aiConfig c)) = EmptyString)
        (Ht : In (Business.industryTemplate c) (map snd Business.industryTemplates))
        (Hd : Js.includes (Business.companyName c) "$" = false) :
  exists before after,
    Business.greetingTemplate (Business.industryTemplate c)
    = (before ++ "{companyName}" ++ after)%string
    /\ BusinessLogic.generateGreeting c = (before ++ Business.companyName c ++ after)%string.
Proof.
  unfold BusinessLogic.generateGreeting, BusinessLogic.replace.
  rewrite Hblank. cbn [String.eqb negb]. rewrite andb_false_r.
  cbn in Ht.
  destruct Ht as [<- | [<- | [<- | [<- | [<- | [<- | []]]]]]];
    match goal with
    | |- context [BusinessLogic.splitAtFirst ?p ?t] =>
        let r := eval vm_compute in (BusinessLogic.splitAtFirst p t) in
        change (BusinessLogic.splitAtFirst p t) with r
    end;
    cbv beta iota; rewrite (getSubstitution_plain _ _ _ _ Hd);
    eexists _, _; (split; [|reflexivity]); vm_compute; reflexivity.
Qed.

Lemma template_greeting_names_the_company_witness :
  exists before after,
    Business.greetingTemplate Business.plumbing = (before ++ "{companyName}" ++ after)%string
    /\ BusinessLogic.generateGreeting
         {| Business.businessId := "biz-17";
            Business.companyName := "Harbor Plumbing";
            Business.industry := "plumbing";
            Business.contextServices := Business.services Business.plumbing;
            Business.schedule := None;
            Business.aiConfig :=
              {| Firebase.voiceStyle := "friendly"; Firebase.gender := "female";
                 Firebase.responseTone := "professional"; Firebase.greetingMessage := "  ";
                 Firebase.businessSlogan := ""; Firebase.bufferTime := 15;
                 Firebase.serviceRadius := 25;
                 Firebase.humanForwarding := Firebase.humanForwarding Firebase.getDefaultAIConfig |};
            Business.industryTemplate := Business.plumbing;
            Business.contextEmergencyKeywords := Business.emergencyKeywords Business.plumbing;
            Business.isDefault := false;
            Business.found := true |}
       = (before ++ "Harbor Plumbing" ++ after)%string.
Proof.
  apply (template_greeting_names_the_company
           {| Business.businessId := "biz-17";
              Business.companyName := "Harbor Plumbing";
              Business.industry := "plumbing";
              Business.contextServices := Business.services Business.plumbing;
              Business.schedule := None;
              Business.aiConfig :=
                {| Firebase.voiceStyle := "friendly"; Firebase.gender := "female";
                   Firebase.responseTone := "professional"; Firebase.greetingMessage := "  ";
                   Firebase.businessSlogan := ""; Firebase.bufferTime := 15;
                   Firebase.serviceRadius := 25;
                   Firebase.humanForwarding := Firebase.humanForwarding Firebase.getDefaultAIConfig |};
              Business.industryTemplate := Business.plumbing;
              Business.contextEmergencyKeywords := Business.emergencyKeywords Business.plumbing;
              Business.isDefault := false;
              Business.found := true |}).
  - reflexivity.
  - cbn. auto.
  - reflexivity.
Defined.

(** ** Opening hours *)

Lemma parseInt_timeOfDay (hour : Z) (minutes : string) :
  0 <= hour < 100 ->
  BusinessLogic.parseInt (BusinessLogic.beforeColon (timeOfDay hour minutes)) = Some hour.
Proof.
  intros H. rewrite <- (Z2Nat.id hour) by lia.
  assert (Hn : (Z.to_nat hour < 100)%nat) by lia.
  generalize dependent (Z.to_nat hour). clear. intros n Hn.
  do 100 (destruct n as [|n]; [vm_compute; reflexivity|]). lia.
Qed.

(** X20: opening hours are read by the hour: whatever the minutes of the
    opening and closing times, the business is open from the opening hour
    on and closed from the closing hour on, with the hours of the weekend
    on Saturday and Sunday and those of the week on the other days. *)
Theorem opening_hours_ignore_minutes
        (weekOpen weekClose endOpen endClose hour day : Z) (m1 m2 m3 m4 : string)
        (H1 : 0 <= weekOpen < 100) (H2 : 0 <= weekClose < 100)
        (H3 : 0 <= endOpen < 100) (H4 : 0 <= endClose < 100) :
  BusinessLogic.isOpen
    (BusinessLogic.analyzeBusinessHours hour day
       (Some {| BusinessLogic.weekday :=
                  Some {| Firebase.open := timeOfDay weekOpen m1;
                          Firebase.close := timeOfDay weekClose m2 |};
                BusinessLogic.weekend :=
                  Some {| Firebase.open := timeOfDay endOpen m3;
                          Firebase.close := timeOfDay endClose m4 |} |}))
  = if isWeekendDay day
    then (endOpen <=? hour)%Z && (hour <? endClose)%Z
    else (weekOpen <=? hour)%Z && (hour <? weekClose)%Z.
Proof.
  unfold BusinessLogic.analyzeBusinessHours. fold (isWeekendDay day).
  destruct (isWeekendDay day); cbn [Firebase.open Firebase.close];
    rewrite !parseInt_timeOfDay by assumption;
    match goal with |- context [negb ?b] => destruct b end; reflexivity.
Qed.

Lemma opening_hours_ignore_minutes_witness :
  BusinessLogic.isOpen
    (BusinessLogic.analyzeBusinessHours 17 3
       (Some {| BusinessLogic.weekday :=
                  Some {| Firebase.open := timeOfDay 8 "30";
                          Firebase.close := timeOfDay 17 "30" |};
                BusinessLogic.weekend :=
                  Some {| Firebase.open := timeOfDay 9 "00";
                          Firebase.close := timeOfDay 15 "00" |} |}))
  = if isWeekendDay 3
    then (9 <=? 17)%Z && (17 <? 15)%Z
    else (8 <=? 17)%Z && (17 <? 17)%Z.
Proof.
  apply (opening_hours_ignore_minutes 8 17 9 15 17 3 "30" "30" "00" "00"); lia.
Defined.

Lemma unknown_number_context (env : Firebase.Env) (initialized : bool) (phoneNumber : string) :
  noMatchOrFailure env initialized phoneNumber ->
  exists c,
    Business.getBusinessContext env initialized None phoneNumber tt = (Returns c, tt)
    /\ Business.aiConfig c = Firebase.getDefaultAIConfig
    /\ Business.schedule c = Firebase.schedule (Firebase.data Firebase.getDefaultBusinessConfig).
Proof.
  intros H.
  assert (Hai : Firebase.getBusinessAIConfig env initialized "default" tt
                = (Returns Firebase.getDefaultAIConfig, tt)).
  { unfold Firebase.getBusinessAIConfig. cbn [String.eqb Ascii.eqb Bool.eqb].
    rewrite orb_true_r. reflexivity. }
  unfold Business.getBusinessContext, tryCatch.
  unfold bind at 1. cbn [ret]. unfold bind at 1.
  rewrite (findBusinessByPhone_default _ _ _ H).
  unfold bind at 1. cbn [Firebase.businessId Firebase.getDefaultBusinessConfig]. rewrite Hai.
  eexists. split; [reflexivity|]. split; reflexivity.
Qed.

(** X21: a caller of a number that belongs to no business hears the
    default greeting, alone from 8 to 17 on the days of the week and
    from 9 to 15 on Saturday and Sunday (the closing hour excluded), and
    followed at any other time by the closed message, which names 08:00
    of the next day on a day of the week and of Monday on a weekend. *)
Theorem unknown_number_greeting (env : Firebase.Env) (initialized : bool)
        (phoneNumber : string) (hour day : Z)
        (H : noMatchOrFailure env initialized phoneNumber) :
  exists c,
    Business.getBusinessContext env initialized None phoneNumber tt = (Returns c, tt)
    /\ TenantTwiml.finalGreeting c hour day
       = if isWeekendDay day then
           if (9 <=? hour)%Z && (hour <? 15)%Z then defaultGreeting
           else (defaultGreeting
                 ++ " We're currently closed. Our next available time is Monday at 08:00. For emergencies, please let me know!")%string
         else
           if (8 <=? hour)%Z && (hour <? 17)%Z then defaultGreeting
           else (defaultGreeting
                 ++ " We're currently closed. Our next available time is tomorrow at 08:00. For emergencies, please let me know!")%string.
Proof.
  destruct (unknown_number_context env initialized phoneNumber H) as (c & Hc & Hai & Hs).
  exists c. split; [exact Hc|].
  unfold TenantTwiml.finalGreeting, BusinessLogic.generateGreeting, BusinessLogic.hoursTable.
  rewrite Hai, Hs.
  replace (Js.truthy (Firebase.greetingMessage Firebase.getDefaultAIConfig)
           && negb (String.eqb (Js.trim (Firebase.greetingMessage Firebase.getDefaultAIConfig)) ""))
    with true by (vm_compute; reflexivity).
  assert (P8 : BusinessLogic.parseInt (BusinessLogic.beforeColon "08:00") = Some 8)
    by (vm_compute; reflexivity).
  assert (P17 : BusinessLogic.parseInt (BusinessLogic.beforeColon "17:00") = Some 17)
    by (vm_compute; reflexivity).
  assert (P9 : BusinessLogic.parseInt (BusinessLogic.beforeColon "09:00") = Some 9)
    by (vm_compute; reflexivity).
  assert (P15 : BusinessLogic.parseInt (BusinessLogic.beforeColon "15:00") = Some 15)
    by (vm_compute; reflexivity).
  unfold BusinessLogic.analyzeBusinessHours.
  cbn [Firebase.schedule Firebase.data Firebase.getDefaultBusinessConfig Firebase.weekdayHours
       Firebase.weekendHours].
  fold (isWeekendDay day).
  destruct (isWeekendDay day); cbn [Firebase.open Firebase.close];
    rewrite ?P8, ?P17, ?P9, ?P15.
  - destruct ((9 <=? hour)%Z && (hour <? 15)%Z); reflexivity.
  - destruct ((8 <=? hour)%Z && (hour <? 17)%Z); reflexivity.
Qed.

Lemma unknown_number_greeting_witness :
  exists c,
    Business.getBusinessContext unreachableDirectory true None "+12792405162" tt = (Returns c, tt)
    /\ TenantTwiml.finalGreeting c 17 5
       = if isWeekendDay 5 then
           if (9 <=? 17)%Z && (17 <? 15)%Z then defaultGreeting
           else (defaultGreeting
                 ++ " We're currently closed. Our next available time is Monday at 08:00. For emergencies, please let me know!")%string
         else
           if (8 <=? 17)%Z && (17 <? 17)%Z then defaultGreeting
           else (defaultGreeting
                 ++ " We're currently closed. Our next available time is tomorrow at 08:00. For emergencies, please let me know!")%string.
Proof.
  apply (unknown_number_greeting unreachableDirectory true "+12792405162" 17 5).
  right. left. exists "UNAVAILABLE"%string. reflexivity.
Defined.

(** * The lead dashboard *)

Lemma merged_highScoreIsEmergency (p k stamp : string) (l : LeadInfo) (speech : string) :
  highScoreIsEmergency (leadDocOf p (mergeAnalysis l (analyzeMessage speech)) k stamp).
Proof.
  unfold highScoreIsEmergency, leadDocOf. cbn [score ld_leadInfo].
  unfold mergeAnalysis, analyzeMessage.
  cbn [a_hasEmergency a_urgencyLevel a_serviceType a_contactInfo name hasEmergency].
  destruct (someIncluded _ emergencyKeywords); [reflexivity|].
  cbn [Js.truthy]. destruct (hasEmergency l); [reflexivity|].
  unfold calculateLeadScore.
  cbn [hasEmergency serviceType contactInfo urgencyLevel name String.eqb Ascii.eqb Bool.eqb].
  destruct (Js.strictEq _ "installation"); [|destruct (Js.truthyOpt (if Js.truthyOpt _ then _ else _))];
    destruct (Js.truthyOpt (name _)); lia.
Qed.

Lemma delivered_highScoreIsEmergency (env : Env) (req : Request) (w : World) :
  (forall p d, leadsContainer w !! p = Some d -> highScoreIsEmergency d) ->
  forall p d, leadsContainer (snd (VoiceStream.handler env req w)) !! p = Some d ->
              highScoreIsEmergency d.
Proof.
  intros Hw.
  destruct (handler_cases env req w)
    as (b & w1 & _ & (_ & Hl1 & _) & [(res & -> & _)|(fd & s & _ & _ & _ & ->)]).
  { cbn [snd]. rewrite Hl1. exact Hw. }
  destruct (processTurn_effect env fd s w1)
    as (ref & s0 & w0 & ai & sfin & w' & _ & Hfin & -> & _ & Hl & _).
  cbn [snd]. rewrite Hl1 in Hl. intros p d.
  destruct Hl as [-> | ->]; [apply Hw|].
  rewrite lookup_insert. destruct (decide (From fd = p)); [|apply Hw].
  intros [= <-]. rewrite Hfin. apply merged_highScoreIsEmergency.
Qed.

Lemma filter_length_mono {A} (f g : A -> bool) (l : list A) :
  Forall (fun x => f x = true -> g x = true) l ->
  (length (List.filter f l) <= length (List.filter g l))%nat.
Proof.
  induction 1 as [|x l Hx _ IH]; [reflexivity|]. cbn.
  destruct (f x).
  - rewrite (Hx eq_refl). cbn. lia.
  - destruct (g x); cbn; lia.
Qed.

(** X23: on the dashboard, the count of high-score leads never exceeds
    the count of emergency leads, and neither exceeds the total: every
    lead document the turn handler has written with a score of 70 or more
    is flagged as an emergency (a lead without the flag scores 65 at
    most). *)
Theorem high_score_leads_are_emergencies (steps : list (Env * Request)) (leads : list LeadDoc)
        (H : storedLeads (deliver steps initialWorld) leads) :
  (LeadDashboard.highScoreLeads leads <= LeadDashboard.emergencyLeads leads)%nat
  /\ (LeadDashboard.emergencyLeads leads <= LeadDashboard.totalLeads leads)%nat.
Proof.
  split; [|apply List.filter_length_le].
  assert (Hinv : forall w,
             (forall p d, leadsContainer w !! p = Some d -> highScoreIsEmergency d) ->
             forall p d, leadsContainer (deliver steps w) !! p = Some d -> highScoreIsEmergency d).
  { clear H. induction steps as [|[env req] rest IH]; intros w Hw; [exact Hw|].
    cbn [deliver]. apply IH. apply delivered_highScoreIsEmergency, Hw. }
  apply filter_length_mono.
  eapply Forall_impl; [exact H|].
  intros d [p Hd] Hs. apply Z.leb_le in Hs.
  eapply (Hinv initialWorld); [|exact Hd|exact Hs].
  intros p' d'. cbn. rewrite lookup_empty. discriminate.
Qed.

Lemma high_score_leads_are_emergencies_witness :
  (LeadDashboard.highScoreLeads
     [leadDocOf "+15550100" (mergeAnalysis initialLeadInfo (analyzeMessage "this is an emergency"))
                "CA1" (now databaseEnv)]
   <= LeadDashboard.emergencyLeads
        [leadDocOf "+15550100" (mergeAnalysis initialLeadInfo (analyzeMessage "this is an emergency"))
                   "CA1" (now databaseEnv)])%nat
  /\ (LeadDashboard.emergencyLeads
        [leadDocOf "+15550100" (mergeAnalysis initialLeadInfo (analyzeMessage "this is an emergency"))
                   "CA1" (now databaseEnv)]
      <= LeadDashboard.totalLeads
           [leadDocOf "+15550100" (mergeAnalysis initialLeadInfo (analyzeMessage "this is an emergency"))
                      "CA1" (now databaseEnv)])%nat.
Proof.
  apply (high_score_leads_are_emergencies
           [(databaseEnv, sampleTurn 0.9 "this is an emergency")]).
  constructor; [|constructor]. exists "+15550100"%string. vm_compute. reflexivity.
Defined.

(** * The plain turn handler *)

Lemma isExchanges_app (a b : list Message) :
  isExchanges a = true -> isExchanges (a ++ b) = isExchanges b.
Proof.
  remember (length a) as n eqn:Hn. revert a Hn.
  induction n as [n IH] using lt_wf_ind. intros a Hn Ha.
  destruct a as [|m1 [|m2 a]]; [reflexivity|discriminate|].
  cbn in Ha |- *. apply andb_true_iff in Ha. destruct Ha as [Hr Ha].
  rewrite Hr. cbn [andb]. eapply IH; [|reflexivity|exact Ha]. subst n. cbn. lia.
Qed.

Lemma basic_handler_isHistory (completion : Outcome string) (req : Request)
      (m : VoiceStreamBasic.Sessions) :
  (forall k h, m !! k = Some h -> isHistory h) ->
  forall k h, snd (VoiceStreamBasic.handler completion req m) !! k = Some h -> isHistory h.
Proof.
  intros Hm.
  unfold VoiceStreamBasic.handler, VoiceStreamBasic.turn, tryCatch.
  destruct (reqBody req) as [fd|]; [|exact Hm].
  destruct (String.eqb (method req) "POST"); [|exact Hm].
  unfold bind at 1, liftOutcome at 1.
  destruct (VoiceStream.hasSpeech _) as [[|]|e]; [|exact Hm|exact Hm].
  destruct (SpeechResult fd) as [|s|items]; [exact Hm| |exact Hm].
  assert (Hgrow : forall h u a,
             isHistory h ->
             isHistory ((h ++ [ {| role := "user"; content := u |} ])
                        ++ [ {| role := "assistant"; content := a |} ])).
  { intros h u a (ex & -> & Hex). exists (ex ++ [ {| role := "user"; content := u |};
                                                  {| role := "assistant"; content := a |} ]).
    split; [cbn; rewrite <- app_assoc; reflexivity|].
    rewrite isExchanges_app by exact Hex. reflexivity. }
  unfold VoiceStreamBasic.getOrCreateSession, VoiceStreamBasic.getAIResponse,
    bind, get, modify, tryCatch, liftOutcome, ret.
  destruct (m !! CallSid fd) as [session|] eqn:Hk; destruct completion as [a|e]; cbn [snd];
    intros k h; rewrite ?insert_insert_eq, lookup_insert;
    (destruct (decide (CallSid fd = k)); [|apply Hm]); intros [= <-];
    [apply Hgrow; eapply Hm, Hk | apply Hgrow; eapply Hm, Hk
    |apply (Hgrow [ {| role := "system"; content := VoiceStreamBasic.systemPrompt |} ]);
     exists []; split; reflexivity
    |apply (Hgrow [ {| role := "system"; content := VoiceStreamBasic.systemPrompt |} ]);
     exists []; split; reflexivity].
Qed.

(** X24: every history the plain turn handler keeps is the system prompt
    followed by whole exchanges (an utterance, then its reply), whatever
    was delivered and whatever the completions answered: the model is
    always asked with the system prompt first, and no utterance is left
    without a reply in the history. *)
Theorem basic_histories_are_exchanges (steps : list (Outcome string * Request))
        (k : string) (h : list Message)
        (H : deliverBasic steps ∅ !! k = Some h) :
  isHistory h.
Proof.
  assert (Hinv : forall m, (forall k h, m !! k = Some h -> isHistory h) ->
                           forall k h, deliverBasic steps m !! k = Some h -> isHistory h).
  { clear. induction steps as [|[completion req] rest IH]; intros m Hm; [exact Hm|].
    cbn [deliverBasic]. apply IH, basic_handler_isHistory, Hm. }
  eapply (Hinv ∅); [|exact H]. intros k' h'. rewrite lookup_empty. discriminate.
Qed.

Lemma basic_histories_are_exchanges_witness :
  isHistory [ {| role := "system"; content := VoiceStreamBasic.systemPrompt |};
              {| role := "user"; content := "my furnace is broken" |};
              {| role := "assistant";
                 content := "I'm sorry, I'm having trouble processing that right now. Could you try again?" |} ].
Proof.
  apply (basic_histories_are_exchanges
           [(Throws "timeout", sampleTurn 0.9 "my furnace is broken")] "CA1").
  vm_compute. reflexivity.
Defined.

(** * The business configuration API *)

(** The authentication block returns in every case, without a write:
    with the user of a verified cookie, with no user when there is no
    bearer header, or with the 401 reply. *)
Lemma authenticate_cases (env : ConfigApi.ApiEnv) (req : ConfigApi.ApiRequest)
      (writes : ConfigApi.Writes) :
  exists r,
    ConfigApi.authenticate env req writes = (Returns r, writes)
    /\ match r with
       | inl None =>
           forall header, ConfigApi.authorization req = Some header ->
                          Js.startsWith header "Bearer " = false
       | inl (Some user) =>
           verifiedAs env req (ConfigApi.userBusinessId user)
       | inr response =>
           response = ConfigApi.errorResponse 401 "Authentication failed" "Invalid session cookie"
           /\ unverifiableCookie env req
       end.
Proof.
  unfold ConfigApi.authenticate, verifiedAs, unverifiableCookie.
  destruct (ConfigApi.authorization req) as [header|] eqn:Hh.
  2:{ eexists (inl None). split; [reflexivity|]. discriminate. }
  destruct (Js.startsWith header "Bearer ") eqn:Hb.
  2:{ rewrite andb_false_r. eexists (inl None). split; [reflexivity|]. congruence. }
  assert (Ht : Js.truthy header = true) by (destruct header; [discriminate|reflexivity]).
  rewrite Ht. cbn [andb].
  unfold tryCatch, ConfigApi.verifySessionCookie, bind, liftOutcome, throw, ret.
  destruct (ConfigApi.initialized env) eqn:Hi; cbn [negb].
  2:{ eexists (inr _). split; [reflexivity|]. split; [reflexivity|]. eauto 10. }
  destruct (ConfigApi.verifyOutcome env _) as [[id mail]|m] eqn:Hv.
  - eexists (inl (Some _)). split; [reflexivity|]. cbn. eauto 10.
  - eexists (inr _). split; [reflexivity|]. split; [reflexivity|]. eauto 10.
Qed.

Lemma getBusinessContext_total (env : Firebase.Env) (initialized : bool)
      (businessId : option string) (phoneNumber : string) :
  exists c, Business.getBusinessContext env initialized businessId phoneNumber tt = (Returns c, tt).
Proof.
  unfold Business.getBusinessContext, tryCatch.
  match goal with |- context [match ?c tt with _ => _ end] => destruct (c tt) as [[c0|m] []] end;
    eauto.
Qed.

Lemma getBusinessData_total (env : Firebase.Env) (initialized : bool) (businessId : string) :
  exists d, Firebase.getBusinessData env initialized businessId tt = (Returns d, tt).
Proof.
  unfold Firebase.getBusinessData, tryCatch, liftOutcome.
  destruct (negb initialized || String.eqb businessId "default"); [eauto|].
  destruct (Firebase.businessDoc env businessId); eauto.
Qed.

Lemma liftUnit_returns {A} (c : Eff unit A) (a : A) (writes : ConfigApi.Writes) :
  c tt = (Returns a, tt) -> ConfigApi.liftUnit c writes = (Returns a, writes).
Proof. intros H. unfold ConfigApi.liftUnit. rewrite H. reflexivity. Qed.

(** A lookup returns without a write; what it serves by id, and the
    full business document, go to the owner alone. *)
Lemma handleGetRequest_effect (env : ConfigApi.ApiEnv) (req : ConfigApi.ApiRequest)
      (user : option ConfigApi.User) (writes : ConfigApi.Writes) :
  exists res,
    ConfigApi.handleGetRequest env req user writes = (Returns res, writes)
    /\ (forall data full,
          ConfigApi.api_body res = ConfigApi.ConfigBody data ->
          ConfigApi.rd_full data = Some full ->
          exists u, user = Some u /\ ConfigApi.userBusinessId u = ConfigApi.rd_businessId data)
    /\ (Js.truthyOpt (ConfigApi.q_phoneNumber req) = false ->
        ConfigApi.api_status res = 200 ->
        exists u, user = Some u
                  /\ (Js.truthyOpt (ConfigApi.q_businessId req) = true ->
                      ConfigApi.q_businessId req = Some (ConfigApi.userBusinessId u))).
Proof.
  unfold ConfigApi.handleGetRequest.
  set (businessId := ConfigApi.orElse _ _).
  destruct (negb (Js.truthyOpt businessId) && negb (Js.truthyOpt (ConfigApi.q_phoneNumber req))).
  { eexists. split; [reflexivity|]. split; [discriminate|]. discriminate. }
  unfold tryCatch. unfold bind at 1.
  assert (Hserve : forall c,
             exists res,
               (let (o, w') :=
                  (fullBusinessData <-
                     match user with
                     | Some user0 =>
                         if String.eqb (ConfigApi.userBusinessId user0) (Business.businessId c)
                         then ConfigApi.liftUnit
                                (Firebase.getBusinessData (ConfigApi.firebase env)
                                   (ConfigApi.initialized env) (Business.businessId c))
                         else ret None
                     | None => ret None
                     end;;
                   ret {| ConfigApi.api_status := 200;
                          ConfigApi.api_body :=
                            ConfigApi.ConfigBody
                              {| ConfigApi.rd_businessId := Business.businessId c;
                                 ConfigApi.rd_found := Business.found c;
                                 ConfigApi.rd_isDefault := Business.isDefault c;
                                 ConfigApi.rd_companyName := Business.companyName c;
                                 ConfigApi.rd_industry := Business.industry c;
                                 ConfigApi.rd_services := Business.contextServices c;
                                 ConfigApi.rd_aiAssistant := Business.aiConfig c;
                                 ConfigApi.rd_emergencyKeywords := Business.contextEmergencyKeywords c;
                                 ConfigApi.rd_template :=
                                   Business.template (Business.industryTemplate c);
                                 ConfigApi.rd_schedule := Business.schedule c;
                                 ConfigApi.rd_full := fullBusinessData |} |}) writes in
                match o with
                | Returns a => (Returns a, w')
                | Throws message =>
                    ret (ConfigApi.errorResponse 500 "Failed to retrieve business configuration"
                                                 message) w'
                end) = (Returns res, writes)
               /\ (forall data full,
                     ConfigApi.api_body res = ConfigApi.ConfigBody data ->
                     ConfigApi.rd_full data = Some full ->
                     exists u, user = Some u
                               /\ ConfigApi.userBusinessId u = ConfigApi.rd_businessId data)).
  { intros c. unfold bind.
    destruct user as [u|].
    - destruct (String.eqb (ConfigApi.userBusinessId u) (Business.businessId c)) eqn:E.
      + destruct (getBusinessData_total (ConfigApi.firebase env) (ConfigApi.initialized env)
                    (Business.businessId c)) as (d & Hd).
        rewrite (liftUnit_returns _ _ _ Hd). eexists. split; [reflexivity|].
        intros data full [= <-] _. exists u. split; [reflexivity|].
        apply String.eqb_eq, E.
      + eexists. split; [reflexivity|]. intros data full [= <-]. discriminate.
    - eexists. split; [reflexivity|]. intros data full [= <-]. discriminate. }
  destruct (Js.truthyOpt (ConfigApi.q_phoneNumber req)) eqn:Hp.
  - destruct (getBusinessContext_total (ConfigApi.firebase env) (ConfigApi.serviceInitialized env)
                None (default "" (ConfigApi.q_phoneNumber req))) as (c & Hc).
    unfold bind at 1. rewrite (liftUnit_returns _ _ _ Hc). cbn [ret].
    destruct (Hserve c) as (res & Hres & Hfull).
    exists res. split; [exact Hres|]. split; [exact Hfull|]. discriminate.
  - destruct user as [u|].
    2:{ eexists. split; [reflexivity|]. split; [discriminate|]. discriminate. }
    destruct (Js.strictEq businessId (ConfigApi.userBusinessId u)) eqn:Hid; cbn [negb].
    2:{ eexists. split; [reflexivity|]. split; [discriminate|]. discriminate. }
    destruct (getBusinessContext_total (ConfigApi.firebase env) (ConfigApi.serviceInitialized env)
                businessId ConfigApi.nullNumber) as (c & Hc).
    unfold bind at 1. rewrite (liftUnit_returns _ _ _ Hc). cbn [ret].
    destruct (Hserve c) as (res & Hres & Hfull).
    exists res. split; [exact Hres|]. split; [exact Hfull|].
    intros _ _. exists u. split; [reflexivity|]. intros Hq.
    subst businessId. unfold ConfigApi.orElse in Hid. rewrite Hq in Hid.
    destruct (ConfigApi.q_businessId req) as [q|]; [|discriminate].
    cbn in Hid. apply String.eqb_eq in Hid. congruence.
Qed.

(** An update returns in every case; it requests at most one write, for
    the business of the user, with the update of the body as it came. *)
Lemma handleUpdateRequest_effect (env : ConfigApi.ApiEnv) (req : ConfigApi.ApiRequest)
      (user : option ConfigApi.User) (writes : ConfigApi.Writes) :
  exists res writes',
    ConfigApi.handleUpdateRequest env req user writes = (Returns res, writes')
    /\ (writes' = writes
        \/ exists u update,
            user = Some u
            /\ writes' = writes ++ [(ConfigApi.userBusinessId u, update)]
            /\ ConfigApi.userBusinessId u <> "default"%string
            /\ ConfigApi.api_reqBody req ≫= ConfigApi.b_aiConfig = Some update).
Proof.
  unfold ConfigApi.handleUpdateRequest.
  destruct user as [u|]; [|eexists _, _; split; [reflexivity|left; reflexivity]].
  set (target := if Js.truthyOpt _ then _ else _).
  destruct (String.eqb (ConfigApi.userBusinessId u) target) eqn:Ht; cbn [negb];
    [|eexists _, _; split; [reflexivity|left; reflexivity]].
  apply String.eqb_eq in Ht. rewrite <- Ht. clear target Ht.
  unfold tryCatch.
  destruct (ConfigApi.api_reqBody req ≫= ConfigApi.b_testVoice) as [voice|];
    [eexists _, _; split; [reflexivity|left; reflexivity]|].
  destruct (ConfigApi.api_reqBody req ≫= ConfigApi.b_aiConfig) as [config|];
    [|eexists _, _; split; [reflexivity|left; reflexivity]].
  unfold bind at 1, ConfigApi.updateBusinessAIConfig.
  destruct (negb (ConfigApi.initialized env)); cbn [orb];
    [eexists _, _; split; [reflexivity|left; reflexivity]|].
  destruct (String.eqb (ConfigApi.userBusinessId u) "default") eqn:Hd;
    [eexists _, _; split; [reflexivity|left; reflexivity]|].
  apply String.eqb_neq in Hd.
  unfold tryCatch, bind at 1.
  destruct (ConfigApi.setOutcome env) as [[]|m].
  - cbn [ret].
    destruct (getBusinessContext_total (ConfigApi.firebase env) (ConfigApi.serviceInitialized env)
                (Some (ConfigApi.userBusinessId u)) ConfigApi.nullNumber) as (c & Hc).
    unfold bind at 1. rewrite (liftUnit_returns _ _ _ Hc). cbn [ret].
    eexists _, _. split; [reflexivity|]. right. exists u, config. auto.
  - cbn [ret]. eexists _, _. split; [reflexivity|]. right. exists u, config. auto.
Qed.

(** X25: the configuration API never lets an exception out, and writes
    to the AI configurations for the owner alone: a request leaves the
    collection untouched or requests one write, and then it is a POST or
    a PUT with a bearer cookie verified as the session of a user, the
    written document is the one of that user's own business (never the
    default one), and the update is the [aiConfig] of the body, as it
    came. *)
Theorem config_writes_are_own_business (env : ConfigApi.ApiEnv) (req : ConfigApi.ApiRequest)
        (writes : ConfigApi.Writes) :
  exists res writes',
    ConfigApi.handler env req writes = (Returns res, writes')
    /\ (writes' = writes
        \/ exists id update,
            writes' = writes ++ [(id, update)]
            /\ verifiedAs env req id
            /\ id <> "default"%string
            /\ (ConfigApi.api_method req = "POST"%string \/ ConfigApi.api_method req = "PUT"%string)
            /\ ConfigApi.api_reqBody req ≫= ConfigApi.b_aiConfig = Some update).
Proof.
  unfold ConfigApi.handler.
  destruct (String.eqb (ConfigApi.api_method req) "OPTIONS");
    [eexists _, _; split; [reflexivity|left; reflexivity]|].
  destruct (authenticate_cases env req writes) as (r & Ha & Hr).
  unfold tryCatch, bind at 1. rewrite Ha.
  destruct r as [user|response]; [|eexists _, _; split; [reflexivity|left; reflexivity]].
  destruct (String.eqb (ConfigApi.api_method req) "GET").
  { destruct (handleGetRequest_effect env req user writes) as (res & -> & _).
    eexists _, _. split; [reflexivity|left; reflexivity]. }
  destruct (String.eqb (ConfigApi.api_method req) "POST") eqn:E1;
    [|destruct (String.eqb (ConfigApi.api_method req) "PUT") eqn:E2]; cbn [orb];
    try (eexists _, _; split; [reflexivity|left; reflexivity]);
    (destruct (handleUpdateRequest_effect env req user writes) as (res & writes' & -> & Hw);
     eexists _, _; (split; [reflexivity|]);
     destruct Hw as [->|(u & update & -> & -> & Hd & Hb)]; [left; reflexivity|];
     right; exists (ConfigApi.userBusinessId u), update;
     split; [reflexivity|]; split; [exact Hr|]; split; [exact Hd|]; split; [|exact Hb]).
  - left. apply String.eqb_eq, E1.
  - right. apply String.eqb_eq, E2.
Qed.

(** X26: what the API serves of a business goes to its owner: a
    response that carries the full business document, and every
    successful lookup by business id alone (without a phone number),
    answers a request whose bearer cookie was verified as the session of
    the owner of that business. *)
Theorem business_data_is_served_to_its_owner (env : ConfigApi.ApiEnv) (req : ConfigApi.ApiRequest)
        (writes writes' : ConfigApi.Writes) (res : ConfigApi.ApiResponse)
        (H : ConfigApi.handler env req writes = (Returns res, writes')) :
  (forall data full,
      ConfigApi.api_body res = ConfigApi.ConfigBody data ->
      ConfigApi.rd_full data = Some full ->
      verifiedAs env req (ConfigApi.rd_businessId data))
  /\ (forall id,
        ConfigApi.api_method req = "GET"%string ->
        Js.truthyOpt (ConfigApi.q_phoneNumber req) = false ->
        ConfigApi.q_businessId req = Some id ->
        id <> EmptyString ->
        ConfigApi.api_status res = 200 ->
        verifiedAs env req id).
Proof.
  unfold ConfigApi.handler in H.
  destruct (String.eqb (ConfigApi.api_method req) "OPTIONS") eqn:Eo.
  { injection H as <- _. split; [discriminate|]. intros id Hm. rewrite Hm in Eo. discriminate. }
  destruct (authenticate_cases env req writes) as (r & Ha & Hr).
  unfold tryCatch, bind at 1 in H. rewrite Ha in H.
  destruct r as [user|response].
  { destruct (String.eqb (ConfigApi.api_method req) "GET") eqn:Eg.
    - destruct (handleGetRequest_effect env req user writes) as (res0 & Hget & Hfull & Hid).
      rewrite Hget in H. injection H as <- _. split.
      + intros data full Hb Hf. destruct (Hfull data full Hb Hf) as (u & -> & <-). exact Hr.
      + intros id _ Hp Hq Hne Hs.
        destruct (Hid Hp Hs) as (u & -> & Hown).
        assert (Hq' : Js.truthyOpt (ConfigApi.q_businessId req) = true).
        { rewrite Hq. destruct id; [congruence|reflexivity]. }
        specialize (Hown Hq'). rewrite Hq in Hown. injection Hown as ->. exact Hr.
    - split; [|intros id Hm; rewrite Hm in Eg; discriminate].
      intros data full Hb. exfalso. revert H Hb.
      destruct (String.eqb (ConfigApi.api_method req) "POST"
                || String.eqb (ConfigApi.api_method req) "PUT");
        [|intros [= <- _]; discriminate].
      unfold ConfigApi.handleUpdateRequest.
      destruct user as [u|]; [|intros [= <- _]; discriminate].
      destruct (negb (String.eqb _ _)); [intros [= <- _]; discriminate|].
      unfold tryCatch.
      destruct (ConfigApi.api_reqBody req ≫= ConfigApi.b_testVoice);
        [intros [= <- _]; discriminate|].
      destruct (ConfigApi.api_reqBody req ≫= ConfigApi.b_aiConfig);
        [|intros [= <- _]; discriminate].
      unfold bind at 1.
      destruct (ConfigApi.updateBusinessAIConfig env _ _ writes) as [[[|]|m] w'];
        try (intros [= <- _]; discriminate).
      unfold bind at 1.
      match goal with |- context [ConfigApi.liftUnit ?c w'] =>
        destruct (ConfigApi.liftUnit c w') as [[c0|m] w'']
      end; intros [= <- _]; discriminate. }
  destruct Hr as [-> _]. injection H as <- _.
  split; [discriminate|]. intros id _ _ _ _ Hs. discriminate Hs.
Qed.

Lemma business_data_is_served_to_its_owner_witness :
  verifiedAs ownerEnv ownerLookup "biz-17".
Proof.
  pose proof (business_data_is_served_to_its_owner ownerEnv ownerLookup [] _ _ eq_refl)
    as [_ H].
  apply H; [reflexivity|reflexivity|reflexivity|discriminate|reflexivity].
Defined.

(** X27: a request with a bearer cookie that cannot be verified (the
    verification fails, or Firebase is not initialised) is refused with
    401 and writes nothing, whatever it asks for, the public lookup by
    phone number included; only the OPTIONS preflight is answered. *)
Theorem unverifiable_cookie_is_refused (env : ConfigApi.ApiEnv) (req : ConfigApi.ApiRequest)
        (writes : ConfigApi.Writes)
        (Hm : ConfigApi.api_method req <> "OPTIONS"%string)
        (Hc : unverifiableCookie env req) :
  ConfigApi.handler env req writes
  = (Returns (ConfigApi.errorResponse 401 "Authentication failed" "Invalid session cookie"),
     writes).
Proof.
  destruct Hc as (header & Hh & Hb & Hv).
  unfold ConfigApi.handler. apply String.eqb_neq in Hm. rewrite Hm.
  unfold tryCatch, bind at 1, ConfigApi.authenticate. rewrite Hh, Hb.
  assert (Ht : Js.truthy header = true) by (destruct header; [discriminate|reflexivity]).
  rewrite Ht. cbn [andb].
  unfold tryCatch, ConfigApi.verifySessionCookie, bind, liftOutcome, throw, ret.
  destruct Hv as [-> | [m Hv]]; [reflexivity|].
  destruct (ConfigApi.initialized env); [|reflexivity]. cbn [negb]. rewrite Hv. reflexivity.
Qed.

Lemma unverifiable_cookie_is_refused_witness :
  ConfigApi.handler ownerEnv staleLookup []
  = (Returns (ConfigApi.errorResponse 401 "Authentication failed" "Invalid session cookie"), []).
Proof.
  apply unverifiable_cookie_is_refused; [discriminate|].
  exists "Bearer stale-cookie"%string. split; [reflexivity|]. split; [reflexivity|].
  right. exists "auth/invalid-session-cookie"%string. reflexivity.
Defined.

Lemma authenticate_verified (env : ConfigApi.ApiEnv) (req : ConfigApi.ApiRequest)
      (writes : ConfigApi.Writes) (id : string) :
  verifiedAs env req id ->
  exists mail,
    ConfigApi.authenticate env req writes
    = (Returns (inl (Some {| ConfigApi.uid := id; ConfigApi.email := mail;
                             ConfigApi.userBusinessId := id |})), writes).
Proof.
  intros (header & mail & Hh & Hb & Hinit & Hver). exists mail.
  unfold ConfigApi.authenticate. rewrite Hh, Hb.
  assert (Htr : Js.truthy header = true) by (destruct header; [discriminate|reflexivity]).
  rewrite Htr. cbn [andb].
  unfold ConfigApi.verifySessionCookie. rewrite Hinit. cbn [negb].
  unfold tryCatch, bind, liftOutcome. rewrite Hver. reflexivity.
Qed.

(** X28: an update of the owner is stored as it was sent: with a
    verified cookie, an [aiConfig] in the body and a write that
    completes, the handler requests the write of that [aiConfig] to the
    owner's document and answers 200, whatever [validateAIConfig] would say
    of the update (the handler does not call it). *)
Theorem owner_update_is_stored_as_sent (env : ConfigApi.ApiEnv) (req : ConfigApi.ApiRequest)
        (writes : ConfigApi.Writes) (id : string) (update : ConfigApi.ConfigUpdate)
        (Hv : verifiedAs env req id)
        (Hm : ConfigApi.api_method req = "POST"%string \/ ConfigApi.api_method req = "PUT"%string)
        (Hi : Js.truthyOpt (ConfigApi.api_reqBody req ≫= ConfigApi.b_businessId) = false
              \/ ConfigApi.api_reqBody req ≫= ConfigApi.b_businessId = Some id)
        (Hu : ConfigApi.api_reqBody req ≫= ConfigApi.b_aiConfig = Some update)
        (Ht : ConfigApi.api_reqBody req ≫= ConfigApi.b_testVoice = None)
        (Hd : id <> "default"%string)
        (Hs : ConfigApi.setOutcome env = Returns tt) :
  exists aiAssistant companyName,
    ConfigApi.handler env req writes
    = (Returns {| ConfigApi.api_status := 200;
                  ConfigApi.api_body := ConfigApi.UpdatedBody id aiAssistant companyName |},
       writes ++ [(id, update)]).
Proof.
  destruct (authenticate_verified env req writes id Hv) as (mail & Hauth).
  destruct Hv as (header & _ & _ & _ & Hinit & _).
  assert (Hmethod : String.eqb (ConfigApi.api_method req) "OPTIONS" = false
                    /\ String.eqb (ConfigApi.api_method req) "GET" = false
                    /\ String.eqb (ConfigApi.api_method req) "POST"
                       || String.eqb (ConfigApi.api_method req) "PUT" = true).
  { destruct Hm as [-> | ->]; repeat split; reflexivity. }
  destruct Hmethod as (Mo & Mg & Mp).
  unfold ConfigApi.handler. rewrite Mo.
  unfold tryCatch, bind at 1. rewrite Hauth, Mg, Mp.
  unfold ConfigApi.handleUpdateRequest. cbv zeta. cbn [ConfigApi.userBusinessId].
  assert (Htarget : (if Js.truthyOpt (ConfigApi.api_reqBody req ≫= ConfigApi.b_businessId)
                     then default ""%string (ConfigApi.api_reqBody req ≫= ConfigApi.b_businessId)
                     else id) = id).
  { destruct Hi as [-> | ->]; [reflexivity|]. cbn. destruct (Js.truthy id); reflexivity. }
  rewrite Htarget, String.eqb_refl, Ht, Hu. cbn [negb].
  unfold tryCatch, bind at 1, ConfigApi.updateBusinessAIConfig.
  rewrite Hinit. apply String.eqb_neq in Hd. rewrite Hd. cbn [negb orb].
  unfold tryCatch, bind at 1. rewrite Hs. cbn [ret].
  destruct (getBusinessContext_total (ConfigApi.firebase env) (ConfigApi.serviceInitialized env)
              (Some id) ConfigApi.nullNumber) as (c & Hc).
  unfold bind at 1. rewrite (liftUnit_returns _ _ _ Hc). cbn [ret].
  eexists _, _. reflexivity.
Qed.

Lemma owner_update_is_stored_as_sent_witness :
  ConfigApi.validateAIConfig faultyUpdate
  = ["Invalid voice style"; "Buffer time must be between 0 and 60 minutes"]%string
  /\ exists aiAssistant companyName,
      ConfigApi.handler ownerEnv ownerUpdate []
      = (Returns {| ConfigApi.api_status := 200;
                    ConfigApi.api_body :=
                      ConfigApi.UpdatedBody "biz-17" aiAssistant companyName |},
         [] ++ [("biz-17"%string, faultyUpdate)]).
Proof.
  split; [reflexivity|].
  apply (owner_update_is_stored_as_sent ownerEnv ownerUpdate [] "biz-17" faultyUpdate).
  - exists "Bearer owner-cookie"%string, (Some "owner@harbor.example"%string).
    repeat split; reflexivity.
  - left. reflexivity.
  - left. reflexivity.
  - reflexivity.
  - reflexivity.
  - discriminate.
  - reflexivity.
Defined.

(** * Tenant-scoped sessions *)

Lemma noUnderscore_app (a b : string) :
  noUnderscore (a ++ String "_" b)%string = false.
Proof.
  unfold noUnderscore. rewrite allUnits_app. cbn. apply andb_false_r.
Qed.

Lemma noUnderscore_sessionId (b c : string) :
  noUnderscore (MultiTenantCosmosDB.sessionId b c) = false.
Proof. apply noUnderscore_app. Qed.

Lemma sessionId_injective (b1 c1 b2 c2 : string) :
  noUnderscore c1 = true -> noUnderscore c2 = true ->
  MultiTenantCosmosDB.sessionId b1 c1 = MultiTenantCosmosDB.sessionId b2 c2 ->
  b1 = b2 /\ c1 = c2.
Proof.
  unfold MultiTenantCosmosDB.sessionId. intros H1 H2.
  revert b2. induction b1 as [|x b1 IH]; intros [|y b2] H; cbn in H.
  - injection H as ->. auto.
  - injection H as <- ->. rewrite noUnderscore_app in H1. discriminate.
  - injection H as -> <-. rewrite noUnderscore_app in H2. discriminate.
  - injection H as -> H. destruct (IH _ H) as [-> ->]. auto.
Qed.

(** X29: the ids of the sessions keep the tenants apart: for call
    identifiers without an underscore, two scoped sessions have the same
    id only for the same business and the same call, and the id of a
    scoped session is never the id of a legacy session. *)
Theorem session_ids_do_not_collide (b1 c1 b2 c2 : string)
        (H1 : noUnderscore c1 = true) (H2 : noUnderscore c2 = true) :
  (MultiTenantCosmosDB.sessionId b1 c1 = MultiTenantCosmosDB.sessionId b2 c2 ->
   b1 = b2 /\ c1 = c2)
  /\ MultiTenantCosmosDB.sessionId b1 c1 <> c2.
Proof.
  split; [apply sessionId_injective; assumption|].
  intros E. rewrite <- E, noUnderscore_sessionId in H2. discriminate.
Qed.

Lemma session_ids_do_not_collide_witness :
  (MultiTenantCosmosDB.sessionId "biz-17" "CA1" = MultiTenantCosmosDB.sessionId "biz-17" "CA1" ->
   "biz-17"%string = "biz-17"%string /\ "CA1"%string = "CA1"%string)
  /\ MultiTenantCosmosDB.sessionId "biz-17" "CA1" <> "CA1"%string.
Proof.
  apply (session_ids_do_not_collide "biz-17" "CA1" "biz-17" "CA1"); reflexivity.
Defined.

(** X30: a session that [createSession] returned is in the container
    under its id.  A scoped session is found again by [getSession] for
    its business and its call.  A session created by the legacy fallback
    (the scoped creation failed) is not a multi-tenant session, and
    [getSession] finds it only when the database reports the missing
    scoped document by throwing the error 404: when it reports it by an
    empty resource, [getSession] answers [null] for the call that was
    just created. *)
Theorem created_session_is_found (env : MultiTenantCosmosDB.DbEnv)
        (container container' : MultiTenantCosmosDB.Conversations)
        (businessId callSid customerPhone : string) (businessData : Firebase.BusinessData)
        (doc : MultiTenantCosmosDB.SessionDoc)
        (Hc : MultiTenantCosmosDB.createSession env businessId callSid customerPhone businessData
                                                container
              = (Returns doc, container'))
        (Hr : forall id, MultiTenantCosmosDB.readFailure env id = None)
        (Hu : noUnderscore callSid = true) :
  container' !! MultiTenantCosmosDB.sd_id doc = Some doc
  /\ (MultiTenantCosmosDB.sd_businessScoped doc = true ->
      MultiTenantCosmosDB.getSession env container' businessId callSid = Some doc
      /\ MultiTenantCosmosDB.isMultiTenantSession (Some doc) = Js.truthy businessId)
  /\ (MultiTenantCosmosDB.sd_businessScoped doc = false ->
      container !! MultiTenantCosmosDB.sessionId businessId callSid = None ->
      MultiTenantCosmosDB.isMultiTenantSession (Some doc) = false
      /\ MultiTenantCosmosDB.getSession env container' businessId callSid
         = if MultiTenantCosmosDB.missingThrows env then Some doc else None).
Proof.
  unfold MultiTenantCosmosDB.createSession, MultiTenantCosmosDB.createLegacySession,
    MultiTenantCosmosDB.createItem, tryCatch, throw in Hc.
  cbn [MultiTenantCosmosDB.sd_id] in Hc.
  assert (Hcases :
            (MultiTenantCosmosDB.sd_businessScoped doc = true
             /\ MultiTenantCosmosDB.sd_id doc = MultiTenantCosmosDB.sessionId businessId callSid
             /\ MultiTenantCosmosDB.sd_businessId doc = Some businessId
             /\ container' = <[MultiTenantCosmosDB.sessionId businessId callSid := doc]> container)
            \/ (MultiTenantCosmosDB.sd_businessScoped doc = false
                /\ MultiTenantCosmosDB.sd_id doc = callSid
                /\ MultiTenantCosmosDB.sd_businessId doc = None
                /\ container' = <[callSid := doc]> container)).
  { destruct (MultiTenantCosmosDB.scopedCreateOutcome env) as [[]|m].
    - destruct (container !! MultiTenantCosmosDB.sessionId businessId callSid).
      + right.
        match type of Hc with
        | context [match ?x with _ => _ end] =>
            destruct x as [o c0] eqn:E
        end.
        destruct o as [d|m]; [|discriminate]. injection Hc as -> ->.
        revert E.
        destruct (MultiTenantCosmosDB.legacyCreateOutcome env); [|discriminate].
        destruct (container !! callSid); [discriminate|]. intros [= <- <-]. auto.
      + left. injection Hc as <- <-. auto.
    - right.
      match type of Hc with
      | context [match ?x with _ => _ end] =>
          destruct x as [o c0] eqn:E
      end.
      destruct o as [d|m']; [|discriminate]. injection Hc as -> ->.
      revert E.
      destruct (MultiTenantCosmosDB.legacyCreateOutcome env); [|discriminate].
      destruct (container !! callSid); [discriminate|]. intros [= <- <-]. auto. }
  clear Hc.
  unfold MultiTenantCosmosDB.getSession, MultiTenantCosmosDB.getLegacySession,
    MultiTenantCosmosDB.readItem, MultiTenantCosmosDB.isMultiTenantSession.
  rewrite !Hr.
  destruct Hcases as [(Hs & Hid & Hb & ->) | (Hs & Hid & Hb & ->)]; rewrite Hs, Hid, Hb.
  - rewrite lookup_insert_eq. split; [reflexivity|]. split; [|discriminate].
    intros _. split; reflexivity.
  - rewrite lookup_insert_eq. split; [reflexivity|]. split; [discriminate|].
    intros _ Hfree. split; [reflexivity|].
    assert (Hne : callSid <> MultiTenantCosmosDB.sessionId businessId callSid).
    { intros E. rewrite E, noUnderscore_sessionId in Hu. discriminate. }
    rewrite lookup_insert_ne by exact Hne. rewrite Hfree.
    destruct (MultiTenantCosmosDB.missingThrows env); [|reflexivity].
    cbn. reflexivity.
Qed.

Lemma created_session_is_found_witness :
  MultiTenantCosmosDB.isMultiTenantSession (Some legacySample) = false
  /\ MultiTenantCosmosDB.getSession degradedDb (<["CA1"%string := legacySample]> ∅) "biz-17" "CA1"
     = None.
Proof.
  assert (Hc : MultiTenantCosmosDB.createSession
                 degradedDb "biz-17" "CA1" "+15550100"
                 {| Firebase.profile := None; Firebase.services := None;
                    Firebase.schedule := None |} ∅
               = (Returns legacySample, <["CA1"%string := legacySample]> ∅))
    by (vm_compute; reflexivity).
  apply (proj2 (proj2 (created_session_is_found _ _ _ _ _ _ _ _
                                                Hc (fun _ => eq_refl) eq_refl)));
    reflexivity.
Defined.
